(** * Hotel booking planner: the selection model of [App.tsx] and its Redux slices

    A shallow embedding of the state-carrying part of the application:
    the three Redux slices ([tripConfigSlice], [dailySelectionsSlice],
    [loadingSlice]), the date-range deriver [buildTripDates], the event
    handlers of [App] and the pricing aggregation.

    Conventions of the embedding.
    - A JavaScript [number] is [NaN] or an exact rational; infinities and
      the sign of zero are not represented. The prices are added as
      doubles, with the rounding of IEEE 754 ([double_add]).
    - An optional property of an object is an [option]: a property that is
      absent and a property that holds [undefined] are the same [None]
      (the program only ever reads such a property, it never enumerates
      keys or asks [in]).
    - A [Record<string, T>] is a finite map [gmap string T].
    - A reducer written against an Immer draft is the function from the old
      state to the new state.
    - The host (time zone, date parser beyond the ISO date-only form) is an
      explicit argument. *)

From Stdlib Require Import ZArith QArith Qround Qabs Lia List String Ascii Bool.
From stdpp Require Import gmap strings list fin_maps.

Local Open Scope Z_scope.

(** ** JavaScript values *)

Inductive number : Type :=
| NaN
| Num (q : Q).

Definition num_of_Z (z : Z) : number := Num (inject_Z z).

(** [ToBoolean] on a number: [NaN] and zero are falsy. *)
Definition ToBoolean (n : number) : bool :=
  match n with
  | NaN => false
  | Num q => negb (Qeq_bool q 0)
  end.

(** [ToBoolean] on [number | undefined]. *)
Definition truthy (v : option number) : bool :=
  match v with
  | None => false
  | Some n => ToBoolean n
  end.

(** [a || b] on numbers. *)
Definition num_or (a b : number) : number :=
  if ToBoolean a then a else b.

(** [a + b] where both operands are whole numbers far below 2^53, as the
    day of the month plus an index: the sum of such doubles is exact. *)
Definition num_add (a b : number) : number :=
  match a, b with
  | Num x, Num y => Num (x + y)
  | _, _ => NaN
  end.

(** The power of two [2^k], for any integer [k]. *)
Definition pow2 (k : Z) : Q :=
  if 0 <=? k then inject_Z (2 ^ k) else 1 # Z.to_pos (2 ^ (- k)).

(** The integer [k] with [2^k <= q < 2^(k+1)], for a positive [q]. *)
Definition binade (q : Q) : Z :=
  let k := Z.log2 (Qnum q) - Z.log2 (Zpos (Qden q)) in
  if Qle_bool (pow2 k) q then k else k - 1.

(** The integer nearest to [q]; the even one of the two when [q] lies
    halfway between them. *)
Definition roundHalfEven (q : Q) : Z :=
  let f := Qfloor q in
  match (q - inject_Z f ?= 1 # 2)%Q with
  | Lt => f
  | Gt => f + 1
  | Eq => if Z.even f then f else f + 1
  end.

(** The double nearest to the real number [q], ties to even (binary64: 53
    significant bits, the exponent of the last bit at least -1074). Past
    the largest double the code has [Infinity]; here the exponent has no
    upper limit. *)
Definition roundDouble (q : Q) : Q :=
  if Qeq_bool q 0 then 0%Q
  else
    let e := Z.max (binade (Qabs q) - 52) (-1074) in
    Qred (inject_Z (roundHalfEven (q / pow2 e)) * pow2 e).

(** [a + b] on doubles: adding zero gives the other operand, any other sum
    is rounded to the nearest double. *)
Definition double_add (a b : number) : number :=
  match a, b with
  | Num x, Num y =>
      if Qeq_bool y 0 then Num x
      else if Qeq_bool x 0 then Num y
      else Num (roundDouble (x + y))
  | _, _ => NaN
  end.

(** [a < b] on numbers; any comparison with [NaN] is false. *)
Definition num_lt (a b : number) : bool :=
  match a, b with
  | Num x, Num y => negb (Qle_bool y x)
  | _, _ => false
  end.

(** [a === b] on numbers; [NaN] equals nothing. *)
Definition num_eq (a b : number) : bool :=
  match a, b with
  | Num x, Num y => Qeq_bool x y
  | _, _ => false
  end.

(** [a === b] where [b] may be [undefined]. *)
Definition strict_eq (a : number) (b : option number) : bool :=
  match b with
  | None => false
  | Some b' => num_eq a b'
  end.

(** Truncation towards zero, the integer part used by [ToIntegerOrInfinity]. *)
Definition Qtrunc (q : Q) : Z :=
  if Qle_bool 0 q then Qfloor q else Qceiling q.

(** Errors a built-in can throw. *)
Inductive error : Type :=
| RangeError.

(** The outcome of evaluating an expression: a value or a thrown error. *)
Inductive completion (A : Type) : Type :=
| Normal (a : A)
| Throw (e : error).
Arguments Normal {A} a.
Arguments Throw {A} e.

Definition bind {A B : Type} (c : completion A) (k : A -> completion B)
  : completion B :=
  match c with
  | Normal a => k a
  | Throw e => Throw e
  end.

(** Calls [f] on every element in order; the first throw ends the loop. *)
Fixpoint mapM {A B : Type} (f : A -> completion B) (l : list A)
  : completion (list B) :=
  match l with
  | [] => Normal []
  | x :: r =>
      bind (f x) (fun y => bind (mapM f r) (fun ys => Normal (y :: ys)))
  end.

(** ** [store/slices/dailySelectionsSlice.ts] *)

Record DailySelection : Type := mkSelection {
  hotelId : option number;
  lunchId : option number;
  dinnerId : option number
}.

(** The object literal [{}]. *)
Definition emptySelection : DailySelection :=
  {| hotelId := None; lunchId := None; dinnerId := None |}.

(** The union type ['lunchId' | 'dinnerId']. *)
Inductive MealField : Type :=
| F_lunchId
| F_dinnerId.

(** [record[field]] *)
Definition getField (f : MealField) (r : DailySelection) : option number :=
  match f with
  | F_lunchId => lunchId r
  | F_dinnerId => dinnerId r
  end.

(** [record[field] = v] *)
Definition setField (f : MealField) (v : option number) (r : DailySelection)
  : DailySelection :=
  match f with
  | F_lunchId => {| hotelId := hotelId r; lunchId := v; dinnerId := dinnerId r |}
  | F_dinnerId => {| hotelId := hotelId r; lunchId := lunchId r; dinnerId := v |}
  end.

(** [delete record[field]] *)
Definition deleteField (f : MealField) (r : DailySelection) : DailySelection :=
  setField f None r.

(** [record.hotelId = v] *)
Definition setHotelId (v : option number) (r : DailySelection) : DailySelection :=
  {| hotelId := v; lunchId := lunchId r; dinnerId := dinnerId r |}.

Abbreviation DailySelectionsState := (gmap string DailySelection).

Definition initialSelections : DailySelectionsState := ∅.

(** The record at [date] after [if (!state[date]) state[date] = {}]. *)
Definition recordAt (state : DailySelectionsState) (date : string)
  : DailySelection :=
  default emptySelection (state !! date).

Definition updateHotel (date : string) (hotel : option number)
    (state : DailySelectionsState) : DailySelectionsState :=
  <[date := setHotelId hotel (recordAt state date)]> state.

Definition updateMeal (date : string) (field : MealField)
    (mealId : option number) (state : DailySelectionsState)
  : DailySelectionsState :=
  let r := recordAt state date in
  if negb (truthy mealId)
  then <[date := deleteField field r]> state
  else <[date := setField field mealId r]> state.

(** [hotelId ? { hotelId } : {}] for the [hotelId] of the record [r]. *)
Definition hotelOnly (r : DailySelection) : DailySelection :=
  let h := hotelId r in
  if truthy h
  then {| hotelId := h; lunchId := None; dinnerId := None |}
  else emptySelection.

(** The body of the [forEach] callback of [clearMeals]. *)
Definition clearMealsAt (state : DailySelectionsState) (date : string)
  : DailySelectionsState :=
  match state !! date with
  | Some r => <[date := hotelOnly r]> state
  | None => state
  end.

Definition clearMeals (dates : list string) (state : DailySelectionsState)
  : DailySelectionsState :=
  foldl clearMealsAt state dates.

Definition syncWithDates (tripDates : list string)
    (state : DailySelectionsState) : DailySelectionsState :=
  foldl (fun next date => <[date := recordAt state date]> next) ∅ tripDates.

(** ** [store/slices/tripConfigSlice.ts] *)

(** The board codes the program compares against: ['FB'], ['HB'], ['NB']. *)
Inductive BoardCode : Type :=
| FB
| HB
| NB.

Definition BoardCode_eqb (a b : BoardCode) : bool :=
  match a, b with
  | FB, FB | HB, HB | NB, NB => true
  | _, _ => false
  end.

Record TripConfig : Type := mkConfig {
  citizenship : string;
  startDate : string;
  days : number;
  destination : string;
  boardType : BoardCode
}.

(** The payload value of [updateConfig] for the [days] key:
    [string | number]. *)
Inductive daysValue : Type :=
| VString (s : string)
| VNumber (n : number).

(** The payload [{ key, value }] of [updateConfig], one constructor per key. *)
Inductive ConfigUpdate : Type :=
| K_citizenship (value : string)
| K_startDate (value : string)
| K_days (value : daysValue)
| K_destination (value : string)
| K_boardType (value : BoardCode).

Section TripConfigSlice.

(** The conversion of a string to a number performed by [Number(s)];
    the grammar of numeric literals is not needed and stays abstract. *)
Variable StringToNumber : string -> number.

(** [Number(value)] *)
Definition Number (v : daysValue) : number :=
  match v with
  | VString s => StringToNumber s
  | VNumber n => n
  end.

Definition updateConfig (p : ConfigUpdate) (state : TripConfig) : TripConfig :=
  match p with
  | K_days value =>
      {| citizenship := citizenship state; startDate := startDate state;
         days := Number value;
         destination := destination state; boardType := boardType state |}
  | K_citizenship value =>
      {| citizenship := value; startDate := startDate state;
         days := days state;
         destination := destination state; boardType := boardType state |}
  | K_startDate value =>
      {| citizenship := citizenship state; startDate := value;
         days := days state;
         destination := destination state; boardType := boardType state |}
  | K_destination value =>
      {| citizenship := citizenship state; startDate := startDate state;
         days := days state;
         destination := value; boardType := boardType state |}
  | K_boardType value =>
      {| citizenship := citizenship state; startDate := startDate state;
         days := days state;
         destination := destination state; boardType := value |}
  end.

End TripConfigSlice.

Definition updateBoardType (code : BoardCode) (state : TripConfig) : TripConfig :=
  {| citizenship := citizenship state; startDate := startDate state;
     days := days state;
     destination := destination state; boardType := code |}.

(** ** [store/slices/loadingSlice.ts] *)

Record LoadingState : Type := mkLoading {
  isLoading : bool;
  loadingMessage : option string
}.

Definition initialLoading : LoadingState :=
  {| isLoading := false; loadingMessage := None |}.

Definition setLoading (loading : bool) (message : option string)
    (state : LoadingState) : LoadingState :=
  {| isLoading := loading; loadingMessage := message |}.

(** ** The built-in [Date] (ECMA-262, Date objects)

    A time value is a number of milliseconds since 1970-01-01T00:00:00Z;
    a [Date] object holds a time value or [NaN] (an invalid date). *)

Definition msPerDay : Z := 86400000.
Definition msPerHour : Z := 3600000.
Definition msPerMinute : Z := 60000.
Definition msPerSecond : Z := 1000.

Definition Day (t : Z) : Z := t / msPerDay.
Definition TimeWithinDay (t : Z) : Z := t mod msPerDay.

Definition isLeapYear (y : Z) : bool :=
  (y mod 4 =? 0) && (negb (y mod 100 =? 0) || (y mod 400 =? 0)).

Definition DaysInYear (y : Z) : Z := if isLeapYear y then 366 else 365.

Definition DayFromYear (y : Z) : Z :=
  365 * (y - 1970) + (y - 1969) / 4 - (y - 1901) / 100 + (y - 1601) / 400.

Definition TimeFromYear (y : Z) : Z := msPerDay * DayFromYear y.

(** The largest [y] with [TimeFromYear y <= t]: an estimate from the mean
    length of a year, corrected by at most one year either way
    (see [YearFromTime_spec]). *)
Definition YearFromTime (t : Z) : Z :=
  let d := Day t in
  let y0 := 1970 + (d * 10000) / 3652425 in
  if d <? DayFromYear y0 then y0 - 1
  else if DayFromYear (y0 + 1) <=? d then y0 + 1
  else y0.

Definition InLeapYear (t : Z) : Z :=
  if isLeapYear (YearFromTime t) then 1 else 0.

Definition DayWithinYear (t : Z) : Z := Day t - DayFromYear (YearFromTime t).

(** Month number, 0 for January to 11 for December. *)
Definition MonthFromTime (t : Z) : Z :=
  let d := DayWithinYear t in
  let l := InLeapYear t in
  if d <? 31 then 0
  else if d <? 59 + l then 1
  else if d <? 90 + l then 2
  else if d <? 120 + l then 3
  else if d <? 151 + l then 4
  else if d <? 181 + l then 5
  else if d <? 212 + l then 6
  else if d <? 243 + l then 7
  else if d <? 273 + l then 8
  else if d <? 304 + l then 9
  else if d <? 334 + l then 10
  else 11.

(** Day of the month, 1 to 31. *)
Definition DateFromTime (t : Z) : Z :=
  let d := DayWithinYear t in
  let l := InLeapYear t in
  match MonthFromTime t with
  | 0 => d + 1
  | 1 => d - 30
  | 2 => d - 58 - l
  | 3 => d - 89 - l
  | 4 => d - 119 - l
  | 5 => d - 150 - l
  | 6 => d - 180 - l
  | 7 => d - 211 - l
  | 8 => d - 242 - l
  | 9 => d - 272 - l
  | 10 => d - 303 - l
  | _ => d - 333 - l
  end.

Definition HourFromTime (t : Z) : Z := (t / msPerHour) mod 24.
Definition MinFromTime (t : Z) : Z := (t / msPerMinute) mod 60.
Definition SecFromTime (t : Z) : Z := (t / msPerSecond) mod 60.
Definition msFromTime (t : Z) : Z := t mod msPerSecond.

(** Number of days of the year before the first of month [m] (0 to 11). *)
Definition daysBeforeMonth (leap : bool) (m : Z) : Z :=
  let l := if leap then 1 else 0 in
  match m with
  | 0 => 0
  | 1 => 31
  | 2 => 59 + l
  | 3 => 90 + l
  | 4 => 120 + l
  | 5 => 151 + l
  | 6 => 181 + l
  | 7 => 212 + l
  | 8 => 243 + l
  | 9 => 273 + l
  | 10 => 304 + l
  | _ => 334 + l
  end.

Definition DaysInMonth (y m : Z) : Z :=
  match m with
  | 1 => if isLeapYear y then 29 else 28
  | 3 | 5 | 8 | 10 => 30
  | _ => 31
  end.

(** [MakeDay(year, month, date)] on integral arguments: the day number of
    the first of the month, plus [date - 1]; [month] and [date] may lie
    outside their calendar ranges. *)
Definition MakeDay (year month date : Z) : Z :=
  let ym := year + month / 12 in
  let mn := month mod 12 in
  DayFromYear ym + daysBeforeMonth (isLeapYear ym) mn + date - 1.

Definition MakeDate (day time : Z) : Z := day * msPerDay + time.

(** [TimeClip]: time values beyond 8.64e15 ms from the epoch are [NaN]. *)
Definition TimeClip (t : Z) : option Z :=
  if Z.abs t <=? 8640000000000000 then Some t else None.

(** The host on which the program runs. *)
Record Host : Type := mkHost {
  (** [LocalTZA(t, isUTC)]: the offset of local time from UTC in ms, at the
      UTC time [t] when [isUTC], at the local time [t] otherwise. *)
  LocalTZA : Z -> bool -> Z;
  (** [Date.parse] on a string that is not a well-formed ISO date-only
      string: the date-time forms and the host's own formats. *)
  parseOther : string -> option Z
}.

Definition LocalTime (h : Host) (t : Z) : Z := t + LocalTZA h t true.
Definition UTC (h : Host) (t : Z) : Z := t - LocalTZA h t false.

(** A [Date] object: its time value, [None] for [NaN]. *)
Definition Date : Type := option Z.

(** [date.getTime()] *)
Definition getTime (d : Date) : number :=
  match d with
  | Some t => num_of_Z t
  | None => NaN
  end.

(** [Number.isNaN(n)] *)
Definition Number_isNaN (n : number) : bool :=
  match n with
  | NaN => true
  | Num _ => false
  end.

(** [date.getDate()]: the day of the month in local time. *)
Definition getDate (h : Host) (d : Date) : number :=
  match d with
  | Some t => num_of_Z (DateFromTime (LocalTime h t))
  | None => NaN
  end.

(** [date.setDate(dt)]: replaces the day of the month in local time and
    converts back to UTC. *)
Definition setDate (h : Host) (dt : number) (d : Date) : Date :=
  match d, dt with
  | Some t0, Num q =>
      let t := LocalTime h t0 in
      let newDate :=
        MakeDate (MakeDay (YearFromTime t) (MonthFromTime t) (Qtrunc q))
                 (TimeWithinDay t) in
      TimeClip (UTC h newDate)
  | _, _ => None
  end.

(** *** Decimal digits *)

Definition digitChar (d : Z) : ascii := ascii_of_nat (48 + Z.to_nat d).

(** [n] in decimal, padded with zeros to [width] digits. *)
Fixpoint padDigits (width : nat) (n : Z) (acc : string) : string :=
  match width with
  | O => acc
  | S w => padDigits w (n / 10) (String (digitChar (n mod 10)) acc)
  end.

Definition pad (width : nat) (n : Z) : string := padDigits width n "".

Definition digitValue (c : ascii) : option Z :=
  let n := Z.of_nat (nat_of_ascii c) in
  if (48 <=? n) && (n <=? 57) then Some (n - 48) else None.

(** Value of a string of decimal digits; [None] if another character occurs. *)
Fixpoint digitsValue (s : string) (acc : Z) : option Z :=
  match s with
  | EmptyString => Some acc
  | String c r =>
      match digitValue c with
      | Some d => digitsValue r (10 * acc + d)
      | None => None
      end
  end.

(** *** [date.toISOString()] *)

Definition isoYear (y : Z) : string :=
  if (0 <=? y) && (y <=? 9999) then pad 4 y
  else if 0 <=? y then "+" +:+ pad 6 y
  else "-" +:+ pad 6 (- y).

Definition isoDatePart (t : Z) : string :=
  isoYear (YearFromTime t) +:+ "-" +:+ pad 2 (MonthFromTime t + 1)
    +:+ "-" +:+ pad 2 (DateFromTime t).

Definition isoTimePart (t : Z) : string :=
  pad 2 (HourFromTime t) +:+ ":" +:+ pad 2 (MinFromTime t) +:+ ":"
    +:+ pad 2 (SecFromTime t) +:+ "." +:+ pad 3 (msFromTime t) +:+ "Z".

(** Throws a [RangeError] on an invalid date. *)
Definition toISOString (d : Date) : completion string :=
  match d with
  | Some t => Normal (isoDatePart t +:+ "T" +:+ isoTimePart t)
  | None => Throw RangeError
  end.

(** [s.split('T')[0]]: the part of [s] before the first ['T']. *)
Fixpoint beforeT (s : string) : string :=
  match s with
  | EmptyString => EmptyString
  | String c r => if Ascii.eqb c "T" then EmptyString else String c (beforeT r)
  end.

(** *** [new Date(string)] *)

(** The ISO date-only form [YYYY-MM-DD] of a calendar date, read as
    midnight UTC; [None] when [s] is not of that form or names no
    calendar date. *)
Definition parseDateOnly (s : string) : option Z :=
  if negb (Nat.eqb (String.length s) 10) then None
  else if negb (String.eqb (substring 4 1 s) "-"
                && String.eqb (substring 7 1 s) "-") then None
  else
    match digitsValue (substring 0 4 s) 0,
          digitsValue (substring 5 2 s) 0,
          digitsValue (substring 8 2 s) 0 with
    | Some y, Some m, Some d =>
        if (1 <=? m) && (m <=? 12) && (1 <=? d) && (d <=? DaysInMonth y (m - 1))
        then Some (MakeDate (MakeDay y (m - 1) d) 0)
        else None
    | _, _, _ => None
    end.

(** [Date.parse(s)] *)
Definition Date_parse (h : Host) (s : string) : option Z :=
  match parseDateOnly s with
  | Some t => Some t
  | None => parseOther h s
  end.

(** [new Date(s)] for a string [s]. *)
Definition newDate (h : Host) (s : string) : Date :=
  match Date_parse h s with
  | Some t => TimeClip t
  | None => None
  end.

(** *** [Array.from({ length }, callback)] *)

(** [ToLength]: [NaN] and negative numbers give 0, fractions are cut. *)
Definition ToLength (n : number) : Z :=
  match n with
  | NaN => 0
  | Num q => Z.min (Z.max (Qtrunc q) 0) (2 ^ 53 - 1)
  end.

(** An array cannot have more than [2^32 - 1] elements. *)
Definition Array_from {B : Type} (length : number)
    (callback : Z -> completion B) : completion (list B) :=
  let len := ToLength length in
  if 2 ^ 32 - 1 <? len then Throw RangeError
  else mapM callback (map Z.of_nat (seq 0 (Z.to_nat len))).

(** ** [App.tsx] *)

Definition buildTripDates (h : Host) (startDate : string) (days : number)
  : completion (list string) :=
  if String.eqb startDate "" || num_lt days (num_of_Z 1) then Normal []
  else
    let parsed := newDate h startDate in
    if Number_isNaN (getTime parsed) then Normal []
    else
      Array_from days (fun index =>
        let nextDate := parsed in
        let nextDate :=
          setDate h (num_add (getDate h parsed) (num_of_Z index)) nextDate in
        bind (toISOString nextDate) (fun iso => Normal (beforeT iso))).

(** A host on UTC that understands no string beyond the ISO date-only form. *)
Definition hostUTC : Host :=
  {| LocalTZA := fun _ _ => 0; parseOther := fun _ => None |}.

(** A host whose clock is [offset] ms ahead of UTC all year round. *)
Definition hostFixed (offset : Z) : Host :=
  {| LocalTZA := fun _ _ => offset; parseOther := fun _ => None |}.

(** The time value of [y]-[m]-[d] [hh]:[mm] read as UTC ([m] from 1). *)
Definition timeOf (y m d hh mm : Z) : Z :=
  MakeDate (MakeDay y (m - 1) d) (hh * msPerHour + mm * msPerMinute).

(** A host in New York with the daylight-saving rule of the year 2024:
    clocks are 5 hours behind UTC, and 4 hours behind between 10 March,
    2:00 local time (7:00 UTC) and 3 November, 2:00 local time (6:00 UTC).
    A local time skipped or repeated at a transition is read with the
    offset in force before the transition. *)
Definition hostNewYork2024 : Host :=
  {| LocalTZA := fun t isUTC =>
       let summer :=
         if isUTC
         then (timeOf 2024 3 10 7 0 <=? t) && (t <? timeOf 2024 11 3 6 0)
         else (timeOf 2024 3 10 3 0 <=? t) && (t <? timeOf 2024 11 3 2 0) in
       if summer then -4 * msPerHour else -5 * msPerHour;
     parseOther := fun _ => None |}.

(** The Redux store: one field per slice, as the selectors of [App] read
    it ([state.tripConfig], [state.dailySelections], [state.loading]). *)
Record RootState : Type := mkRoot {
  tripConfig : TripConfig;
  dailySelections : DailySelectionsState;
  loading : LoadingState
}.

(** Dispatching an action of a slice runs that slice's reducer on its part
    of the store and leaves the other slices as they are. *)
Definition dispatchConfig (r : TripConfig -> TripConfig) (s : RootState)
  : RootState :=
  {| tripConfig := r (tripConfig s); dailySelections := dailySelections s;
     loading := loading s |}.

Definition dispatchSelections
    (r : DailySelectionsState -> DailySelectionsState) (s : RootState)
  : RootState :=
  {| tripConfig := tripConfig s; dailySelections := r (dailySelections s);
     loading := loading s |}.

Definition dispatchLoading (r : LoadingState -> LoadingState) (s : RootState)
  : RootState :=
  {| tripConfig := tripConfig s; dailySelections := dailySelections s;
     loading := r (loading s) |}.

(** The handlers of [App]. A handler closes over the values of the render
    that created it: [config] is the configuration in the store [s] it is
    called on, [tripDates] is passed explicitly. *)

Section ConfigHandlers.

Variable StringToNumber : string -> number.

Definition handleConfigChange (p : ConfigUpdate) (s : RootState) : RootState :=
  dispatchConfig (updateConfig StringToNumber p) s.

(** The [onChange] of the "Number of days" input:
    [handleConfigChange('days', Number(event.target.value) || 1)]. *)
Definition daysInputChange (value : string) (s : RootState) : RootState :=
  handleConfigChange
    (K_days (VNumber (num_or (Number StringToNumber (VString value))
                             (num_of_Z 1)))) s.

End ConfigHandlers.

Definition handleBoardChange (tripDates : list string) (code : BoardCode)
    (s : RootState) : RootState :=
  let config := tripConfig s in
  if BoardCode_eqb code (boardType config) then s
  else
    let s1 := dispatchConfig (updateBoardType code) s in
    if BoardCode_eqb code NB
    then dispatchSelections (clearMeals tripDates) s1
    else s1.

Definition handleHotelChange (date : string) (hotel : option number)
    (s : RootState) : RootState :=
  dispatchSelections (updateHotel date hotel) s.

Definition otherField (field : MealField) : MealField :=
  match field with
  | F_lunchId => F_dinnerId
  | F_dinnerId => F_lunchId
  end.

Definition handleMealChange (date : string) (field : MealField)
    (mealId : option number) (s : RootState) : RootState :=
  let config := tripConfig s in
  if BoardCode_eqb (boardType config) NB then s
  else
    let s1 := dispatchSelections (updateMeal date field mealId) s in
    if truthy mealId && BoardCode_eqb (boardType config) HB
    then dispatchSelections (updateMeal date (otherField field) None) s1
    else s1.

(** The effect [dispatch(syncWithDates(tripDates))] that follows a render. *)
Definition syncEffect (tripDates : list string) (s : RootState) : RootState :=
  dispatchSelections (syncWithDates tripDates) s.

(** *** Pricing *)

(** Modelled from the spec: the module [data.ts] is not among the sources;
    an entry of the catalog (a hotel or a meal) has an id, a name and a
    price. The fields are [item_id], [item_name], [item_price] for the
    properties [id], [name], [price]. *)
Record CatalogEntry : Type := mkEntry {
  item_id : number;
  item_name : string;
  item_price : number
}.

(** Modelled from the spec: the meals of a destination, [{ lunch, dinner }]. *)
Record MealOptions : Type := mkMeals {
  lunch : list CatalogEntry;
  dinner : list CatalogEntry
}.

(** The tables [hotelsByCountry] and [mealsByCountry] of [data.ts]. *)
Record Catalog : Type := mkCatalog {
  hotelsByCountry : gmap string (list CatalogEntry);
  mealsByCountry : gmap string MealOptions
}.

(** An element of [dailyBreakdown]: [{ date, hotel, lunch, dinner, subtotal }]. *)
Record BreakdownEntry : Type := mkBreakdown {
  entry_date : string;
  entry_hotel : option CatalogEntry;
  entry_lunch : option CatalogEntry;
  entry_dinner : option CatalogEntry;
  subtotal : number
}.

(** [items.find((item) => item.id === wanted)] *)
Definition findById (items : list CatalogEntry) (wanted : option number)
  : option CatalogEntry :=
  List.find (fun item => strict_eq (item_id item) wanted) items.

(** [entry?.price ?? 0] *)
Definition priceOrZero (entry : option CatalogEntry) : number :=
  match entry with
  | Some e => item_price e
  | None => num_of_Z 0
  end.

(** The callback of [tripDates.map] that builds [dailyBreakdown]. *)
Definition breakdownEntryOf (availableHotels : list CatalogEntry)
    (mealOptions : option MealOptions) (selections : DailySelectionsState)
    (date : string) : BreakdownEntry :=
  let selection := default emptySelection (selections !! date) in
  let hotel := findById availableHotels (hotelId selection) in
  let lunch :=
    match mealOptions with
    | Some m => findById (lunch m) (lunchId selection)
    | None => None
    end in
  let dinner :=
    match mealOptions with
    | Some m => findById (dinner m) (dinnerId selection)
    | None => None
    end in
  {| entry_date := date; entry_hotel := hotel; entry_lunch := lunch;
     entry_dinner := dinner;
     subtotal := double_add (double_add (priceOrZero hotel) (priceOrZero lunch))
                            (priceOrZero dinner) |}.

Definition dailyBreakdown (catalog : Catalog) (config : TripConfig)
    (selections : DailySelectionsState) (tripDates : list string)
  : list BreakdownEntry :=
  let availableHotels :=
    default [] (hotelsByCountry catalog !! destination config) in
  let mealOptions := mealsByCountry catalog !! destination config in
  map (breakdownEntryOf availableHotels mealOptions selections) tripDates.

Definition grandTotal (breakdown : list BreakdownEntry) : number :=
  fold_left (fun acc entry => double_add acc (subtotal entry)) breakdown
            (num_of_Z 0).

(** ** Notions used to state the properties *)

(** The states of the selections slice that the program can be in: the
    initial state and whatever the four reducers make of such a state. *)
Inductive reachable : DailySelectionsState -> Prop :=
| reach_initial : reachable initialSelections
| reach_updateHotel date hotel state :
    reachable state -> reachable (updateHotel date hotel state)
| reach_updateMeal date field mealId state :
    reachable state -> reachable (updateMeal date field mealId state)
| reach_clearMeals dates state :
    reachable state -> reachable (clearMeals dates state)
| reach_syncWithDates tripDates state :
    reachable state -> reachable (syncWithDates tripDates state).

(** The property holds the number zero. *)
Definition isZero (v : option number) : bool :=
  match v with
  | Some (Num q) => Qeq_bool q 0
  | _ => false
  end.

(** [n] is a number (not [NaN]) that is at least zero. *)
Definition nonNegative (n : number) : Prop :=
  match n with
  | Num q => (0 <= q)%Q
  | NaN => False
  end.

(** [n] is a whole number. *)
Definition isInteger (n : number) : bool :=
  match n with
  | Num q => Qeq_bool q (inject_Z (Qfloor q))
  | NaN => false
  end.

(** Every price of the catalog is a non-negative number. *)
Definition catalogNonNegative (c : Catalog) : Prop :=
  (forall country hotels, hotelsByCountry c !! country = Some hotels ->
     Forall (fun e => nonNegative (item_price e)) hotels)
  /\ (forall country meals, mealsByCountry c !! country = Some meals ->
        Forall (fun e => nonNegative (item_price e)) (lunch meals)
        /\ Forall (fun e => nonNegative (item_price e)) (dinner meals)).

(** The rational a number stands for, 0 for [NaN]. *)
Definition valueOf (n : number) : Q :=
  match n with
  | Num q => q
  | NaN => 0%Q
  end.

(** The sum of a list of rationals. *)
Definition sumQ (l : list Q) : Q := fold_right Qplus 0%Q l.

(** The id [wanted] is unselected, or no item of [items] carries it. *)
Definition unresolved (items : list CatalogEntry) (wanted : option number)
  : Prop :=
  wanted = None \/ Forall (fun e => strict_eq (item_id e) wanted = false) items.

(** What the search for the id [wanted] in [items] finds and what it
    counts: the first item that carries the id, at its price; nothing, at
    0, when the id is unselected or no item carries it. *)
Definition resolvesTo (items : list CatalogEntry) (wanted : option number)
    (found : option CatalogEntry) (price : number) : Prop :=
  (unresolved items wanted /\ found = None /\ price = num_of_Z 0)
  \/ (exists before item after,
        items = before ++ item :: after
        /\ Forall (fun e => strict_eq (item_id e) wanted = false) before
        /\ strict_eq (item_id item) wanted = true
        /\ found = Some item /\ price = item_price item).

(** Every price of the catalog is a whole number. *)
Definition catalogWhole (c : Catalog) : Prop :=
  (forall country hotels, hotelsByCountry c !! country = Some hotels ->
     Forall (fun e => isInteger (item_price e) = true) hotels)
  /\ (forall country meals, mealsByCountry c !! country = Some meals ->
        Forall (fun e => isInteger (item_price e) = true) (lunch meals)
        /\ Forall (fun e => isInteger (item_price e) = true) (dinner meals)).

(** The prices of the three items of a row, added without rounding. *)
Definition exactSubtotal (e : BreakdownEntry) : Q :=
  valueOf (priceOrZero (entry_hotel e)) + valueOf (priceOrZero (entry_lunch e))
  + valueOf (priceOrZero (entry_dinner e)).

(** The list searched by [mealOptions?.lunch.find] and
    [mealOptions?.dinner.find]: nothing when the destination has no meals. *)
Definition lunchOptions (meals : option MealOptions) : list CatalogEntry :=
  match meals with
  | Some m => lunch m
  | None => []
  end.

Definition dinnerOptions (meals : option MealOptions) : list CatalogEntry :=
  match meals with
  | Some m => dinner m
  | None => []
  end.

(** *** Calendar dates, to state what the date-range deriver should return *)

(** A date of the Gregorian calendar; months count from 1. *)
Record CalendarDate : Type := mkDate {
  year : Z;
  month : Z;
  day : Z
}.

Definition validDate (c : CalendarDate) : Prop :=
  1 <= month c <= 12 /\ 1 <= day c <= DaysInMonth (year c) (month c - 1).

(** The day after [c]. *)
Definition nextDay (c : CalendarDate) : CalendarDate :=
  if day c <? DaysInMonth (year c) (month c - 1)
  then {| year := year c; month := month c; day := day c + 1 |}
  else if month c <? 12
  then {| year := year c; month := month c + 1; day := 1 |}
  else {| year := year c + 1; month := 1; day := 1 |}.

(** [c] plus [n] calendar days. *)
Fixpoint addDays (n : nat) (c : CalendarDate) : CalendarDate :=
  match n with
  | O => c
  | S k => nextDay (addDays k c)
  end.

(** The ISO date string [YYYY-MM-DD] of [c]. *)
Definition isoOfCalendar (c : CalendarDate) : string :=
  isoYear (year c) +:+ "-" +:+ pad 2 (month c) +:+ "-" +:+ pad 2 (day c).

(** The day number of [c], counted from 1970-01-01. *)
Definition dayNumber (c : CalendarDate) : Z :=
  MakeDay (year c) (month c - 1) (day c).

(** The calendar date of the day number [n]. *)
Definition calendarOfDay (n : Z) : CalendarDate :=
  let t := n * msPerDay in
  {| year := YearFromTime t; month := MonthFromTime t + 1; day := DateFromTime t |}.

(** A host whose clock differs from UTC by the same [offset] at all times. *)
Definition fixedOffset (h : Host) (offset : Z) : Prop :=
  forall t isUTC, LocalTZA h t isUTC = offset.

(** No character of [s] is the letter T. *)
Definition noT (s : string) : Prop :=
  Forall (fun c => Ascii.eqb c "T" = false) (list_ascii_of_string s).

(** Sample data. *)

Definition sampleConfig (board : BoardCode) : TripConfig :=
  {| citizenship := ""; startDate := "2024-03-01"; days := num_of_Z 3;
     destination := "Turkey"; boardType := board |}.

Definition sampleStore (board : BoardCode) (selections : DailySelectionsState)
  : RootState :=
  {| tripConfig := sampleConfig board; dailySelections := selections;
     loading := initialLoading |}.

Definition sel (hotel lunchMeal dinnerMeal : option Z) : DailySelection :=
  {| hotelId := num_of_Z <$> hotel; lunchId := num_of_Z <$> lunchMeal;
     dinnerId := num_of_Z <$> dinnerMeal |}.

Definition sampleCatalog : Catalog :=
  {| hotelsByCountry :=
       {[ "Turkey" := [ mkEntry (num_of_Z 101) "Hilton" (num_of_Z 100);
                        mkEntry (num_of_Z 102) "Marriott" (num_of_Z 45) ] ]};
     mealsByCountry :=
       {[ "Turkey" := {| lunch := [ mkEntry (num_of_Z 1) "Kebab" (num_of_Z 20) ];
                         dinner := [ mkEntry (num_of_Z 3) "Soup" (num_of_Z 12) ] |} ]} |}.

(** A catalog with prices at the limit of the whole numbers that doubles
    tell apart. *)
Definition largeCatalog : Catalog :=
  {| hotelsByCountry :=
       {[ "Turkey" := [ mkEntry (num_of_Z 101) "Palace" (num_of_Z (2 ^ 53)) ] ]};
     mealsByCountry :=
       {[ "Turkey" := {| lunch := [ mkEntry (num_of_Z 1) "Kebab" (num_of_Z 1) ];
                         dinner := [] |} ]} |}.

(** ** The rest of [App.tsx] and of the slices *)

(** [WeekDay(t)]: 0 for Sunday to 6 for Saturday. *)
Definition WeekDay (t : Z) : Z := (Day t + 4) mod 7.

Section DisplayDate.

(** The pattern by which the locale en-US writes a short weekday (0 to 6),
    a short month (0 to 11) and a day of the month; the wording is the
    locale's and stays abstract. *)
Variable renderDate : Z -> Z -> Z -> string.

(** [date.toLocaleDateString('en-US', { weekday, month, day })]: the fields
    of the date on the local clock of the host. *)
Definition toLocaleDateString (h : Host) (d : Date) : string :=
  match d with
  | Some t =>
      let l := LocalTime h t in
      renderDate (WeekDay l) (MonthFromTime l) (DateFromTime l)
  | None => "Invalid Date"
  end.

Definition formatDisplayDate (h : Host) (isoDate : string) : string :=
  if String.eqb isoDate "" then "-"
  else
    let date := newDate h isoDate in
    if Number_isNaN (getTime date) then isoDate
    else toLocaleDateString h date.

End DisplayDate.

(** Modelled from the spec: an element of the table [countries] of
    [data.ts], [{ id, name }]. *)
Record Country : Type := mkCountry {
  country_id : number;
  country_name : string
}.

(** [new Date().toISOString().split('T')[0]] when the clock shows the time
    value [now]. *)
Definition todayIso (now : Z) : completion string :=
  bind (toISOString (Some now)) (fun iso => Normal (beforeT iso)).

(** The [initialState] of [tripConfigSlice]. *)
Definition tripConfig_initialState (now : Z) (countries : list Country)
  : completion TripConfig :=
  bind (todayIso now) (fun today =>
    Normal {| citizenship := "";
              startDate := today;
              days := num_of_Z 3;
              destination := default "" (country_name <$> head countries);
              boardType := FB |}).

(** The store before any action. *)
Definition initialStore (now : Z) (countries : list Country)
  : completion RootState :=
  bind (tripConfig_initialState now countries) (fun config =>
    Normal {| tripConfig := config; dailySelections := initialSelections;
              loading := initialLoading |}).

(** [config.boardType === 'NB'] *)
Definition disableMeals (s : RootState) : bool :=
  BoardCode_eqb (boardType (tripConfig s)) NB.

(** [dailyBreakdown.filter((entry) => !entry.hotel).length > 0] *)
Definition selectionSummaryMissing (breakdown : list BreakdownEntry) : bool :=
  (0 <? length (List.filter (fun entry => negb (bool_decide (is_Some (entry_hotel entry))))
                            breakdown))%nat.

(** *** The component [App] as a machine

    The state of the mounted component: the store, the array [tripDates]
    that [useMemo] holds, and whether the timer started by the loading
    effect is still to fire. *)
Record AppState : Type := mkApp {
  store : RootState;
  tripDates : list string;
  timerPending : bool
}.

(** [Object.is] on numbers, by which React compares the dependencies
    [config.days] of [useMemo]. *)
Definition sameValue (a b : number) : bool :=
  match a, b with
  | NaN, NaN => true
  | Num x, Num y => Qeq_bool x y
  | _, _ => false
  end.

(** The first effect of [App]: its clean-up clears the timer of the
    previous run; with a non-empty [tripDates] it shows the loading overlay
    and starts a timer that will hide it. *)
Definition loadingEffect (dates : list string) (a : AppState) : AppState :=
  if (0 <? length dates)%nat
  then {| store := dispatchLoading
                     (setLoading true (Some "Loading trip data...")) (store a);
          tripDates := tripDates a; timerPending := true |}
  else {| store := store a; tripDates := tripDates a; timerPending := false |}.

(** The effects that run after a render with a new array [dates]: the
    loading effect, then [dispatch(syncWithDates(tripDates))]. *)
Definition runEffects (dates : list string) (s : RootState) : AppState :=
  let a := loadingEffect dates
             {| store := s; tripDates := dates; timerPending := false |} in
  {| store := syncEffect dates (store a); tripDates := dates;
     timerPending := timerPending a |}.

(** The render that follows a dispatch: [useMemo] keeps [tripDates] while
    [config.startDate] and [config.days] are what they were, and otherwise
    calls [buildTripDates] again, after which the effects run; an error
    thrown by [buildTripDates] ends the component. *)
Definition rerender (h : Host) (a : AppState) (s : RootState)
  : completion AppState :=
  let before := tripConfig (store a) in
  let config := tripConfig s in
  if String.eqb (startDate before) (startDate config)
     && sameValue (days before) (days config)
  then Normal {| store := s; tripDates := tripDates a;
                 timerPending := timerPending a |}
  else bind (buildTripDates h (startDate config) (days config))
            (fun dates => Normal (runEffects dates s)).

(** The first render and its effects. *)
Definition mount (h : Host) (now : Z) (countries : list Country)
  : completion AppState :=
  bind (initialStore now countries) (fun s =>
    bind (buildTripDates h (startDate (tripConfig s)) (days (tripConfig s)))
         (fun dates => Normal (runEffects dates s))).

(** What the user, or the timer, can do to the mounted component: the
    [onChange] of the four configuration inputs, of the board type radios
    and of the selects of a row, and the timer of the loading effect. *)
Inductive Event : Type :=
| E_citizenship (value : string)
| E_startDate (value : string)
| E_days (value : string)
| E_destination (value : string)
| E_board (code : BoardCode)
| E_hotel (date : string) (hotel : option number)
| E_meal (date : string) (field : MealField) (mealId : option number)
| E_timer.

(** A row exists for the dates of [tripDates] only; the timer fires only
    while it is pending. *)
Definition enabled (e : Event) (a : AppState) : Prop :=
  match e with
  | E_hotel date _ | E_meal date _ _ => date ∈ tripDates a
  | E_timer => timerPending a = true
  | _ => True
  end.

Section AppMachine.

Variable h : Host.
Variable StringToNumber : string -> number.

(** The handler the event reaches, run on the store. *)
Definition handlerOf (e : Event) (a : AppState) : RootState :=
  let s := store a in
  match e with
  | E_citizenship value => handleConfigChange StringToNumber (K_citizenship value) s
  | E_startDate value => handleConfigChange StringToNumber (K_startDate value) s
  | E_days value => daysInputChange StringToNumber value s
  | E_destination value => handleConfigChange StringToNumber (K_destination value) s
  | E_board code => handleBoardChange (tripDates a) code s
  | E_hotel date hotel => handleHotelChange date hotel s
  | E_meal date field mealId => handleMealChange date field mealId s
  | E_timer => dispatchLoading (setLoading false None) s
  end.

Definition handleEvent (e : Event) (a : AppState) : completion AppState :=
  match e with
  | E_timer =>
      Normal {| store := handlerOf e a; tripDates := tripDates a;
                timerPending := false |}
  | _ => rerender h a (handlerOf e a)
  end.

(** The states the component can be in after it mounted at the time [now]
    with the table [countries]. *)
Inductive appReachable (now : Z) (countries : list Country)
  : AppState -> Prop :=
| reach_mount a :
    mount h now countries = Normal a -> appReachable now countries a
| reach_event a e a' :
    appReachable now countries a -> enabled e a ->
    handleEvent e a = Normal a' -> appReachable now countries a'.

End AppMachine.

(** The meal fields of every record of [state] are undefined. *)
Definition noMeals (state : DailySelectionsState) : Prop :=
  forall date r, state !! date = Some r -> lunchId r = None /\ dinnerId r = None.

(** What every state of the mounted component satisfies. *)
Definition appInvariant (h : Host) (a : AppState) : Prop :=
  let config := tripConfig (store a) in
  let selections := dailySelections (store a) in
  buildTripDates h (startDate config) (days config) = Normal (tripDates a)
  /\ dom selections = list_to_set (tripDates a)
  /\ (boardType config = NB -> noMeals selections)
  /\ (timerPending a = true ->
      isLoading (loading (store a)) = true /\ tripDates a <> [])
  /\ (isLoading (loading (store a)) = true ->
      timerPending a = true \/ tripDates a = []).

(** Every record of [state] has at most one of lunch and dinner. *)
Definition atMostOneMeal (state : DailySelectionsState) : Prop :=
  forall date r, state !! date = Some r -> lunchId r = None \/ dinnerId r = None.

(** ** Tactics *)

(** Linear arithmetic with division and remainder by constants. *)
Ltac zdiv := Z.div_mod_to_equations; lia.

(** Case analysis on every comparison [a <? b], closing the impossible
    cases. *)
Ltac case_ltb :=
  repeat match goal with
         | |- context [?a <? ?b] => destruct (Z.ltb_spec a b); try lia
         | H : context [?a <? ?b] |- _ => destruct (Z.ltb_spec a b); try lia
         end.

(** * Properties *)

(** ** Numbers *)

Lemma truthy_not_zero (v : option number) :
  truthy v = true -> isZero v = false.
Proof.
  destruct v as [[|q]|]; simpl; try reflexivity.
  intros H. apply negb_true_iff in H. exact H.
Qed.

(** ** The selections slice *)

Lemma recordAt_insert (state : DailySelectionsState) date r :
  recordAt (<[date := r]> state) date = r.
Proof. unfold recordAt. by rewrite lookup_insert_eq. Qed.

Lemma recordAt_insert_ne (state : DailySelectionsState) date date' r :
  date <> date' -> recordAt (<[date := r]> state) date' = recordAt state date'.
Proof. intros Hne. unfold recordAt. by rewrite lookup_insert_ne. Qed.

Lemma getField_setField field v r : getField field (setField field v r) = v.
Proof. by destruct field. Qed.

Lemma getField_setField_other field v r :
  getField (otherField field) (setField field v r) = getField (otherField field) r.
Proof. by destruct field. Qed.

(** What [updateMeal] leaves at the edited date. *)
Lemma updateMeal_recordAt date field mealId (state : DailySelectionsState) :
  recordAt (updateMeal date field mealId state) date =
  setField field (if truthy mealId then mealId else None) (recordAt state date).
Proof.
  unfold updateMeal, deleteField.
  destruct (truthy mealId); simpl; by rewrite recordAt_insert.
Qed.

Lemma updateMeal_recordAt_ne date date' field mealId
    (state : DailySelectionsState) :
  date <> date' ->
  recordAt (updateMeal date field mealId state) date' = recordAt state date'.
Proof.
  intros Hne. unfold updateMeal.
  destruct (negb (truthy mealId)); by rewrite recordAt_insert_ne.
Qed.

(** The accumulator of the loop of [syncWithDates]. *)
Lemma sync_loop_lookup (state acc : DailySelectionsState) tripDates date :
  foldl (fun next d => <[d := recordAt state d]> next) acc tripDates !! date =
  if decide (date ∈ tripDates) then Some (recordAt state date) else acc !! date.
Proof.
  revert acc. induction tripDates as [|d ds IH]; intros acc.
  - destruct (decide (date ∈ [])) as [Hin|_]; [|done].
    by apply not_elem_of_nil in Hin.
  - change (foldl ?f acc (d :: ds)) with (foldl f (<[d := recordAt state d]> acc) ds).
    rewrite IH.
    destruct (decide (date ∈ ds)) as [Hin|Hnin];
      destruct (decide (date ∈ d :: ds)) as [Hin'|Hnin']; try done.
    + exfalso. apply Hnin'. by right.
    + apply elem_of_cons in Hin' as [->|Hin']; [|done].
      by rewrite lookup_insert_eq.
    + rewrite lookup_insert_ne; [done |].
      intros ->. apply Hnin'. by left.
Qed.

Lemma syncWithDates_lookup (state : DailySelectionsState) tripDates date :
  syncWithDates tripDates state !! date =
  if decide (date ∈ tripDates) then Some (recordAt state date) else None.
Proof. unfold syncWithDates. by rewrite sync_loop_lookup, lookup_empty. Qed.

(** C2: [syncWithDates] returns a mapping whose keys are exactly the dates
    of the new sequence; a date of the new sequence keeps the record it had,
    unchanged, or gets the empty record if it had none, and a date outside
    the new sequence has no record any more. *)
Theorem syncWithDates_resync (state : DailySelectionsState)
    (tripDates : list string) (date : string) :
  dom (syncWithDates tripDates state) = list_to_set tripDates
  /\ syncWithDates tripDates state !! date =
     if decide (date ∈ tripDates)
     then match state !! date with
          | Some r => Some r
          | None => Some emptySelection
          end
     else None.
Proof.
  split.
  - apply set_eq. intros d.
    rewrite elem_of_dom, elem_of_list_to_set, syncWithDates_lookup.
    destruct (decide (d ∈ tripDates)) as [Hin|Hnin].
    + split; [done | by eauto].
    + split; [by intros [? ?] | done].
  - rewrite syncWithDates_lookup. unfold recordAt.
    destruct (decide (date ∈ tripDates)); [|done].
    by destruct (state !! date).
Qed.

(** The scenario of the specification: selections for d1, d2, d3 resynced
    to d2, d3, d4. *)
Example syncWithDates_scenario :
  let state : DailySelectionsState :=
    {[ "2024-03-01" := sel (Some 101) (Some 1) None;
       "2024-03-02" := sel (Some 102) None (Some 3);
       "2024-03-03" := sel None (Some 1) (Some 3) ]} in
  let next := syncWithDates ["2024-03-02"; "2024-03-03"; "2024-03-04"] state in
  next !! "2024-03-01" = None
  /\ next !! "2024-03-02" = Some (sel (Some 102) None (Some 3))
  /\ next !! "2024-03-03" = Some (sel None (Some 1) (Some 3))
  /\ next !! "2024-03-04" = Some emptySelection.
Proof. vm_compute. done. Qed.

(** C9: applying [syncWithDates] a second time with the same date sequence
    changes nothing. *)
Theorem syncWithDates_idempotent (state : DailySelectionsState)
    (tripDates : list string) :
  syncWithDates tripDates (syncWithDates tripDates state) =
  syncWithDates tripDates state.
Proof.
  apply map_eq. intros date. rewrite !syncWithDates_lookup.
  destruct (decide (date ∈ tripDates)) as [Hin|Hnin]; [|done].
  f_equal. unfold recordAt at 1. rewrite syncWithDates_lookup.
  by rewrite decide_True.
Qed.

Lemma hotelOnly_idempotent r : hotelOnly (hotelOnly r) = hotelOnly r.
Proof.
  unfold hotelOnly. destruct (truthy (hotelId r)) eqn:Hh; simpl.
  - by rewrite Hh.
  - done.
Qed.

Lemma hotelOnly_meals r field : getField field (hotelOnly r) = None.
Proof. unfold hotelOnly. by destruct (truthy (hotelId r)), field. Qed.

Lemma hotelOnly_hotelId r :
  hotelId (hotelOnly r) = if truthy (hotelId r) then hotelId r else None.
Proof. unfold hotelOnly. by destruct (truthy (hotelId r)). Qed.

Lemma clearMealsAt_lookup (state : DailySelectionsState) d date :
  clearMealsAt state d !! date =
  if decide (d = date) then hotelOnly <$> state !! date else state !! date.
Proof.
  unfold clearMealsAt. destruct (decide (d = date)) as [->|Hne].
  - destruct (state !! date) as [r|] eqn:Hr; simpl.
    + by rewrite lookup_insert_eq.
    + by rewrite Hr.
  - destruct (state !! d); [by rewrite lookup_insert_ne | done].
Qed.

(** [clearMeals] rewrites the records of the listed dates that exist, and
    nothing else. *)
Lemma clearMeals_lookup (state : DailySelectionsState) dates date :
  clearMeals dates state !! date =
  if decide (date ∈ dates) then hotelOnly <$> state !! date else state !! date.
Proof.
  unfold clearMeals. revert state.
  induction dates as [|d ds IH]; intros state.
  - destruct (decide (date ∈ [])) as [Hin|_]; [|done].
    by apply not_elem_of_nil in Hin.
  - change (foldl clearMealsAt state (d :: ds))
      with (foldl clearMealsAt (clearMealsAt state d) ds).
    rewrite IH, clearMealsAt_lookup.
    destruct (decide (date ∈ ds)) as [Hin|Hnin];
      destruct (decide (date ∈ d :: ds)) as [Hin'|Hnin'];
      destruct (decide (d = date)) as [->|Hne]; try done.
    + destruct (state !! date); simpl; [|done].
      by rewrite hotelOnly_idempotent.
    + exfalso. apply Hnin'. by right.
    + exfalso. apply Hnin'. by right.
    + apply elem_of_cons in Hin' as [->|Hin']; done.
    + exfalso. apply Hnin'. by left.
Qed.

(** ** The handlers *)

Lemma BoardCode_eqb_eq a b : BoardCode_eqb a b = true <-> a = b.
Proof. destruct a, b; simpl; split; congruence. Qed.

Lemma BoardCode_eqb_refl a : BoardCode_eqb a a = true.
Proof. by destruct a. Qed.

(** Selecting the board type that is already active dispatches nothing. *)
Lemma handleBoardChange_same tripDates (s : RootState) :
  handleBoardChange tripDates (boardType (tripConfig s)) s = s.
Proof. unfold handleBoardChange. by rewrite BoardCode_eqb_refl. Qed.

(** Switching to no board from another board type: the meals of every
    current date are cleared; a hotel id survives when it is truthy;
    records of other dates are untouched. *)
Lemma handleBoardChange_NB tripDates (s : RootState) date :
  boardType (tripConfig s) <> NB ->
  let s' := handleBoardChange tripDates NB s in
  let r := recordAt (dailySelections s) date in
  let r' := recordAt (dailySelections s') date in
  boardType (tripConfig s') = NB
  /\ (date ∈ tripDates ->
      lunchId r' = None /\ dinnerId r' = None
      /\ (truthy (hotelId r) = true -> hotelId r' = hotelId r))
  /\ (date ∉ tripDates -> r' = r).
Proof.
  intros Hnb. unfold handleBoardChange.
  destruct (BoardCode_eqb NB (boardType (tripConfig s))) eqn:Heq.
  { apply BoardCode_eqb_eq in Heq. congruence. }
  simpl. split; [done |]. unfold recordAt. rewrite clearMeals_lookup.
  split.
  - intros Hin. rewrite decide_True by done.
    destruct (dailySelections s !! date) as [r|]; simpl; [|done].
    split; [apply (hotelOnly_meals r F_lunchId) |].
    split; [apply (hotelOnly_meals r F_dinnerId) |].
    intros Ht. by rewrite hotelOnly_hotelId, Ht.
  - intros Hnin. by rewrite decide_False.
Qed.

(** C3: at a store on full board whose only date holds hotel 0 and lunch 1,
    switching to no board leaves the empty record: the meals are cleared,
    and the hotel id 0 is lost with them. *)
Theorem handleBoardChange_NB_loses_hotel_zero :
  let s := sampleStore FB {[ "2024-03-01" := sel (Some 0) (Some 1) None ]} in
  let s' := handleBoardChange ["2024-03-01"] NB s in
  hotelId (recordAt (dailySelections s) "2024-03-01") = Some (num_of_Z 0)
  /\ boardType (tripConfig s') = NB
  /\ dailySelections s' !! "2024-03-01" = Some emptySelection
  /\ hotelId (recordAt (dailySelections s') "2024-03-01") = None.
Proof. vm_compute. done. Qed.

(** The same hotel id is stored by [updateHotel] and priced by
    [dailyBreakdown] like any other. *)
Example hotel_zero_is_stored_and_priced :
  let catalog :=
    {| hotelsByCountry := {[ "Turkey" := [ mkEntry (num_of_Z 0) "Inn" (num_of_Z 80) ] ]};
       mealsByCountry := ∅ |} in
  let s := handleHotelChange "2024-03-01" (Some (num_of_Z 0)) (sampleStore FB ∅) in
  hotelId (recordAt (dailySelections s) "2024-03-01") = Some (num_of_Z 0)
  /\ map subtotal (dailyBreakdown catalog (tripConfig s) (dailySelections s)
                                  ["2024-03-01"]) = [num_of_Z 80].
Proof. vm_compute. done. Qed.

(** C6: while the board type is no board, a meal edit returns the store it
    was given, whatever the date, the field and the meal id. *)
Theorem handleMealChange_NB_ignored (date : string) (field : MealField)
    (mealId : option number) (s : RootState) :
  boardType (tripConfig s) = NB ->
  handleMealChange date field mealId s = s.
Proof. intros Hnb. unfold handleMealChange. by rewrite Hnb. Qed.

Lemma handleMealChange_NB_ignored_witness :
  let s := sampleStore NB {[ "2024-03-01" := sel (Some 101) None None ]} in
  boardType (tripConfig s) = NB
  /\ handleMealChange "2024-03-01" F_lunchId (Some (num_of_Z 1)) s = s.
Proof.
  split; [reflexivity |].
  apply (handleMealChange_NB_ignored "2024-03-01" F_lunchId (Some (num_of_Z 1))).
  reflexivity.
Defined.

Lemma handleMealChange_tripConfig date field mealId (s : RootState) :
  tripConfig (handleMealChange date field mealId s) = tripConfig s.
Proof.
  unfold handleMealChange.
  destruct (BoardCode_eqb (boardType (tripConfig s)) NB); [done |].
  by destruct (truthy mealId && BoardCode_eqb (boardType (tripConfig s)) HB).
Qed.

(** The record of the edited date after a meal edit on half board. *)
Lemma handleMealChange_HB_record date field mealId (s : RootState) :
  boardType (tripConfig s) = HB ->
  recordAt (dailySelections (handleMealChange date field mealId s)) date =
  if truthy mealId
  then setField (otherField field) None
         (setField field mealId (recordAt (dailySelections s) date))
  else setField field None (recordAt (dailySelections s) date).
Proof.
  intros Hb. unfold handleMealChange. rewrite Hb. simpl.
  destruct (truthy mealId) eqn:Ht; simpl.
  - by rewrite !updateMeal_recordAt, Ht.
  - by rewrite updateMeal_recordAt, Ht.
Qed.

(** The record of the edited date after a meal edit on full board. *)
Lemma handleMealChange_FB_record date field mealId (s : RootState) :
  boardType (tripConfig s) = FB ->
  recordAt (dailySelections (handleMealChange date field mealId s)) date =
  setField field (if truthy mealId then mealId else None)
    (recordAt (dailySelections s) date).
Proof.
  intros Hb. unfold handleMealChange. rewrite Hb. simpl.
  rewrite andb_false_r. simpl. by rewrite updateMeal_recordAt.
Qed.

(** C4, as the code has it: on half board, setting a meal field to a truthy
    meal id (defined, not zero) stores it and leaves the other meal field
    undefined, while a falsy meal id (undefined, 0) only clears the field
    and leaves the other meal field as it was; after any meal edit on half
    board at most one of lunch and dinner is populated at the edited date.
    On full board a meal edit never touches the other meal field, a truthy
    id is stored and a falsy one clears the field, so both fields can be
    set one after the other. *)
Theorem handleMealChange_board_rules (date : string) (field : MealField)
    (mealId : option number) (s : RootState) :
  let r := recordAt (dailySelections s) date in
  let r' := recordAt (dailySelections (handleMealChange date field mealId s)) date in
  (boardType (tripConfig s) = HB ->
     (truthy mealId = true ->
        getField field r' = mealId /\ getField (otherField field) r' = None)
     /\ (truthy mealId = false ->
           getField field r' = None
           /\ getField (otherField field) r' = getField (otherField field) r)
     /\ (lunchId r' = None \/ dinnerId r' = None))
  /\ (boardType (tripConfig s) = FB ->
        getField (otherField field) r' = getField (otherField field) r
        /\ (truthy mealId = true -> getField field r' = mealId)
        /\ (truthy mealId = false -> getField field r' = None)
        /\ (forall other : option number,
              truthy mealId = true -> truthy other = true ->
              let r2 :=
                recordAt (dailySelections
                            (handleMealChange date (otherField field) other
                               (handleMealChange date field mealId s))) date in
              getField field r2 = mealId
              /\ getField (otherField field) r2 = other)).
Proof.
  simpl. split.
  - intros Hb. rewrite handleMealChange_HB_record by done.
    destruct (truthy mealId) eqn:Ht.
    + split; [| split].
      * intros _. destruct field; simpl; done.
      * discriminate.
      * destruct field; simpl; [by right | by left].
    + split; [discriminate | split].
      * intros _. split; [apply getField_setField | apply getField_setField_other].
      * destruct field; simpl; [by left | by right].
  - intros Hb. rewrite handleMealChange_FB_record by done.
    split; [apply getField_setField_other |].
    split; [| split].
    + intros Ht. by rewrite Ht, getField_setField.
    + intros Ht. by rewrite Ht, getField_setField.
    + intros other Ht Ho.
      rewrite handleMealChange_FB_record
        by (by rewrite handleMealChange_tripConfig).
      rewrite handleMealChange_FB_record by done.
      rewrite Ht, Ho. destruct field; simpl; done.
Qed.

Lemma handleMealChange_board_rules_witness :
  let date := "2024-03-01" in
  let hb := sampleStore HB {[ date := sel (Some 101) None (Some 3) ]} in
  let fb := sampleStore FB {[ date := sel (Some 101) None (Some 3) ]} in
  let meal := Some (num_of_Z 1) in
  (boardType (tripConfig hb) = HB /\ boardType (tripConfig fb) = FB
   /\ truthy meal = true)
  /\ (getField F_lunchId
        (recordAt (dailySelections (handleMealChange date F_lunchId meal hb)) date)
      = meal
      /\ getField (otherField F_lunchId)
           (recordAt (dailySelections (handleMealChange date F_lunchId meal hb)) date)
         = None)
  /\ getField (otherField F_lunchId)
       (recordAt (dailySelections (handleMealChange date F_lunchId meal fb)) date)
     = getField (otherField F_lunchId) (recordAt (dailySelections fb) date)
  /\ (truthy (Some (num_of_Z 0)) = false
      /\ getField (otherField F_lunchId)
           (recordAt (dailySelections
                        (handleMealChange date F_lunchId (Some (num_of_Z 0)) hb)) date)
         = getField (otherField F_lunchId) (recordAt (dailySelections hb) date)).
Proof.
  intros date hb fb meal.
  split; [repeat split; reflexivity |].
  destruct (handleMealChange_board_rules date F_lunchId meal hb) as [Hhb _].
  destruct (handleMealChange_board_rules date F_lunchId meal fb) as [_ Hfb].
  destruct (handleMealChange_board_rules date F_lunchId (Some (num_of_Z 0)) hb)
    as [Hzero _].
  split; [| split; [| split]].
  - exact (proj1 (Hhb eq_refl) eq_refl).
  - exact (proj1 (Hfb eq_refl)).
  - reflexivity.
  - exact (proj2 (proj1 (proj2 (Hzero eq_refl)) eq_refl)).
Defined.

(** C4 as stated fails at the defined meal id 0: on half board, with dinner
    3 selected, setting lunch to meal 0 leaves dinner selected. *)
Lemma handleMealChange_HB_zero_keeps_other :
  let date := "2024-03-01" in
  let s := sampleStore HB {[ date := sel (Some 101) None (Some 3) ]} in
  let mealId := Some (num_of_Z 0) in
  let r' := recordAt (dailySelections (handleMealChange date F_lunchId mealId s)) date in
  boardType (tripConfig s) = HB
  /\ mealId <> None
  /\ dinnerId r' = Some (num_of_Z 3)
  /\ ~ (getField (otherField F_lunchId) r' = None).
Proof. vm_compute. repeat split; discriminate || reflexivity. Qed.

(** A reachable state holds no meal id that is zero. *)
Lemma reachable_no_zero_meal (state : DailySelectionsState) :
  reachable state ->
  forall date r field, state !! date = Some r -> isZero (getField field r) = false.
Proof.
  induction 1 as [|d h state Hr IH|d f m state Hr IH|ds state Hr IH|ds state Hr IH];
    intros date r field Hl.
  - unfold initialSelections in Hl. by rewrite lookup_empty in Hl.
  - unfold updateHotel in Hl. destruct (decide (d = date)) as [->|Hne].
    + rewrite lookup_insert_eq in Hl. injection Hl as <-.
      unfold recordAt. destruct (state !! date) as [r0|] eqn:H0; simpl.
      * specialize (IH date r0 field H0). by destruct field.
      * by destruct field.
    + rewrite lookup_insert_ne in Hl by done. by eapply IH.
  - destruct (decide (d = date)) as [->|Hne].
    + assert (Hrec : recordAt (updateMeal date f m state) date = r)
        by (unfold recordAt; by rewrite Hl).
      rewrite updateMeal_recordAt in Hrec. subst r.
      assert (Hold : isZero (getField field (recordAt state date)) = false).
      { unfold recordAt. destruct (state !! date) as [r0|] eqn:H0; simpl.
        - by eapply IH.
        - by destruct field. }
      destruct f, field; simpl in *; try exact Hold;
        destruct (truthy m) eqn:Ht; try done; by apply truthy_not_zero.
    + unfold updateMeal in Hl.
      destruct (negb (truthy m)); rewrite lookup_insert_ne in Hl by done;
        by eapply IH.
  - rewrite clearMeals_lookup in Hl.
    destruct (decide (date ∈ ds)); [|by eapply IH].
    destruct (state !! date) as [r0|]; simpl in Hl; [|done].
    injection Hl as <-. by rewrite hotelOnly_meals.
  - rewrite syncWithDates_lookup in Hl.
    destruct (decide (date ∈ ds)); [|done].
    injection Hl as <-. unfold recordAt.
    destruct (state !! date) as [r0|] eqn:H0; simpl.
    + by eapply IH.
    + by destruct field.
Qed.

(** C10: [updateMeal] with the meal id 0 does exactly what [updateMeal]
    with no meal id does: the field is removed, not set to 0. Whatever the
    meal id, the field just written never holds 0, and no state the program
    can reach holds a meal id 0 anywhere. *)
Theorem updateMeal_zero_clears (date : string) (field : MealField)
    (state : DailySelectionsState) :
  (forall mealId, isZero mealId = true ->
     updateMeal date field mealId state = updateMeal date field None state
     /\ getField field (recordAt (updateMeal date field mealId state) date) = None)
  /\ (forall mealId,
        isZero (getField field (recordAt (updateMeal date field mealId state) date))
        = false)
  /\ (reachable state ->
      forall d r f, state !! d = Some r -> isZero (getField f r) = false).
Proof.
  split; [| split].
  - intros mealId Hz.
    assert (Hfalsy : truthy mealId = false).
    { destruct mealId as [[|q]|]; simpl in *; try done. by rewrite Hz. }
    split.
    + unfold updateMeal. simpl. by rewrite Hfalsy.
    + rewrite updateMeal_recordAt, Hfalsy. apply getField_setField.
  - intros mealId. rewrite updateMeal_recordAt, getField_setField.
    destruct (truthy mealId) eqn:Ht; [by apply truthy_not_zero | done].
  - apply reachable_no_zero_meal.
Qed.

Lemma updateMeal_zero_clears_witness :
  let state := updateMeal "2024-03-01" F_lunchId (Some (num_of_Z 1)) initialSelections in
  let zero := Some (num_of_Z 0) in
  (isZero zero = true /\ reachable state)
  /\ updateMeal "2024-03-01" F_lunchId zero state
     = updateMeal "2024-03-01" F_lunchId None state
  /\ (forall d r f, state !! d = Some r -> isZero (getField f r) = false).
Proof.
  intros state zero.
  assert (Hreach : reachable state) by (apply reach_updateMeal, reach_initial).
  split; [split; [reflexivity | exact Hreach] |].
  destruct (updateMeal_zero_clears "2024-03-01" F_lunchId state) as (Hz & _ & Hinv).
  split.
  - exact (proj1 (Hz zero eq_refl)).
  - exact (Hinv Hreach).
Defined.

(** ** The trip configuration *)

(** C5, as the code has it: the reducer stores [Number(value)] as it is,
    whole or not, below 1 or not; the days input replaces a coerced value
    that is [NaN] or 0 by 1 and passes any other on, so what it stores is
    never [NaN] and never 0. *)
Theorem days_update_as_coded (StringToNumber : string -> number)
    (value : daysValue) (text : string) (c : TripConfig) (s : RootState) :
  days (updateConfig StringToNumber (K_days value) c) = Number StringToNumber value
  /\ days (tripConfig (daysInputChange StringToNumber text s)) =
     (if ToBoolean (StringToNumber text) then StringToNumber text else num_of_Z 1)
  /\ ToBoolean (days (tripConfig (daysInputChange StringToNumber text s))) = true.
Proof.
  split; [reflexivity |].
  unfold daysInputChange, handleConfigChange, dispatchConfig, num_or. simpl.
  destruct (ToBoolean (StringToNumber text)) eqn:Ht; split; done.
Qed.

(** C5 as stated fails: the value -5 is stored as -5, which is below 1, by
    the reducer and by the days input alike (-5 is truthy, so [|| 1] does
    not replace it); the value 2.5 is stored as 2.5, not as an integer. *)
Lemma updateConfig_days_below_one :
  (forall (StringToNumber : string -> number) (c : TripConfig),
     days (updateConfig StringToNumber (K_days (VNumber (num_of_Z (-5)))) c)
       = num_of_Z (-5))
  /\ num_lt (num_of_Z (-5)) (num_of_Z 1) = true
  /\ num_or (num_of_Z (-5)) (num_of_Z 1) = num_of_Z (-5)
  /\ (forall (StringToNumber : string -> number) (s : RootState),
        StringToNumber "-5" = num_of_Z (-5) ->
        days (tripConfig (daysInputChange StringToNumber "-5" s)) = num_of_Z (-5))
  /\ (forall (StringToNumber : string -> number) (c : TripConfig),
        days (updateConfig StringToNumber (K_days (VNumber (Num 2.5))) c) = Num 2.5)
  /\ isInteger (Num 2.5) = false.
Proof.
  repeat split; try reflexivity.
  intros S s HS.
  unfold daysInputChange, handleConfigChange, dispatchConfig. simpl.
  rewrite HS. reflexivity.
Qed.

(** ** Pricing *)

Lemma findById_Some items wanted item :
  findById items wanted = Some item ->
  item ∈ items /\ strict_eq (item_id item) wanted = true.
Proof.
  unfold findById. intros Hf. apply find_some in Hf as [Hin Heq].
  split; [by apply list_elem_of_In | done].
Qed.

Lemma findById_unresolved items wanted :
  unresolved items wanted -> findById items wanted = None.
Proof.
  unfold findById. intros [-> | Hall].
  - induction items as [|e items IH]; [done | exact IH].
  - induction Hall as [|e items He Hall IH]; [done |].
    simpl. by rewrite He.
Qed.

(** *** The addition of doubles *)

Lemma pow2_neg (k : Z) : 0 <= k -> (pow2 (- k) * inject_Z (2 ^ k) == 1)%Q.
Proof.
  intros Hk. unfold pow2.
  destruct (0 <=? - k) eqn:Hle.
  - apply Z.leb_le in Hle. assert (k = 0) as -> by lia. reflexivity.
  - rewrite Z.opp_involutive.
    assert (Hpos : 0 < 2 ^ k) by (apply Z.pow_pos_nonneg; lia).
    destruct (2 ^ k) as [|p|p] eqn:Hp; try lia.
    unfold Qeq, Qmult, inject_Z. simpl. lia.
Qed.

Lemma pow2_pos (k : Z) : (0 < pow2 k)%Q.
Proof.
  unfold pow2. destruct (0 <=? k) eqn:Hle.
  - apply Z.leb_le in Hle. rewrite <- (Zlt_Qlt 0). apply Z.pow_pos_nonneg; lia.
  - reflexivity.
Qed.

Lemma roundHalfEven_nonneg (q : Q) : (0 <= q)%Q -> 0 <= roundHalfEven q.
Proof.
  intros Hq. unfold roundHalfEven.
  assert (Hf : 0 <= Qfloor q).
  { change 0 with (Qfloor 0). by apply Qfloor_resp_le. }
  destruct (q - inject_Z (Qfloor q) ?= 1 # 2)%Q; [destruct (Z.even _) | |]; lia.
Qed.

(** A whole number is its own nearest integer. *)
Lemma roundHalfEven_Z (q : Q) (z : Z) : (q == inject_Z z)%Q -> roundHalfEven q = z.
Proof.
  intros Hq. unfold roundHalfEven.
  rewrite (Qfloor_comp _ _ Hq), Qfloor_Z.
  assert (Hc : (q - inject_Z z ?= 1 # 2)%Q = Lt).
  { rewrite <- Qlt_alt. rewrite Hq. ring_simplify. reflexivity. }
  by rewrite Hc.
Qed.

Lemma roundDouble_nonneg (q : Q) : (0 <= q)%Q -> (0 <= roundDouble q)%Q.
Proof.
  intros Hq. unfold roundDouble.
  destruct (Qeq_bool q 0); [apply Qle_refl |].
  rewrite Qred_correct.
  apply Qmult_le_0_compat.
  - rewrite <- (Zle_Qle 0). apply roundHalfEven_nonneg.
    apply Qle_shift_div_l; [apply pow2_pos |]. by rewrite Qmult_0_l.
  - apply Qlt_le_weak, pow2_pos.
Qed.

Lemma binade_bound (q : Q) : (0 < q)%Q -> (q < inject_Z (2 ^ 53))%Q -> binade q <= 52.
Proof.
  intros Hpos Hlt. unfold binade.
  set (k := Z.log2 (Qnum q) - Z.log2 (Z.pos (Qden q))).
  destruct (Qle_bool (pow2 k) q) eqn:Hle.
  - apply Qle_bool_iff in Hle.
    destruct (Z_lt_le_dec k 53) as [|Hk]; [lia | exfalso].
    unfold pow2 in Hle. rewrite (proj2 (Z.leb_le 0 k)) in Hle by lia.
    assert (H53 : (inject_Z (2 ^ 53) <= inject_Z (2 ^ k))%Q).
    { rewrite <- Zle_Qle. apply Z.pow_le_mono_r; lia. }
    apply (Qlt_irrefl q). eapply Qlt_le_trans; [exact Hlt |].
    eapply Qle_trans; [exact H53 | exact Hle].
  - enough (k <= 53) by lia. unfold k.
    destruct q as [n d]. unfold Qlt in *. cbn [Qnum Qden inject_Z] in *.
    assert (Hn : 0 < n) by lia.
    assert (Hle' : Z.log2 n <= Z.log2 (Z.pos d * 2 ^ 53)).
    { apply Z.log2_le_mono. lia. }
    rewrite Z.log2_mul_pow2 in Hle' by lia. lia.
Qed.

(** A whole number from 0 to 2^53 - 1 is a double: rounding leaves it. *)
Lemma roundDouble_exact (q : Q) (z : Z) :
  (q == inject_Z z)%Q -> 0 <= z < 2 ^ 53 -> (roundDouble q == inject_Z z)%Q.
Proof.
  intros Hq Hz. unfold roundDouble.
  destruct (Qeq_bool q 0) eqn:H0.
  - apply Qeq_bool_iff in H0. by rewrite <- Hq, H0.
  - assert (Hne : ~ (q == 0)%Q) by (intros H; apply Qeq_bool_iff in H; congruence).
    assert (Hzpos : 0 < z).
    { destruct (Z.eq_dec z 0) as [->|]; [by destruct Hne | lia]. }
    assert (Hqpos : (0 < q)%Q) by (rewrite Hq, <- (Zlt_Qlt 0); exact Hzpos).
    assert (Habs : (Qabs q == q)%Q) by (apply Qabs_pos; by apply Qlt_le_weak).
    assert (Hb : binade (Qabs q) <= 52).
    { apply binade_bound.
      - rewrite Habs. exact Hqpos.
      - rewrite Habs, Hq, <- Zlt_Qlt. lia. }
    set (e := Z.max (binade (Qabs q) - 52) (-1074)).
    assert (He : e <= 0) by (unfold e; lia).
    rewrite Qred_correct.
    assert (Hinv : (pow2 e * inject_Z (2 ^ (- e)) == 1)%Q).
    { rewrite <- (Z.opp_involutive e) at 1. apply pow2_neg. lia. }
    assert (Hnz : ~ (pow2 e == 0)%Q).
    { intros H. pose proof (pow2_pos e) as Hp. rewrite H in Hp.
      by apply Qlt_irrefl in Hp. }
    assert (Hscaled : (q / pow2 e == inject_Z (z * 2 ^ (- e)))%Q).
    { rewrite inject_Z_mult, <- Hq.
      apply Qmult_inj_r with (z := pow2 e); [exact Hnz |].
      rewrite Qmult_comm, Qmult_div_r by exact Hnz.
      rewrite <- Qmult_assoc, (Qmult_comm (inject_Z _)), Hinv. ring. }
    rewrite (roundHalfEven_Z _ _ Hscaled), inject_Z_mult.
    rewrite <- Qmult_assoc, (Qmult_comm (inject_Z (2 ^ _))), Hinv. ring.
Qed.

(** The sums that doubles cannot hold are rounded, ties to even: 2^53 + 1
    is 2^53 and 2^53 + 3 is 2^53 + 4; the doubles written 0.1 and 0.2 add
    up to the double written 0.30000000000000004. *)
Example double_add_rounds :
  double_add (num_of_Z (2 ^ 53)) (num_of_Z 1) = num_of_Z (2 ^ 53)
  /\ double_add (num_of_Z (2 ^ 53)) (num_of_Z 3) = num_of_Z (2 ^ 53 + 4)
  /\ double_add (Num (3602879701896397 # 36028797018963968))
                (Num (3602879701896397 # 18014398509481984))
     = Num (1351079888211149 # 4503599627370496)
  /\ double_add (num_of_Z 100) (num_of_Z 20) = num_of_Z 120.
Proof. vm_compute. done. Qed.

Lemma nonNegative_double_add a b :
  nonNegative a -> nonNegative b -> nonNegative (double_add a b).
Proof.
  destruct a as [|x], b as [|y]; simpl; try done.
  intros Hx Hy.
  destruct (Qeq_bool y 0); [done |]. destruct (Qeq_bool x 0); [done |].
  simpl. apply roundDouble_nonneg.
  rewrite <- (Qplus_0_l 0). by apply Qplus_le_compat.
Qed.

(** Whole numbers whose sum stays below 2^53 are added without rounding. *)
Lemma double_add_exact (x y : Q) (a b : Z) :
  (x == inject_Z a)%Q -> (y == inject_Z b)%Q ->
  0 <= a -> 0 <= b -> a + b < 2 ^ 53 ->
  exists r, double_add (Num x) (Num y) = Num r /\ (r == inject_Z (a + b))%Q.
Proof.
  intros Hx Hy Ha Hb Hs. simpl.
  destruct (Qeq_bool y 0) eqn:Hy0.
  - apply Qeq_bool_iff in Hy0. exists x. split; [done |].
    rewrite inject_Z_plus, <- Hx, <- Hy, Hy0. ring.
  - destruct (Qeq_bool x 0) eqn:Hx0.
    + apply Qeq_bool_iff in Hx0. exists y. split; [done |].
      rewrite inject_Z_plus, <- Hx, <- Hy, Hx0. ring.
    + exists (roundDouble (x + y)). split; [done |].
      apply roundDouble_exact; [| lia].
      by rewrite Hx, Hy, inject_Z_plus.
Qed.

(** A non-negative whole number is the rational of a natural number. *)
Lemma whole_nonNegative_inv (n : number) :
  nonNegative n -> isInteger n = true ->
  exists q z, n = Num q /\ (q == inject_Z z)%Q /\ 0 <= z.
Proof.
  destruct n as [|q]; [done |]. simpl. intros Hq Hint.
  apply Qeq_bool_iff in Hint. exists q, (Qfloor q).
  split; [done |]. split; [done |].
  change 0 with (Qfloor 0). by apply Qfloor_resp_le.
Qed.

(** *** The breakdown *)

Lemma findById_resolvesTo items wanted :
  resolvesTo items wanted (findById items wanted)
             (priceOrZero (findById items wanted)).
Proof.
  unfold findById. induction items as [|e items IH]; simpl.
  - left. split; [right; constructor | done].
  - destruct (strict_eq (item_id e) wanted) eqn:He.
    + right. exists [], e, items. by repeat split.
    + destruct IH as [(Hu & Hf & Hp) | (before & item & after & Hi & Hb & Hm & Hf & Hp)].
      * left. split; [| done].
        destruct Hu as [-> | Hall]; [by left | right; by constructor].
      * right. exists (e :: before), item, after.
        split; [by rewrite Hi |]. split; [by constructor | done].
Qed.

Lemma priceOrZero_nonNegative items wanted :
  Forall (fun e => nonNegative (item_price e)) items ->
  nonNegative (priceOrZero (findById items wanted)).
Proof.
  intros Hall. destruct (findById items wanted) as [item|] eqn:Hf; simpl.
  - apply findById_Some in Hf as [Hin _].
    rewrite Forall_forall in Hall. by apply Hall.
  - apply Qle_refl.
Qed.

Lemma priceOrZero_whole items wanted :
  Forall (fun e => isInteger (item_price e) = true) items ->
  isInteger (priceOrZero (findById items wanted)) = true.
Proof.
  intros Hall. destruct (findById items wanted) as [item|] eqn:Hf; simpl.
  - apply findById_Some in Hf as [Hin _].
    rewrite Forall_forall in Hall. by apply Hall.
  - reflexivity.
Qed.

(** The loop of [grandTotal] from an accumulator [acc]. *)
Lemma grandTotal_loop (subtotals : list number) (acc : Q) :
  (0 <= acc)%Q ->
  Forall nonNegative subtotals ->
  nonNegative (fold_left double_add subtotals (Num acc)).
Proof.
  revert acc. induction subtotals as [|n l IH]; intros acc Hacc Hall.
  - exact Hacc.
  - inversion Hall as [|? ? Hn Hl]; subst.
    pose proof (nonNegative_double_add (Num acc) n Hacc Hn) as Hstep.
    change (fold_left double_add (n :: l) (Num acc))
      with (fold_left double_add l (double_add (Num acc) n)).
    destruct (double_add (Num acc) n) as [|q]; [done |].
    by apply IH.
Qed.

Lemma sumQ_nonneg (l : list Q) : Forall (fun q => (0 <= q)%Q) l -> (0 <= sumQ l)%Q.
Proof.
  induction 1 as [|q l Hq Hl IH]; simpl; [apply Qle_refl |].
  rewrite <- (Qplus_0_l 0). by apply Qplus_le_compat.
Qed.

(** The loop of [grandTotal] on whole numbers, while the exact sum stays
    below 2^53: no addition rounds. *)
Lemma grandTotal_loop_exact (subtotals : list number) (acc : Q) (a : Z) :
  (acc == inject_Z a)%Q -> 0 <= a ->
  Forall (fun n => exists q z, n = Num q /\ (q == inject_Z z)%Q /\ 0 <= z) subtotals ->
  (acc + sumQ (map valueOf subtotals) < inject_Z (2 ^ 53))%Q ->
  exists total : Q,
    fold_left double_add subtotals (Num acc) = Num total
    /\ (total == acc + sumQ (map valueOf subtotals))%Q.
Proof.
  revert acc a. induction subtotals as [|n l IH]; intros acc a Hacc Ha Hall Hlt.
  - exists acc. simpl. split; [done | ring].
  - inversion Hall as [|? ? (q & z & -> & Hq & Hz) Hl]; subst.
    simpl in Hlt.
    assert (Hrest : (0 <= sumQ (map valueOf l))%Q).
    { apply sumQ_nonneg, Forall_map. eapply Forall_impl; [exact Hl |].
      intros n (q' & z' & -> & Hq' & Hz'). simpl.
      rewrite Hq', <- (Zle_Qle 0). exact Hz'. }
    assert (Hsum : a + z < 2 ^ 53).
    { rewrite Zlt_Qlt, inject_Z_plus, <- Hacc, <- Hq.
      eapply Qle_lt_trans; [| exact Hlt].
      rewrite <- (Qplus_0_r (acc + q)) at 1. rewrite Qplus_assoc.
      apply Qplus_le_compat; [apply Qle_refl | exact Hrest]. }
    destruct (double_add_exact acc q a z Hacc Hq Ha Hz Hsum) as (r & Hadd & Hr).
    destruct (IH r (a + z) Hr ltac:(lia) Hl) as (total & Hfold & Htotal).
    + rewrite Hr, inject_Z_plus, <- Hacc, <- Hq.
      by rewrite <- Qplus_assoc.
    + exists total.
      change (fold_left double_add (Num q :: l) (Num acc))
        with (fold_left double_add l (double_add (Num acc) (Num q))).
      rewrite Hadd. split; [exact Hfold |].
      rewrite Htotal, Hr, inject_Z_plus, <- Hacc, <- Hq. simpl. ring.
Qed.

Lemma grandTotal_fold (breakdown : list BreakdownEntry) :
  grandTotal breakdown = fold_left double_add (map subtotal breakdown) (num_of_Z 0).
Proof.
  unfold grandTotal. generalize (num_of_Z 0).
  induction breakdown as [|e l IH]; intros acc; simpl; [done | apply IH].
Qed.

(** The entry of one date, with the optional chaining on [mealOptions]
    written as a search in a possibly empty list. *)
Lemma breakdownEntryOf_eq hotels meals (selections : DailySelectionsState) date :
  let selection := recordAt selections date in
  let hotel := findById hotels (hotelId selection) in
  let lunch := findById (lunchOptions meals) (lunchId selection) in
  let dinner := findById (dinnerOptions meals) (dinnerId selection) in
  breakdownEntryOf hotels meals selections date =
  {| entry_date := date; entry_hotel := hotel; entry_lunch := lunch;
     entry_dinner := dinner;
     subtotal := double_add (double_add (priceOrZero hotel) (priceOrZero lunch))
                            (priceOrZero dinner) |}.
Proof. unfold breakdownEntryOf, recordAt. by destruct meals. Qed.

Lemma breakdownEntryOf_nonNegative hotels meals
    (selections : DailySelectionsState) date :
  Forall (fun e => nonNegative (item_price e)) hotels ->
  Forall (fun e => nonNegative (item_price e)) (lunchOptions meals) ->
  Forall (fun e => nonNegative (item_price e)) (dinnerOptions meals) ->
  nonNegative (subtotal (breakdownEntryOf hotels meals selections date)).
Proof.
  intros Hh Hl Hd. rewrite breakdownEntryOf_eq. simpl.
  repeat apply nonNegative_double_add; by apply priceOrZero_nonNegative.
Qed.

(** The subtotal of a row of whole prices whose exact sum is below 2^53. *)
Lemma breakdownEntryOf_exact hotels meals (selections : DailySelectionsState) date :
  let e := breakdownEntryOf hotels meals selections date in
  Forall (fun e => nonNegative (item_price e)) hotels ->
  Forall (fun e => nonNegative (item_price e)) (lunchOptions meals) ->
  Forall (fun e => nonNegative (item_price e)) (dinnerOptions meals) ->
  Forall (fun e => isInteger (item_price e) = true) hotels ->
  Forall (fun e => isInteger (item_price e) = true) (lunchOptions meals) ->
  Forall (fun e => isInteger (item_price e) = true) (dinnerOptions meals) ->
  (exactSubtotal e < inject_Z (2 ^ 53))%Q ->
  exists q z, subtotal e = Num q /\ (q == inject_Z z)%Q /\ 0 <= z
              /\ (q == exactSubtotal e)%Q.
Proof.
  intros e Hh Hl Hd Wh Wl Wd. subst e. rewrite breakdownEntryOf_eq.
  unfold exactSubtotal. cbn [subtotal entry_hotel entry_lunch entry_dinner].
  set (selection := recordAt selections date).
  destruct (whole_nonNegative_inv _
              (priceOrZero_nonNegative hotels (hotelId selection) Hh)
              (priceOrZero_whole hotels (hotelId selection) Wh))
    as (qh & zh & -> & Hqh & Hzh).
  destruct (whole_nonNegative_inv _
              (priceOrZero_nonNegative _ (lunchId selection) Hl)
              (priceOrZero_whole _ (lunchId selection) Wl))
    as (ql & zl & -> & Hql & Hzl).
  destruct (whole_nonNegative_inv _
              (priceOrZero_nonNegative _ (dinnerId selection) Hd)
              (priceOrZero_whole _ (dinnerId selection) Wd))
    as (qd & zd & -> & Hqd & Hzd).
  cbn [valueOf]. intros Hlt.
  assert (Hsum : zh + zl + zd < 2 ^ 53).
  { rewrite Zlt_Qlt, !inject_Z_plus, <- Hqh, <- Hql, <- Hqd. exact Hlt. }
  destruct (double_add_exact qh ql zh zl Hqh Hql Hzh Hzl ltac:(lia))
    as (r1 & Hadd1 & Hr1).
  destruct (double_add_exact r1 qd (zh + zl) zd Hr1 Hqd ltac:(lia) Hzd Hsum)
    as (r2 & Hadd2 & Hr2).
  exists r2, (zh + zl + zd). rewrite Hadd1, Hadd2.
  split; [done |]. split; [exact Hr2 |]. split; [lia |].
  by rewrite Hr2, !inject_Z_plus, Hqh, Hql, Hqd.
Qed.

Lemma sumQ_member_le (l : list Q) (q : Q) :
  Forall (fun q => (0 <= q)%Q) l -> q ∈ l -> (q <= sumQ l)%Q.
Proof.
  induction 1 as [|x l Hx Hl IH]; intros Hin; [by apply elem_of_nil in Hin |].
  apply elem_of_cons in Hin as [-> | Hin]; simpl.
  - rewrite <- (Qplus_0_r x) at 1.
    apply Qplus_le_compat; [apply Qle_refl | by apply sumQ_nonneg].
  - rewrite <- (Qplus_0_l q).
    apply Qplus_le_compat; [exact Hx | by apply IH].
Qed.

Lemma sumQ_ext {A : Type} (f g : A -> Q) (l : list A) :
  Forall (fun a => (f a == g a)%Q) l -> (sumQ (map f l) == sumQ (map g l))%Q.
Proof.
  induction 1 as [|a l Ha Hl IH]; simpl; [reflexivity |]. by rewrite Ha, IH.
Qed.

(** C7, as the code has it: the breakdown has one entry per date, in
    order. In each entry a selected id resolves to the first item of the
    destination that carries it, at its price; an id that is unselected or
    that no item carries resolves to nothing, at the price 0. The subtotal
    is the three prices added as doubles from left to right, and the grand
    total is the subtotals added as doubles from left to right, starting
    from 0; with non-negative prices both are non-negative numbers. Where
    all prices are whole numbers and the exact sum of the prices of all
    rows is below 2^53, no addition rounds: every subtotal is the exact sum
    of its three prices and the grand total the exact sum of the
    subtotals. *)
Theorem pricing_totals (catalog : Catalog) (config : TripConfig)
    (selections : DailySelectionsState) (tripDates : list string) :
  catalogNonNegative catalog ->
  let breakdown := dailyBreakdown catalog config selections tripDates in
  let hotels := default [] (hotelsByCountry catalog !! destination config) in
  let meals := mealsByCountry catalog !! destination config in
  map entry_date breakdown = tripDates
  /\ Forall (fun e =>
       let selection := recordAt selections (entry_date e) in
       exists hotelPrice lunchPrice dinnerPrice : number,
         resolvesTo hotels (hotelId selection) (entry_hotel e) hotelPrice
         /\ resolvesTo (lunchOptions meals) (lunchId selection)
                       (entry_lunch e) lunchPrice
         /\ resolvesTo (dinnerOptions meals) (dinnerId selection)
                       (entry_dinner e) dinnerPrice
         /\ subtotal e = double_add (double_add hotelPrice lunchPrice) dinnerPrice
         /\ (exactSubtotal e
             == valueOf hotelPrice + valueOf lunchPrice + valueOf dinnerPrice)%Q
         /\ nonNegative (subtotal e)) breakdown
  /\ grandTotal breakdown
     = fold_left double_add (map subtotal breakdown) (num_of_Z 0)
  /\ nonNegative (grandTotal breakdown)
  /\ (catalogWhole catalog ->
      (sumQ (map exactSubtotal breakdown) < inject_Z (2 ^ 53))%Q ->
      Forall (fun e => (valueOf (subtotal e) == exactSubtotal e)%Q) breakdown
      /\ (valueOf (grandTotal breakdown)
          == sumQ (map (fun e => valueOf (subtotal e)) breakdown))%Q
      /\ (valueOf (grandTotal breakdown) == sumQ (map exactSubtotal breakdown))%Q).
Proof.
  intros [Hhotels Hmeals]. simpl. unfold dailyBreakdown.
  set (hotels := default [] (hotelsByCountry catalog !! destination config)).
  set (meals := mealsByCountry catalog !! destination config).
  assert (Hh : Forall (fun e => nonNegative (item_price e)) hotels).
  { unfold hotels.
    destruct (hotelsByCountry catalog !! destination config) as [l|] eqn:Hl; simpl.
    - by eapply Hhotels.
    - constructor. }
  assert (Hm : Forall (fun e => nonNegative (item_price e)) (lunchOptions meals)
               /\ Forall (fun e => nonNegative (item_price e)) (dinnerOptions meals)).
  { unfold meals.
    destruct (mealsByCountry catalog !! destination config) as [m|] eqn:Hl; simpl.
    - by eapply Hmeals.
    - split; constructor. }
  destruct Hm as [Hlunch Hdinner].
  set (rows := map (breakdownEntryOf hotels meals selections) tripDates).
  assert (Hsub : Forall nonNegative (map subtotal rows)).
  { apply Forall_map, Forall_map, Forall_forall. intros date _.
    by apply breakdownEntryOf_nonNegative. }
  split; [| split; [| split; [| split]]].
  - unfold rows. rewrite map_map. rewrite <- (map_id tripDates) at 2.
    apply map_ext. intros date. by rewrite breakdownEntryOf_eq.
  - apply Forall_map, Forall_forall. intros date _.
    pose proof (breakdownEntryOf_nonNegative hotels meals selections date
                  Hh Hlunch Hdinner) as Hnn.
    rewrite breakdownEntryOf_eq in *.
    cbn [entry_date entry_hotel entry_lunch entry_dinner subtotal] in *.
    eexists _, _, _.
    split; [apply findById_resolvesTo |].
    split; [apply findById_resolvesTo |].
    split; [apply findById_resolvesTo |].
    split; [reflexivity |]. split; [reflexivity | exact Hnn].
  - apply grandTotal_fold.
  - rewrite grandTotal_fold. by apply (grandTotal_loop _ 0%Q (Qle_refl 0)).
  - intros [Whotels Wmeals] Hlt.
    assert (Wh : Forall (fun e => isInteger (item_price e) = true) hotels).
    { unfold hotels.
      destruct (hotelsByCountry catalog !! destination config) as [l|] eqn:Hl; simpl.
      - by eapply Whotels.
      - constructor. }
    assert (Wm : Forall (fun e => isInteger (item_price e) = true) (lunchOptions meals)
                 /\ Forall (fun e => isInteger (item_price e) = true)
                           (dinnerOptions meals)).
    { unfold meals.
      destruct (mealsByCountry catalog !! destination config) as [m|] eqn:Hl; simpl.
      - by eapply Wmeals.
      - split; constructor. }
    destruct Wm as [Wlunch Wdinner].
    assert (Hexact_nn : Forall (fun q => (0 <= q)%Q) (map exactSubtotal rows)).
    { apply Forall_map, Forall_map, Forall_forall. intros date _.
      rewrite breakdownEntryOf_eq. unfold exactSubtotal.
      cbn [entry_hotel entry_lunch entry_dinner].
      pose proof (priceOrZero_nonNegative hotels
                    (hotelId (recordAt selections date)) Hh) as H1.
      pose proof (priceOrZero_nonNegative (lunchOptions meals)
                    (lunchId (recordAt selections date)) Hlunch) as H2.
      pose proof (priceOrZero_nonNegative (dinnerOptions meals)
                    (dinnerId (recordAt selections date)) Hdinner) as H3.
      destruct (priceOrZero _) as [|q1]; [done |].
      destruct (priceOrZero _) as [|q2]; [done |].
      destruct (priceOrZero _) as [|q3]; [done |].
      simpl in *. rewrite <- (Qplus_0_l 0).
      apply Qplus_le_compat; [| done].
      rewrite <- (Qplus_0_l 0). by apply Qplus_le_compat. }
    assert (Hrows : Forall (fun e =>
               exists q z, subtotal e = Num q /\ (q == inject_Z z)%Q /\ 0 <= z
                           /\ (q == exactSubtotal e)%Q) rows).
    { apply Forall_map, Forall_forall. intros date Hin.
      apply breakdownEntryOf_exact; try done.
      eapply Qle_lt_trans; [| exact Hlt].
      apply sumQ_member_le; [exact Hexact_nn |].
      apply list_elem_of_fmap. eexists. split; [reflexivity |].
      apply list_elem_of_fmap. by eexists. }
    assert (Heach : Forall (fun e => (valueOf (subtotal e) == exactSubtotal e)%Q) rows).
    { eapply Forall_impl; [exact Hrows |].
      intros e (q & z & -> & _ & _ & Hq). exact Hq. }
    assert (Hsame : (sumQ (map (fun e => valueOf (subtotal e)) rows)
                     == sumQ (map exactSubtotal rows))%Q)
      by (by apply sumQ_ext).
    assert (Hwhole : Forall (fun n => exists q z, n = Num q /\ (q == inject_Z z)%Q
                                                /\ 0 <= z) (map subtotal rows)).
    { apply Forall_map. eapply Forall_impl; [exact Hrows |].
      intros e (q & z & Heq & Hq & Hz & _). by exists q, z. }
    destruct (grandTotal_loop_exact (map subtotal rows) 0%Q 0) as (total & Hfold & Htotal).
    + reflexivity.
    + lia.
    + exact Hwhole.
    + rewrite Qplus_0_l, map_map, Hsame. exact Hlt.
    + assert (Hgrand : (valueOf (grandTotal rows)
                        == sumQ (map (fun e => valueOf (subtotal e)) rows))%Q).
      { rewrite grandTotal_fold. unfold num_of_Z. change (inject_Z 0) with 0%Q.
        rewrite Hfold. simpl valueOf. rewrite Htotal, map_map. ring. }
      split; [exact Heach |]. split; [exact Hgrand |].
      by rewrite Hgrand.
Qed.

Lemma sampleCatalog_nonNegative : catalogNonNegative sampleCatalog.
Proof.
  split.
  - intros country hotels Hl. simpl in Hl.
    apply lookup_singleton_Some in Hl as [_ <-].
    repeat constructor; simpl; unfold Qle; simpl; lia.
  - intros country meals Hl. simpl in Hl.
    apply lookup_singleton_Some in Hl as [_ <-].
    split; repeat constructor; simpl; unfold Qle; simpl; lia.
Defined.

Lemma pricing_totals_witness :
  let selections : DailySelectionsState :=
    {[ "2024-03-01" := sel (Some 101) (Some 1) None;
       "2024-03-03" := sel (Some 102) None None ]} in
  let tripDates := ["2024-03-01"; "2024-03-02"; "2024-03-03"] in
  let breakdown :=
    dailyBreakdown sampleCatalog (sampleConfig FB) selections tripDates in
  (catalogNonNegative sampleCatalog /\ catalogWhole sampleCatalog
   /\ (sumQ (map exactSubtotal breakdown) < inject_Z (2 ^ 53))%Q)
  /\ nonNegative (grandTotal breakdown)
  /\ (valueOf (grandTotal breakdown) == sumQ (map exactSubtotal breakdown))%Q.
Proof.
  intros selections tripDates breakdown.
  assert (Hwhole : catalogWhole sampleCatalog).
  { split.
    - intros country hotels Hl. simpl in Hl.
      apply lookup_singleton_Some in Hl as [_ <-].
      repeat constructor.
    - intros country meals Hl. simpl in Hl.
      apply lookup_singleton_Some in Hl as [_ <-].
      split; repeat constructor. }
  assert (Hbound : (sumQ (map exactSubtotal breakdown) < inject_Z (2 ^ 53))%Q)
    by (vm_compute; reflexivity).
  destruct (pricing_totals sampleCatalog (sampleConfig FB) selections tripDates
              sampleCatalog_nonNegative) as (_ & _ & _ & Hnn & Hexact).
  split.
  { split; [exact sampleCatalog_nonNegative |]. split; [exact Hwhole | exact Hbound]. }
  split; [exact Hnn |].
  exact (proj2 (proj2 (Hexact Hwhole Hbound))).
Defined.

(** C7 as stated fails where the doubles round: with a hotel at 2^53 and a
    lunch at 1 the subtotal is 2^53, not the sum 2^53 + 1 of the two
    prices, and so is the grand total. *)
Lemma pricing_rounds_large_prices :
  let selections : DailySelectionsState :=
    {[ "2024-03-01" := sel (Some 101) (Some 1) None ]} in
  let breakdown :=
    dailyBreakdown largeCatalog (sampleConfig FB) selections ["2024-03-01"] in
  catalogNonNegative largeCatalog
  /\ map (fun e => (priceOrZero (entry_hotel e), priceOrZero (entry_lunch e),
                    priceOrZero (entry_dinner e))) breakdown
     = [(num_of_Z (2 ^ 53), num_of_Z 1, num_of_Z 0)]
  /\ map subtotal breakdown = [num_of_Z (2 ^ 53)]
  /\ grandTotal breakdown = num_of_Z (2 ^ 53)
  /\ Forall (fun e => ~ (valueOf (subtotal e) == exactSubtotal e)%Q) breakdown.
Proof.
  split; [| split; [| split; [| split]]].
  - split.
    + intros country hotels Hl. simpl in Hl.
      apply lookup_singleton_Some in Hl as [_ <-].
      repeat constructor; simpl; unfold Qle; simpl; lia.
    + intros country meals Hl. simpl in Hl.
      apply lookup_singleton_Some in Hl as [_ <-].
      split; repeat constructor; simpl; unfold Qle; simpl; lia.
  - vm_compute. reflexivity.
  - vm_compute. reflexivity.
  - vm_compute. reflexivity.
  - vm_compute. constructor; [discriminate | constructor].
Qed.

(** The figures of the specification: hotel 100 and lunch 20 make 120;
    the subtotals 120, 0 and 45 make 165. *)
Example pricing_scenario :
  let selections : DailySelectionsState :=
    {[ "2024-03-01" := sel (Some 101) (Some 1) None;
       "2024-03-03" := sel (Some 102) None None ]} in
  let breakdown :=
    dailyBreakdown sampleCatalog (sampleConfig FB) selections
                   ["2024-03-01"; "2024-03-02"; "2024-03-03"] in
  map subtotal breakdown = [num_of_Z 120; num_of_Z 0; num_of_Z 45]
  /\ grandTotal breakdown = num_of_Z 165.
Proof. vm_compute. done. Qed.

(** A hotel id left over from another destination finds no hotel and
    counts 0. *)
Example pricing_stale_id :
  let selections : DailySelectionsState :=
    {[ "2024-03-01" := sel (Some 999) (Some 1) None ]} in
  let breakdown :=
    dailyBreakdown sampleCatalog (sampleConfig FB) selections ["2024-03-01"] in
  map entry_hotel breakdown = [None]
  /\ map subtotal breakdown = [num_of_Z 20].
Proof. vm_compute. done. Qed.

(** ** The calendar of the built-in [Date] *)

Lemma isLeapYear_cases y :
  (isLeapYear y = true /\ y mod 4 = 0 /\ (y mod 100 <> 0 \/ y mod 400 = 0))
  \/ (isLeapYear y = false /\ (y mod 4 <> 0 \/ (y mod 100 = 0 /\ y mod 400 <> 0))).
Proof.
  unfold isLeapYear.
  destruct (Z.eqb_spec (y mod 4) 0), (Z.eqb_spec (y mod 100) 0),
    (Z.eqb_spec (y mod 400) 0); simpl; lia.
Qed.

Lemma DayFromYear_succ y : DayFromYear (y + 1) = DayFromYear y + DaysInYear y.
Proof.
  unfold DayFromYear, DaysInYear.
  destruct (isLeapYear_cases y) as [(-> & H)|(-> & H)].
  - zdiv.
  - zdiv.
Qed.

Lemma DayFromYear_mono y y' : y <= y' -> DayFromYear y <= DayFromYear y'.
Proof. unfold DayFromYear. intros H. zdiv. Qed.

Lemma Day_msPerDay n tw : 0 <= tw < msPerDay -> Day (n * msPerDay + tw) = n.
Proof. unfold Day, msPerDay. intros H. zdiv. Qed.

(** [YearFromTime t] is the year whose days contain the day of [t]. *)
Lemma YearFromTime_spec t :
  DayFromYear (YearFromTime t) <= Day t < DayFromYear (YearFromTime t + 1).
Proof.
  unfold YearFromTime. generalize (Day t). intros d.
  set (y0 := 1970 + d * 10000 / 3652425).
  destruct (Z.ltb_spec d (DayFromYear y0)) as [Hlt|Hge].
  - replace (y0 - 1 + 1) with y0 by lia. split; [|lia].
    unfold DayFromYear in *. subst y0. zdiv.
  - destruct (Z.leb_spec (DayFromYear (y0 + 1)) d) as [Hle|Hgt].
    + split; [lia |]. unfold DayFromYear in *. subst y0. zdiv.
    + lia.
Qed.

(** [YearFromTime t] is the largest year that starts at or before [t]. *)
Lemma YearFromTime_largest t y :
  TimeFromYear y <= t <-> y <= YearFromTime t.
Proof.
  pose proof (YearFromTime_spec t) as [Hlo Hhi].
  assert (Hday : forall z, TimeFromYear z <= t <-> DayFromYear z <= Day t).
  { intros z. unfold TimeFromYear, Day, msPerDay. split; intros H; zdiv. }
  rewrite Hday. split.
  - intros Hy. destruct (Z.le_gt_cases y (YearFromTime t)) as [|Hgt]; [done |].
    pose proof (DayFromYear_mono (YearFromTime t + 1) y ltac:(lia)). lia.
  - intros Hy. pose proof (DayFromYear_mono y (YearFromTime t) Hy). lia.
Qed.

Lemma YearFromTime_unique t y :
  DayFromYear y <= Day t < DayFromYear (y + 1) -> YearFromTime t = y.
Proof.
  intros Hy. pose proof (YearFromTime_spec t) as Hs.
  destruct (Z.lt_trichotomy (YearFromTime t) y) as [Hlt|[Heq|Hgt]]; [|done|].
  - pose proof (DayFromYear_mono (YearFromTime t + 1) y ltac:(lia)). lia.
  - pose proof (DayFromYear_mono (y + 1) (YearFromTime t) ltac:(lia)). lia.
Qed.

Lemma DayWithinYear_range t :
  0 <= DayWithinYear t < DaysInYear (YearFromTime t).
Proof.
  unfold DayWithinYear. pose proof (YearFromTime_spec t) as Hs.
  rewrite DayFromYear_succ in Hs. lia.
Qed.

Lemma month_cases m : 1 <= m <= 12 ->
  m = 1 \/ m = 2 \/ m = 3 \/ m = 4 \/ m = 5 \/ m = 6 \/ m = 7 \/ m = 8
  \/ m = 9 \/ m = 10 \/ m = 11 \/ m = 12.
Proof. lia. Qed.

Lemma MakeDay_in_range y m d :
  1 <= m <= 12 ->
  MakeDay y (m - 1) d = DayFromYear y + daysBeforeMonth (isLeapYear y) (m - 1) + d - 1.
Proof.
  intros Hm. unfold MakeDay.
  replace ((m - 1) / 12) with 0 by zdiv.
  replace ((m - 1) mod 12) with (m - 1) by zdiv.
  by rewrite Z.add_0_r.
Qed.

(** The day number of a valid date, read back as a date. *)
Lemma calendarOfDay_dayNumber c : validDate c -> calendarOfDay (dayNumber c) = c.
Proof.
  destruct c as [y m d]. unfold validDate, dayNumber, calendarOfDay. simpl.
  intros [Hm Hd]. rewrite MakeDay_in_range by done.
  set (n := DayFromYear y + daysBeforeMonth (isLeapYear y) (m - 1) + d - 1).
  assert (Hday : Day (n * msPerDay) = n).
  { rewrite <- (Z.add_0_r (n * msPerDay)). apply Day_msPerDay. unfold msPerDay. lia. }
  assert (Hyear : YearFromTime (n * msPerDay) = y).
  { apply YearFromTime_unique. rewrite Hday, DayFromYear_succ. subst n.
    unfold DaysInYear.
    destruct (month_cases m Hm) as [->|[->|[->|[->|[->|[->|[->|[->|[->|[->|[->| ->]]]]]]]]]]];
      simpl in *; destruct (isLeapYear y); simpl in *; lia. }
  unfold MonthFromTime, DateFromTime, MonthFromTime, DayWithinYear, InLeapYear.
  rewrite Hyear, Hday. subst n.
  destruct (month_cases m Hm) as [->|[->|[->|[->|[->|[->|[->|[->|[->|[->|[->| ->]]]]]]]]]]];
    simpl in *; destruct (isLeapYear y); simpl in *; case_ltb; simpl; f_equal; lia.
Qed.

(** The date of a day number is a valid date, and its day number is the
    one it came from. *)
Lemma dayNumber_calendarOfDay n :
  validDate (calendarOfDay n) /\ dayNumber (calendarOfDay n) = n.
Proof.
  unfold validDate, dayNumber, calendarOfDay. simpl.
  set (t := n * msPerDay).
  assert (Hday : Day t = n).
  { unfold t. rewrite <- (Z.add_0_r (n * msPerDay)). apply Day_msPerDay.
    unfold msPerDay. lia. }
  pose proof (DayWithinYear_range t) as Hr.
  assert (Hn : n = DayFromYear (YearFromTime t) + DayWithinYear t)
    by (unfold DayWithinYear; lia).
  unfold DaysInYear in Hr.
  assert (Hm : 0 <= MonthFromTime t <= 11)
    by (unfold MonthFromTime; case_ltb).
  replace (MonthFromTime t + 1 - 1) with (MonthFromTime t) by lia.
  unfold MakeDay.
  replace (MonthFromTime t / 12) with 0 by zdiv.
  replace (MonthFromTime t mod 12) with (MonthFromTime t) by zdiv.
  rewrite Z.add_0_r. clear Hday.
  unfold DateFromTime, MonthFromTime in *. unfold InLeapYear in *.
  generalize dependent (DayWithinYear t). intros dwy Hr Hn Hm.
  generalize dependent (DayFromYear (YearFromTime t)). intros dfy Hn.
  destruct (isLeapYear (YearFromTime t)) eqn:Hleap; simpl in *;
    case_ltb; simpl; rewrite ?Hleap; lia.
Qed.

(** The day after a valid date is a valid date, one day number later. *)
Lemma nextDay_dayNumber c :
  validDate c -> validDate (nextDay c) /\ dayNumber (nextDay c) = dayNumber c + 1.
Proof.
  destruct c as [y m d]. unfold validDate, nextDay, dayNumber. simpl.
  intros [Hm Hd].
  destruct (Z.ltb_spec d (DaysInMonth y (m - 1))) as [Hlt|Hge]; simpl.
  - split; [lia |]. rewrite !MakeDay_in_range by done. lia.
  - assert (d = DaysInMonth y (m - 1)) as -> by lia. clear Hd Hge.
    destruct (Z.ltb_spec m 12) as [Hlt|Hge]; simpl.
    + rewrite !MakeDay_in_range by lia.
      replace (m + 1 - 1) with m by lia.
      destruct (month_cases m Hm) as [->|[->|[->|[->|[->|[->|[->|[->|[->|[->|[->| ->]]]]]]]]]]];
        simpl; destruct (isLeapYear y); simpl; lia.
    + assert (m = 12) as -> by lia.
      rewrite !MakeDay_in_range by lia. rewrite DayFromYear_succ.
      unfold DaysInYear. simpl. destruct (isLeapYear y), (isLeapYear (y + 1)); simpl; lia.
Qed.

Lemma calendarOfDay_succ n : calendarOfDay (n + 1) = nextDay (calendarOfDay n).
Proof.
  destruct (dayNumber_calendarOfDay n) as [Hv Hn].
  destruct (nextDay_dayNumber _ Hv) as [Hv' Hn'].
  rewrite <- (calendarOfDay_dayNumber _ Hv'). f_equal. lia.
Qed.

(** Counting [i] days on from the day number of a valid date gives the
    date [i] calendar days later. *)
Lemma calendarOfDay_addDays c (i : nat) :
  validDate c -> calendarOfDay (dayNumber c + Z.of_nat i) = addDays i c.
Proof.
  intros Hv. induction i as [|i IH].
  - rewrite Z.add_0_r. by apply calendarOfDay_dayNumber.
  - simpl addDays. rewrite <- IH, <- calendarOfDay_succ. f_equal. lia.
Qed.

(** ** Strings of digits and ISO date strings *)

Lemma digit_cases k : 0 <= k <= 9 ->
  k = 0 \/ k = 1 \/ k = 2 \/ k = 3 \/ k = 4 \/ k = 5 \/ k = 6 \/ k = 7
  \/ k = 8 \/ k = 9.
Proof. lia. Qed.

Lemma digitValue_digitChar k : 0 <= k <= 9 -> digitValue (digitChar k) = Some k.
Proof.
  intros Hk.
  destruct (digit_cases k Hk) as [->|[->|[->|[->|[->|[->|[->|[->|[->| ->]]]]]]]]];
    reflexivity.
Qed.

Lemma digitChar_not_T k : 0 <= k <= 9 -> Ascii.eqb (digitChar k) "T" = false.
Proof.
  intros Hk.
  destruct (digit_cases k Hk) as [->|[->|[->|[->|[->|[->|[->|[->|[->| ->]]]]]]]]];
    reflexivity.
Qed.

Lemma noT_nil : noT "".
Proof. constructor. Qed.

Lemma noT_cons c s : Ascii.eqb c "T" = false -> noT s -> noT (String c s).
Proof. intros Hc Hs. unfold noT. simpl. by constructor. Qed.

Lemma noT_app s r : noT s -> noT r -> noT (s +:+ r).
Proof.
  intros Hs Hr. induction s as [|c s IH]; simpl; [done |].
  inversion Hs; subst. apply noT_cons; auto.
Qed.

Lemma noT_padDigits w n acc : noT acc -> noT (padDigits w n acc).
Proof.
  revert n acc. induction w as [|w IH]; intros n acc Hacc; simpl; [done |].
  apply IH, noT_cons; [|done]. apply digitChar_not_T. zdiv.
Qed.

Lemma noT_pad w n : noT (pad w n).
Proof. apply noT_padDigits, noT_nil. Qed.

Lemma noT_isoYear y : noT (isoYear y).
Proof.
  unfold isoYear.
  destruct ((0 <=? y) && (y <=? 9999)); [apply noT_pad |].
  destruct (0 <=? y); (apply noT_cons; [reflexivity | apply noT_pad]).
Qed.

Lemma noT_isoDatePart t : noT (isoDatePart t).
Proof.
  unfold isoDatePart.
  repeat (apply noT_app || apply noT_isoYear || apply noT_pad
          || (apply noT_cons; [reflexivity |]) || apply noT_nil).
Qed.

Lemma beforeT_app s r : noT s -> beforeT (s +:+ String "T" r) = s.
Proof.
  intros Hs. induction s as [|c s IH]; simpl; [done |].
  inversion Hs as [|? ? Hc Hs']; subst. rewrite Hc. f_equal. by apply IH.
Qed.

Lemma isoDateOf_toISOString t :
  bind (toISOString (Some t)) (fun iso => Normal (beforeT iso))
  = Normal (isoDatePart t).
Proof.
  simpl. f_equal. apply (beforeT_app (isoDatePart t)). apply noT_isoDatePart.
Qed.

Lemma isoDatePart_calendar n :
  isoDatePart (n * msPerDay) = isoOfCalendar (calendarOfDay n).
Proof. reflexivity. Qed.

Lemma pad4 y :
  pad 4 y = String (digitChar (y / 10 / 10 / 10 mod 10))
           (String (digitChar (y / 10 / 10 mod 10))
           (String (digitChar (y / 10 mod 10))
           (String (digitChar (y mod 10)) ""))).
Proof. reflexivity. Qed.

Lemma pad2 m :
  pad 2 m = String (digitChar (m / 10 mod 10)) (String (digitChar (m mod 10)) "").
Proof. reflexivity. Qed.

(** Reading back the ISO date string of a valid date. *)
Lemma parseDateOnly_isoOfCalendar c :
  validDate c -> 0 <= year c <= 9999 ->
  parseDateOnly (isoOfCalendar c) = Some (dayNumber c * msPerDay).
Proof.
  destruct c as [y m d]. unfold validDate, isoOfCalendar, dayNumber. simpl.
  intros [Hm Hd] Hy.
  assert (Hd31 : 1 <= d <= 31).
  { unfold DaysInMonth in Hd.
    destruct (month_cases m Hm) as [->|[->|[->|[->|[->|[->|[->|[->|[->|[->|[->| ->]]]]]]]]]]];
      simpl in Hd; try destruct (isLeapYear y); lia. }
  unfold isoYear.
  replace ((0 <=? y) && (y <=? 9999)) with true by lia.
  rewrite pad4, !pad2. unfold parseDateOnly.
  cbv beta iota zeta fix delta
    [String.append String.length substring Nat.eqb negb String.eqb Ascii.eqb
     Bool.eqb andb digitsValue].
  rewrite !digitValue_digitChar by zdiv.
  replace (10 * (10 * (10 * (10 * 0 + y / 10 / 10 / 10 mod 10) + y / 10 / 10 mod 10)
                 + y / 10 mod 10) + y mod 10) with y by zdiv.
  replace (10 * (10 * 0 + m / 10 mod 10) + m mod 10) with m by zdiv.
  replace (10 * (10 * 0 + d / 10 mod 10) + d mod 10) with d by zdiv.
  replace (1 <=? m) with true by lia. replace (m <=? 12) with true by lia.
  replace (1 <=? d) with true by lia.
  replace (d <=? DaysInMonth y (m - 1)) with true by lia.
  unfold MakeDate. f_equal. lia.
Qed.

Lemma Qtrunc_add_Z a b : Qtrunc (inject_Z a + inject_Z b) = a + b.
Proof.
  rewrite <- inject_Z_plus. unfold Qtrunc.
  destruct (Qle_bool 0 (inject_Z (a + b))).
  - apply Qfloor_Z.
  - apply Qceiling_Z.
Qed.

Lemma mapM_Normal {A B : Type} (f : A -> completion B) (g : A -> B) (l : list A) :
  (forall x, x ∈ l -> f x = Normal (g x)) -> mapM f l = Normal (map g l).
Proof.
  induction l as [|x l IH]; intros Hf; simpl; [done |].
  rewrite (Hf x) by (by left). simpl.
  rewrite IH by (intros y Hy; apply Hf; by right). done.
Qed.

Lemma Day_of_Day t : Day (Day t * msPerDay) = Day t.
Proof.
  rewrite <- (Z.add_0_r (Day t * msPerDay)). apply Day_msPerDay.
  unfold msPerDay. lia.
Qed.

(** The date fields of a time value depend on its day only. *)
Lemma calendarOfDay_Day t :
  calendarOfDay (Day t) =
  {| year := YearFromTime t; month := MonthFromTime t + 1; day := DateFromTime t |}.
Proof.
  unfold calendarOfDay, DateFromTime, MonthFromTime, DayWithinYear, InLeapYear,
    YearFromTime.
  by rewrite Day_of_Day.
Qed.

Lemma MakeDay_fields t :
  MakeDay (YearFromTime t) (MonthFromTime t) (DateFromTime t) = Day t.
Proof.
  destruct (dayNumber_calendarOfDay (Day t)) as [_ Hn].
  rewrite calendarOfDay_Day in Hn. unfold dayNumber in Hn. simpl in Hn.
  by replace (MonthFromTime t + 1 - 1) with (MonthFromTime t) in Hn by lia.
Qed.

Lemma MakeDay_shift y m d i : MakeDay y m (d + i) = MakeDay y m d + i.
Proof. unfold MakeDay. lia. Qed.

(** What [setDate] makes of the day shift on a host with a fixed offset. *)
Lemma setDate_fixedOffset h offset t0 (i : Z) :
  fixedOffset h offset ->
  setDate h (num_add (getDate h (Some t0)) (num_of_Z i)) (Some t0)
  = TimeClip (t0 + i * msPerDay).
Proof.
  intros Hoff. unfold setDate, getDate, num_add, num_of_Z, LocalTime, UTC.
  rewrite Qtrunc_add_Z. rewrite (Hoff t0 true).
  rewrite (Hoff (MakeDate _ _) false). f_equal.
  rewrite MakeDay_shift, MakeDay_fields.
  unfold MakeDate, TimeWithinDay, Day, msPerDay. zdiv.
Qed.

Lemma TimeClip_in_range t :
  - 8640000000000000 <= t <= 8640000000000000 -> TimeClip t = Some t.
Proof.
  intros Ht. unfold TimeClip.
  destruct (Z.leb_spec (Z.abs t) 8640000000000000); [done | lia].
Qed.

Lemma dayNumber_lower c :
  validDate c -> 0 <= year c -> -719528 <= dayNumber c.
Proof.
  destruct c as [y m d]. unfold validDate, dayNumber. simpl. intros [Hm Hd] Hy.
  rewrite MakeDay_in_range by done.
  pose proof (DayFromYear_mono 0 y Hy) as Hmono.
  change (DayFromYear 0) with (-719528) in Hmono.
  destruct (month_cases m Hm) as [->|[->|[->|[->|[->|[->|[->|[->|[->|[->|[->| ->]]]]]]]]]]];
    simpl; destruct (isLeapYear y); simpl; lia.
Qed.

(** ** The date-range deriver *)

Lemma newDate_parse_None (h : Host) (s : string) :
  Date_parse h s = None -> newDate h s = None.
Proof. intros Hp. unfold newDate. by rewrite Hp. Qed.

(** C8: for an empty start date, for a start date that does not parse, and
    for [days] below 1, [buildTripDates] returns the empty sequence, and
    returns it normally. *)
Theorem buildTripDates_not_configured (h : Host) (startDate : string)
    (days : number) :
  startDate = "" \/ Date_parse h startDate = None
  \/ num_lt days (num_of_Z 1) = true ->
  buildTripDates h startDate days = Normal [].
Proof.
  intros Hcase. unfold buildTripDates.
  destruct (String.eqb startDate "" || num_lt days (num_of_Z 1)) eqn:Hguard;
    [reflexivity |].
  apply orb_false_iff in Hguard as [Hne Hdays].
  destruct Hcase as [-> | [Hparse | Hlt]].
  - by rewrite String.eqb_refl in Hne.
  - by rewrite (newDate_parse_None h startDate Hparse).
  - congruence.
Qed.

Lemma buildTripDates_not_configured_witness :
  buildTripDates hostUTC "" (num_of_Z 3) = Normal []
  /\ (Date_parse hostUTC "next week" = None
      /\ buildTripDates hostUTC "next week" (num_of_Z 3) = Normal [])
  /\ (num_lt (num_of_Z 0) (num_of_Z 1) = true
      /\ buildTripDates hostUTC "2024-03-01" (num_of_Z 0) = Normal []).
Proof.
  split; [| split; split].
  - apply (buildTripDates_not_configured hostUTC "" (num_of_Z 3)).
    left. reflexivity.
  - reflexivity.
  - apply (buildTripDates_not_configured hostUTC "next week" (num_of_Z 3)).
    right. left. reflexivity.
  - reflexivity.
  - apply (buildTripDates_not_configured hostUTC "2024-03-01" (num_of_Z 0)).
    right. right. reflexivity.
Defined.

(** A start date whose time value is out of range, and [days] that is
    [NaN], give the empty sequence as well. *)
Lemma buildTripDates_invalid_date (h : Host) (startDate : string) (days : number) :
  newDate h startDate = None -> buildTripDates h startDate days = Normal [].
Proof.
  intros Hd. unfold buildTripDates. rewrite Hd.
  by destruct (String.eqb startDate "" || num_lt days (num_of_Z 1)).
Qed.

Lemma buildTripDates_NaN_days (h : Host) (startDate : string) :
  buildTripDates h startDate NaN = Normal [].
Proof.
  unfold buildTripDates.
  destruct (String.eqb startDate "" || num_lt NaN (num_of_Z 1)); [done |].
  by destruct (Number_isNaN (getTime (newDate h startDate))).
Qed.

(** The scenarios of the specification, on a host on UTC. *)
Example buildTripDates_march :
  buildTripDates hostUTC "2024-03-01" (num_of_Z 3)
  = Normal ["2024-03-01"; "2024-03-02"; "2024-03-03"].
Proof. vm_compute. reflexivity. Qed.

Example buildTripDates_month_boundary :
  buildTripDates hostUTC "2024-01-30" (num_of_Z 3)
  = Normal ["2024-01-30"; "2024-01-31"; "2024-02-01"].
Proof. vm_compute. reflexivity. Qed.

Example buildTripDates_year_boundary :
  buildTripDates hostUTC "2023-12-30" (num_of_Z 4)
  = Normal ["2023-12-30"; "2023-12-31"; "2024-01-01"; "2024-01-02"].
Proof. vm_compute. reflexivity. Qed.

(** C1: on a host in New York, a trip of 3 days from 9 March 2024 runs
    over the start of daylight saving time, and the third entry repeats the
    second instead of being 11 March: the day is advanced on the local
    clock, which from 10 March is one hour closer to UTC, and the date is
    then read off in UTC. *)
Theorem buildTripDates_daylight_saving :
  let c := {| year := 2024; month := 3; day := 9 |} in
  isoOfCalendar c = "2024-03-09"
  /\ buildTripDates hostNewYork2024 "2024-03-09" (num_of_Z 3)
     = Normal ["2024-03-09"; "2024-03-10"; "2024-03-10"]
  /\ map (fun i => isoOfCalendar (addDays i c)) [0; 1; 2]%nat
     = ["2024-03-09"; "2024-03-10"; "2024-03-11"].
Proof. vm_compute. done. Qed.

(** The same trip on a host that stays 5 hours behind UTC all year. *)
Example buildTripDates_no_daylight_saving :
  buildTripDates (hostFixed (-5 * msPerHour)) "2024-03-09" (num_of_Z 3)
  = Normal ["2024-03-09"; "2024-03-10"; "2024-03-11"].
Proof. vm_compute. reflexivity. Qed.

Lemma isoOfCalendar_nonempty c : String.eqb (isoOfCalendar c) "" = false.
Proof.
  unfold isoOfCalendar, isoYear.
  destruct ((0 <=? year c) && (year c <=? 9999)); [by rewrite pad4 |].
  by destruct (0 <=? year c).
Qed.

Lemma num_lt_one_false (n : Z) : 1 <= n -> num_lt (num_of_Z n) (num_of_Z 1) = false.
Proof.
  intros Hn. unfold num_lt, num_of_Z. apply negb_false_iff.
  apply Qle_bool_iff. by rewrite <- Zle_Qle.
Qed.

Lemma ToLength_Z (n : Z) : 0 <= n <= 2 ^ 53 - 1 -> ToLength (num_of_Z n) = n.
Proof.
  intros Hn. unfold ToLength, num_of_Z, Qtrunc.
  destruct (Qle_bool 0 (inject_Z n)); rewrite ?Qfloor_Z, ?Qceiling_Z; lia.
Qed.

(** On a host with a fixed offset from UTC, for a valid start date in ISO
    form and a whole number of days that stays in the range of time values,
    [buildTripDates] returns the start date and the calendar days after it,
    [days] of them, in order. *)
Theorem buildTripDates_fixedOffset (h : Host) (offset : Z) (c : CalendarDate)
    (n : nat) :
  fixedOffset h offset ->
  validDate c -> 0 <= year c <= 9999 ->
  (1 <= n)%nat -> dayNumber c + Z.of_nat n <= 100000000 ->
  buildTripDates h (isoOfCalendar c) (num_of_Z (Z.of_nat n))
  = Normal (map (fun i => isoOfCalendar (addDays i c)) (seq 0 n)).
Proof.
  intros Hoff Hv Hy Hn Hrange.
  pose proof (dayNumber_lower c Hv ltac:(lia)) as Hlow.
  unfold buildTripDates.
  assert (Hparse : newDate h (isoOfCalendar c) = Some (dayNumber c * msPerDay)).
  { unfold newDate, Date_parse. rewrite parseDateOnly_isoOfCalendar by done.
    apply TimeClip_in_range. unfold msPerDay. lia. }
  rewrite Hparse, isoOfCalendar_nonempty, num_lt_one_false by lia.
  simpl orb. cbv iota. simpl Number_isNaN. cbv iota.
  unfold Array_from. rewrite ToLength_Z by lia.
  replace (2 ^ 32 - 1 <? Z.of_nat n) with false by lia.
  rewrite Nat2Z.id.
  rewrite (mapM_Normal _
             (fun index => isoOfCalendar (calendarOfDay (dayNumber c + index)))).
  - f_equal. rewrite map_map. apply map_ext_in. intros i _.
    by rewrite calendarOfDay_addDays.
  - intros index Hin. apply list_elem_of_fmap in Hin as (i & -> & Hi).
    apply elem_of_seq in Hi.
    rewrite (setDate_fixedOffset h offset) by done.
    rewrite TimeClip_in_range by (unfold msPerDay; lia).
    rewrite isoDateOf_toISOString. f_equal.
    replace (dayNumber c * msPerDay + Z.of_nat i * msPerDay)
      with ((dayNumber c + Z.of_nat i) * msPerDay) by lia.
    apply isoDatePart_calendar.
Qed.

(** The dates of such a trip are valid dates on consecutive day numbers:
    increasing by one day each, none twice. *)
Lemma addDays_dayNumber (c : CalendarDate) (i : nat) :
  validDate c ->
  validDate (addDays i c) /\ dayNumber (addDays i c) = dayNumber c + Z.of_nat i.
Proof.
  intros Hv. induction i as [|i [IHv IHn]]; simpl.
  - split; [done | lia].
  - destruct (nextDay_dayNumber _ IHv) as [Hv' Hn']. split; [done | lia].
Qed.

Lemma addDays_injective (c : CalendarDate) (i j : nat) :
  validDate c -> addDays i c = addDays j c -> i = j.
Proof.
  intros Hv Heq.
  destruct (addDays_dayNumber c i Hv) as [_ Hi].
  destruct (addDays_dayNumber c j Hv) as [_ Hj].
  rewrite Heq in Hi. lia.
Qed.

Lemma hostFixed_fixedOffset offset : fixedOffset (hostFixed offset) offset.
Proof. intros t isUTC. reflexivity. Qed.

Lemma hostUTC_fixedOffset : fixedOffset hostUTC 0.
Proof. intros t isUTC. reflexivity. Qed.

(** The month boundary of the specification, as an instance. *)
Example buildTripDates_fixedOffset_january :
  let c := {| year := 2024; month := 1; day := 30 |} in
  buildTripDates hostUTC (isoOfCalendar c) (num_of_Z 3)
  = Normal (map (fun i => isoOfCalendar (addDays i c)) [0; 1; 2]%nat).
Proof.
  intros c.
  apply (buildTripDates_fixedOffset hostUTC 0 c 3 hostUTC_fixedOffset).
  - unfold validDate. simpl. lia.
  - simpl. lia.
  - lia.
  - vm_compute. discriminate.
Qed.

(** * Further properties *)

(** ** Edits of the selections slice *)

Lemma updateHotel_lookup date hotel (state : DailySelectionsState) date' :
  updateHotel date hotel state !! date' =
  if decide (date = date') then Some (setHotelId hotel (recordAt state date))
  else state !! date'.
Proof.
  unfold updateHotel. destruct (decide (date = date')) as [->|Hne].
  - by rewrite lookup_insert_eq.
  - by rewrite lookup_insert_ne.
Qed.

Lemma updateMeal_lookup date field mealId (state : DailySelectionsState) date' :
  updateMeal date field mealId state !! date' =
  if decide (date = date')
  then Some (setField field (if truthy mealId then mealId else None)
                      (recordAt state date))
  else state !! date'.
Proof.
  unfold updateMeal, deleteField.
  destruct (decide (date = date')) as [->|Hne]; destruct (truthy mealId); simpl;
    by rewrite ?lookup_insert_eq, ?lookup_insert_ne.
Qed.

Lemma updateHotel_recordAt date hotel (state : DailySelectionsState) :
  recordAt (updateHotel date hotel state) date = setHotelId hotel (recordAt state date).
Proof. unfold recordAt at 1. by rewrite updateHotel_lookup, decide_True. Qed.

(** X1: [updateHotel] writes the hotel id it is given, whatever it is
    (also [undefined], also 0), into the record of the date, creating the
    record if the date had none; the meals of that record and the records
    of all other dates stay as they were, and the date is a key of the
    result. *)
Theorem updateHotel_get_or_create (date : string) (hotel : option number)
    (state : DailySelectionsState) :
  let r := recordAt state date in
  let r' := recordAt (updateHotel date hotel state) date in
  dom (updateHotel date hotel state) = {[date]} ∪ dom state
  /\ updateHotel date hotel state !! date = Some r'
  /\ hotelId r' = hotel /\ lunchId r' = lunchId r /\ dinnerId r' = dinnerId r
  /\ (forall date', date <> date' ->
        updateHotel date hotel state !! date' = state !! date').
Proof.
  simpl. rewrite updateHotel_recordAt.
  split; [apply dom_insert_L |].
  split; [by rewrite updateHotel_lookup, decide_True |].
  do 3 (split; [done |]).
  intros date' Hne. rewrite updateHotel_lookup. by rewrite decide_False.
Qed.

(** X2: [updateMeal] touches one meal field of one record: the hotel id
    and the other meal field of the date, and the records of all other
    dates, stay as they were. The date becomes a key of the result even
    when the edit clears a meal of a date that had no record. *)
Theorem updateMeal_frame (date : string) (field : MealField)
    (mealId : option number) (state : DailySelectionsState) :
  let r := recordAt state date in
  let r' := recordAt (updateMeal date field mealId state) date in
  dom (updateMeal date field mealId state) = {[date]} ∪ dom state
  /\ updateMeal date field mealId state !! date = Some r'
  /\ hotelId r' = hotelId r
  /\ getField (otherField field) r' = getField (otherField field) r
  /\ (forall date', date <> date' ->
        updateMeal date field mealId state !! date' = state !! date').
Proof.
  simpl. rewrite updateMeal_recordAt.
  split.
  { unfold updateMeal. destruct (negb (truthy mealId)); apply dom_insert_L. }
  split; [by rewrite updateMeal_lookup, decide_True |].
  split; [by destruct field |].
  split; [by destruct field |].
  intros date' Hne. rewrite updateMeal_lookup. by rewrite decide_False.
Qed.

(** X3: edits of the selections commute and the last one wins: a hotel
    edit commutes with any meal edit, two meal edits commute unless they
    write the same field of the same date, two hotel edits commute on
    different dates, and a second write of the same field of the same date
    replaces the first. *)
Theorem edits_commute (state : DailySelectionsState) (d d' : string)
    (hotel hotel' : option number) (f f' : MealField) (m m' : option number) :
  updateHotel d hotel (updateMeal d' f m state)
    = updateMeal d' f m (updateHotel d hotel state)
  /\ (d <> d' \/ f <> f' ->
      updateMeal d f m (updateMeal d' f' m' state)
        = updateMeal d' f' m' (updateMeal d f m state))
  /\ (d <> d' ->
      updateHotel d hotel (updateHotel d' hotel' state)
        = updateHotel d' hotel' (updateHotel d hotel state))
  /\ updateHotel d hotel' (updateHotel d hotel state) = updateHotel d hotel' state
  /\ updateMeal d f m' (updateMeal d f m state) = updateMeal d f m' state.
Proof.
  repeat split; try intros Hne; apply map_eq; intros k;
    rewrite ?updateHotel_lookup, ?updateMeal_lookup; unfold recordAt;
    rewrite ?updateHotel_lookup, ?updateMeal_lookup;
    repeat (case_decide; subst; simpl; try done; try congruence).
  all: try (destruct f, f'; simpl; try done; destruct Hne; congruence).
Qed.

(** ** [clearMeals] and [syncWithDates] as operations on the whole state *)

Lemma hotelOnly_empty : hotelOnly emptySelection = emptySelection.
Proof. reflexivity. Qed.

(** X4: [clearMeals] creates and removes no record; a record of a listed
    date has no meal left; dates that are not listed are untouched; a
    second [clearMeals] with the same dates changes nothing; order and
    repetitions in the list of dates do not matter. *)
Theorem clearMeals_whole_state (dates dates' : list string)
    (state : DailySelectionsState) :
  dom (clearMeals dates state) = dom state
  /\ clearMeals dates (clearMeals dates state) = clearMeals dates state
  /\ ((forall d, d ∈ dates <-> d ∈ dates') ->
      clearMeals dates state = clearMeals dates' state)
  /\ (forall d r field, d ∈ dates -> clearMeals dates state !! d = Some r ->
        getField field r = None)
  /\ (forall d, d ∉ dates -> clearMeals dates state !! d = state !! d).
Proof.
  split; [| split; [| split; [| split]]].
  - apply set_eq. intros d. rewrite !elem_of_dom, clearMeals_lookup.
    destruct (decide (d ∈ dates)); [|done].
    destruct (state !! d); simpl; split; intros [r' Hr']; eauto.
  - apply map_eq. intros d. rewrite !clearMeals_lookup.
    destruct (decide (d ∈ dates)); [|done].
    destruct (state !! d); simpl; [|done]. by rewrite hotelOnly_idempotent.
  - intros Hsame. apply map_eq. intros d. rewrite !clearMeals_lookup.
    destruct (decide (d ∈ dates)) as [Hin|Hnin];
      destruct (decide (d ∈ dates')) as [Hin'|Hnin']; try done.
    + by apply Hsame in Hin.
    + by apply Hsame in Hin'.
  - intros d r field Hin. rewrite clearMeals_lookup, decide_True by done.
    destruct (state !! d); simpl; [|done]. intros [= <-]. apply hotelOnly_meals.
  - intros d Hnin. by rewrite clearMeals_lookup, decide_False.
Qed.

(** X5: [syncWithDates] with no date returns the empty mapping; the result
    depends on which dates are listed, not on their order or repetitions;
    and [syncWithDates] returns the state it was given exactly when the keys
    of that state are the listed dates. *)
Theorem syncWithDates_by_date_set (dates dates' : list string)
    (state : DailySelectionsState) :
  syncWithDates [] state = ∅
  /\ ((forall d, d ∈ dates <-> d ∈ dates') ->
      syncWithDates dates state = syncWithDates dates' state)
  /\ (syncWithDates dates state = state <-> dom state = list_to_set dates).
Proof.
  split; [reflexivity |]. split.
  - intros Hsame. apply map_eq. intros d. rewrite !syncWithDates_lookup.
    destruct (decide (d ∈ dates)) as [Hin|Hnin];
      destruct (decide (d ∈ dates')) as [Hin'|Hnin']; try done.
    + by apply Hsame in Hin.
    + by apply Hsame in Hin'.
  - split.
    + intros Heq. rewrite <- Heq at 1. apply set_eq. intros d.
      rewrite elem_of_dom, elem_of_list_to_set, syncWithDates_lookup.
      destruct (decide (d ∈ dates)) as [Hin|Hnin].
      * split; [done | by eauto].
      * split; [by intros [? ?] | done].
    + intros Hdom. apply map_eq. intros d. rewrite syncWithDates_lookup.
      unfold recordAt.
      destruct (decide (d ∈ dates)) as [Hin|Hnin].
      * assert (Hd : d ∈ dom state) by (rewrite Hdom; by apply elem_of_list_to_set).
        apply elem_of_dom in Hd as [r Hr]. by rewrite Hr.
      * assert (Hd : d ∉ dom state) by (rewrite Hdom; by rewrite elem_of_list_to_set).
        apply not_elem_of_dom in Hd. by rewrite Hd.
Qed.

(** X6: two resyncs in a row: a date of the second list carries the record
    of the original state only if the first list had it too, and the empty
    record otherwise (selections of a date that drops out of the trip are
    not restored when the date comes back); when the second list is
    contained in the first, the two resyncs equal the second alone. *)
Theorem syncWithDates_twice (first second : list string)
    (state : DailySelectionsState) (date : string) :
  syncWithDates second (syncWithDates first state) !! date =
    (if decide (date ∈ second)
     then Some (if decide (date ∈ first) then recordAt state date
                else emptySelection)
     else None)
  /\ ((forall d, d ∈ second -> d ∈ first) ->
      syncWithDates second (syncWithDates first state)
        = syncWithDates second state).
Proof.
  assert (Hlookup : forall d,
    syncWithDates second (syncWithDates first state) !! d =
    if decide (d ∈ second)
    then Some (if decide (d ∈ first) then recordAt state d else emptySelection)
    else None).
  { intros d. rewrite syncWithDates_lookup.
    destruct (decide (d ∈ second)); [|done]. f_equal.
    unfold recordAt at 1. rewrite syncWithDates_lookup.
    by destruct (decide (d ∈ first)). }
  split; [apply Hlookup |].
  intros Hsub. apply map_eq. intros d. rewrite Hlookup, syncWithDates_lookup.
  destruct (decide (d ∈ second)) as [Hin|]; [|done].
  by rewrite decide_True by (by apply Hsub).
Qed.

(** X7: [clearMeals] and [syncWithDates] commute, for any two lists of
    dates. *)
Theorem clearMeals_syncWithDates_commute (cleared tripDates : list string)
    (state : DailySelectionsState) :
  syncWithDates tripDates (clearMeals cleared state)
  = clearMeals cleared (syncWithDates tripDates state).
Proof.
  apply map_eq. intros d.
  rewrite syncWithDates_lookup, clearMeals_lookup, syncWithDates_lookup.
  unfold recordAt. rewrite clearMeals_lookup.
  destruct (decide (d ∈ tripDates)); destruct (decide (d ∈ cleared));
    destruct (state !! d); simpl; done.
Qed.

(** ** More on the handlers *)

(** X8: changing the board type to full board or half board sets the
    board type and nothing else: the selections and the loading state are
    untouched. In particular a switch to half board leaves a date that has
    both a lunch and a dinner with both. *)
Theorem handleBoardChange_other_boards (tripDates : list string)
    (code : BoardCode) (s : RootState) :
  code <> NB ->
  let s' := handleBoardChange tripDates code s in
  dailySelections s' = dailySelections s
  /\ loading s' = loading s
  /\ tripConfig s' = updateBoardType code (tripConfig s).
Proof.
  intros Hcode. unfold handleBoardChange.
  destruct (BoardCode_eqb code (boardType (tripConfig s))) eqn:Hsame.
  - apply BoardCode_eqb_eq in Hsame. subst code.
    repeat split. by destruct (tripConfig s).
  - destruct (BoardCode_eqb code NB) eqn:Hnb.
    + apply BoardCode_eqb_eq in Hnb. done.
    + done.
Qed.

Lemma handleBoardChange_other_boards_witness :
  let both := sel (Some 101) (Some 1) (Some 3) in
  let s := sampleStore FB {[ "2024-03-01" := both ]} in
  HB <> NB
  /\ dailySelections (handleBoardChange ["2024-03-01"] HB s) = dailySelections s.
Proof.
  intros both s.
  assert (Hne : HB <> NB) by discriminate.
  split; [exact Hne |].
  exact (proj1 (handleBoardChange_other_boards ["2024-03-01"] HB s Hne)).
Defined.

(** X9: a meal edit, under any board type, leaves the configuration, the
    loading state, the hotel id of the edited date and the records of all
    other dates as they were. *)
Theorem handleMealChange_frame (date : string) (field : MealField)
    (mealId : option number) (s : RootState) :
  let s' := handleMealChange date field mealId s in
  tripConfig s' = tripConfig s
  /\ loading s' = loading s
  /\ hotelId (recordAt (dailySelections s') date)
     = hotelId (recordAt (dailySelections s) date)
  /\ (forall date', date <> date' ->
        dailySelections s' !! date' = dailySelections s !! date').
Proof.
  simpl. unfold handleMealChange.
  destruct (BoardCode_eqb (boardType (tripConfig s)) NB); [done |].
  destruct (truthy mealId && BoardCode_eqb (boardType (tripConfig s)) HB); simpl.
  - split; [done |]. split; [done |]. split.
    + rewrite !updateMeal_recordAt. simpl. by destruct field.
    + intros date' Hne. unfold updateMeal.
      destruct (negb (truthy mealId)); simpl; by rewrite !lookup_insert_ne.
  - split; [done |]. split; [done |]. split.
    + rewrite updateMeal_recordAt. by destruct field.
    + intros date' Hne. unfold updateMeal.
      destruct (negb (truthy mealId)); by rewrite lookup_insert_ne.
Qed.

(** ** More on pricing *)

Lemma valueOf_add_zero n :
  (valueOf (double_add (double_add n (num_of_Z 0)) (num_of_Z 0)) == valueOf n)%Q.
Proof. destruct n as [|q]; simpl; reflexivity. Qed.

(** X10: right after a switch to no board, every row of the breakdown of
    the current dates has no lunch and no dinner, and its subtotal is the
    price of its hotel (0 without one). *)
Theorem noBoard_prices_hotels_only (catalog : Catalog) (tripDates : list string)
    (s : RootState) :
  boardType (tripConfig s) <> NB ->
  let s' := handleBoardChange tripDates NB s in
  Forall (fun e =>
            entry_lunch e = None /\ entry_dinner e = None
            /\ (valueOf (subtotal e) == valueOf (priceOrZero (entry_hotel e)))%Q)
         (dailyBreakdown catalog (tripConfig s') (dailySelections s') tripDates).
Proof.
  intros Hnb. simpl. unfold dailyBreakdown.
  apply Forall_map, Forall_forall. intros date Hin.
  destruct (handleBoardChange_NB tripDates s date Hnb) as (_ & Hclear & _).
  destruct (Hclear Hin) as (Hl & Hd & _).
  rewrite breakdownEntryOf_eq. simpl. rewrite Hl, Hd.
  rewrite !(findById_unresolved _ None) by (by left). simpl.
  split; [done |]. split; [done |]. apply valueOf_add_zero.
Qed.

Lemma noBoard_prices_hotels_only_witness :
  let s := sampleStore FB {[ "2024-03-01" := sel (Some 101) (Some 1) (Some 3) ]} in
  let s' := handleBoardChange ["2024-03-01"] NB s in
  boardType (tripConfig s) <> NB
  /\ Forall (fun e =>
            entry_lunch e = None /\ entry_dinner e = None
            /\ (valueOf (subtotal e) == valueOf (priceOrZero (entry_hotel e)))%Q)
         (dailyBreakdown sampleCatalog (tripConfig s') (dailySelections s')
                         ["2024-03-01"]).
Proof.
  intros s s'.
  assert (Hne : boardType (tripConfig s) <> NB) by discriminate.
  split; [exact Hne |].
  exact (noBoard_prices_hotels_only sampleCatalog ["2024-03-01"] s Hne).
Defined.

(** X11: for a destination that the catalog does not list, neither under
    hotels nor under meals, the breakdown still has one row per date, every
    row has no hotel, no lunch and no dinner and the subtotal 0, whatever
    ids are stored, and the grand total is 0. *)
Theorem pricing_unknown_destination (catalog : Catalog) (config : TripConfig)
    (selections : DailySelectionsState) (tripDates : list string) :
  hotelsByCountry catalog !! destination config = None ->
  mealsByCountry catalog !! destination config = None ->
  let breakdown := dailyBreakdown catalog config selections tripDates in
  Forall (fun e => entry_hotel e = None /\ entry_lunch e = None
                   /\ entry_dinner e = None /\ subtotal e = num_of_Z 0) breakdown
  /\ grandTotal breakdown = num_of_Z 0
  /\ length breakdown = length tripDates.
Proof.
  intros Hh Hm. simpl. unfold dailyBreakdown. rewrite Hh, Hm. simpl.
  split; [| split].
  - apply Forall_map, Forall_forall. intros date _. done.
  - rewrite grandTotal_fold, map_map. simpl.
    induction tripDates as [|d ds IH]; [done | exact IH].
  - apply length_map.
Qed.

Lemma pricing_unknown_destination_witness :
  let config := updateConfig (fun _ => NaN) (K_destination "Atlantis") (sampleConfig FB) in
  let selections : DailySelectionsState :=
    {[ "2024-03-01" := sel (Some 101) (Some 1) None ]} in
  (hotelsByCountry sampleCatalog !! destination config = None
   /\ mealsByCountry sampleCatalog !! destination config = None)
  /\ grandTotal (dailyBreakdown sampleCatalog config selections ["2024-03-01"])
     = num_of_Z 0.
Proof.
  intros config selections.
  assert (Hh : hotelsByCountry sampleCatalog !! destination config = None)
    by (vm_compute; reflexivity).
  assert (Hm : mealsByCountry sampleCatalog !! destination config = None)
    by (vm_compute; reflexivity).
  split; [by split |].
  exact (proj1 (proj2 (pricing_unknown_destination sampleCatalog config selections
                         ["2024-03-01"] Hh Hm))).
Defined.

(** X12: the breakdown reads the records of the trip dates only: two
    states that agree on those dates (a missing record counting as the
    empty one) give the same breakdown, so records left over for other
    dates never reach the prices. *)
Theorem pricing_reads_trip_dates_only (catalog : Catalog) (config : TripConfig)
    (selections selections' : DailySelectionsState) (tripDates : list string) :
  (forall date, date ∈ tripDates ->
     recordAt selections date = recordAt selections' date) ->
  dailyBreakdown catalog config selections tripDates
  = dailyBreakdown catalog config selections' tripDates.
Proof.
  intros Hagree. unfold dailyBreakdown. apply map_ext_in. intros date Hin.
  apply list_elem_of_In in Hin. rewrite !breakdownEntryOf_eq. simpl.
  by rewrite (Hagree date Hin).
Qed.

Lemma syncWithDates_recordAt (state : DailySelectionsState) tripDates date :
  date ∈ tripDates -> recordAt (syncWithDates tripDates state) date = recordAt state date.
Proof.
  intros Hin. unfold recordAt at 1. by rewrite syncWithDates_lookup, decide_True.
Qed.

Lemma pricing_reads_trip_dates_only_witness :
  let stale : DailySelectionsState :=
    {[ "2024-02-28" := sel (Some 102) None None;
       "2024-03-01" := sel (Some 101) (Some 1) None ]} in
  let tripDates := ["2024-03-01"; "2024-03-02"] in
  dailyBreakdown sampleCatalog (sampleConfig FB) stale tripDates
  = dailyBreakdown sampleCatalog (sampleConfig FB) (syncWithDates tripDates stale)
                   tripDates.
Proof.
  intros stale tripDates.
  apply (pricing_reads_trip_dates_only sampleCatalog (sampleConfig FB) stale
           (syncWithDates tripDates stale) tripDates).
  intros date Hin. symmetry. by apply syncWithDates_recordAt.
Defined.

Lemma selectionSummaryMissing_false (breakdown : list BreakdownEntry) :
  selectionSummaryMissing breakdown = false
  <-> Forall (fun e => is_Some (entry_hotel e)) breakdown.
Proof.
  unfold selectionSummaryMissing. induction breakdown as [|e l IH]; simpl.
  - split; [constructor | done].
  - case_bool_decide as He; simpl.
    + rewrite IH. split; [by constructor | by inversion 1].
    + split; [discriminate | by inversion 1].
Qed.

(** X13: the hint that a hotel is missing is off exactly when every trip
    date has a hotel id that some hotel of the current destination carries;
    an id that is unset, or that belongs to another destination, turns it
    on. *)
Theorem selectionSummaryMissing_iff (catalog : Catalog) (config : TripConfig)
    (selections : DailySelectionsState) (tripDates : list string) :
  let hotels := default [] (hotelsByCountry catalog !! destination config) in
  selectionSummaryMissing (dailyBreakdown catalog config selections tripDates) = false
  <-> forall date, date ∈ tripDates ->
        exists item, item ∈ hotels
          /\ strict_eq (item_id item) (hotelId (recordAt selections date)) = true.
Proof.
  simpl. rewrite selectionSummaryMissing_false. unfold dailyBreakdown.
  set (hotels := default [] (hotelsByCountry catalog !! destination config)).
  set (meals := mealsByCountry catalog !! destination config).
  rewrite Forall_map, Forall_forall.
  split; intros Hall date Hin; specialize (Hall date Hin);
    rewrite breakdownEntryOf_eq in *; simpl in *.
  - destruct Hall as [item Hf]. exists item. by apply findById_Some.
  - destruct Hall as (item & Hitem & Heq).
    destruct (findById hotels (hotelId (recordAt selections date))) eqn:Hf; [done |].
    unfold findById in Hf. apply list_elem_of_In in Hitem.
    pose proof (find_none _ _ Hf item Hitem) as Hn. simpl in Hn. congruence.
Qed.

(** ** More on the date-range deriver *)

Lemma Qtrunc_nonneg q : (0 <= q)%Q -> Qtrunc q = Qfloor q.
Proof.
  intros Hq. unfold Qtrunc.
  by replace (Qle_bool 0 q) with true by (symmetry; by apply Qle_bool_iff).
Qed.

Lemma Qfloor_ge (z : Z) q : (inject_Z z <= q)%Q -> z <= Qfloor q.
Proof.
  intros Hq. rewrite <- (Qfloor_Z z). by apply Qfloor_resp_le.
Qed.

Lemma num_lt_one_false_Q q : (1 <= q)%Q -> num_lt (Num q) (num_of_Z 1) = false.
Proof.
  intros Hq. unfold num_lt, num_of_Z. apply negb_false_iff.
  by apply Qle_bool_iff.
Qed.

(** [days] counts by its whole part. *)
Lemma buildTripDates_days_floor (h : Host) (startDate : string) (q : Q) :
  (1 <= q)%Q ->
  buildTripDates h startDate (Num q)
  = buildTripDates h startDate (num_of_Z (Qfloor q)).
Proof.
  intros Hq.
  assert (H1 : 1 <= Qfloor q) by (by apply (Qfloor_ge 1)).
  unfold buildTripDates.
  rewrite num_lt_one_false_Q, num_lt_one_false by done.
  destruct (String.eqb startDate ""); simpl; [done |].
  destruct (Number_isNaN (getTime (newDate h startDate))); [done |].
  unfold Array_from, ToLength, num_of_Z.
  rewrite Qtrunc_nonneg by (apply Qle_trans with 1%Q; done).
  rewrite Qtrunc_nonneg by (change 0%Q with (inject_Z 0); rewrite <- Zle_Qle; lia).
  by rewrite Qfloor_Z.
Qed.

(** X14: on a host whose offset from UTC never changes, for a valid start
    date in ISO form and any number of days from 1 up, whole or not,
    [buildTripDates] returns the start date and the calendar days after it;
    their count is the whole part of [days]. The trip has to end within
    the range of time values. *)
Theorem buildTripDates_fixed_host (h : Host) (offset : Z) (c : CalendarDate)
    (q : Q) :
  fixedOffset h offset ->
  validDate c -> 0 <= year c <= 9999 ->
  (1 <= q)%Q -> dayNumber c + Qfloor q <= 100000000 ->
  buildTripDates h (isoOfCalendar c) (Num q)
  = Normal (map (fun i => isoOfCalendar (addDays i c))
                (seq 0 (Z.to_nat (Qfloor q)))).
Proof.
  intros Hoff Hv Hy Hq Hrange.
  assert (H1 : 1 <= Qfloor q) by (by apply (Qfloor_ge 1)).
  rewrite buildTripDates_days_floor by done.
  rewrite <- (Z2Nat.id (Qfloor q)) at 1 by lia.
  apply (buildTripDates_fixedOffset h offset); try done; lia.
Qed.

Lemma buildTripDates_fixed_host_witness :
  let c := {| year := 2024; month := 2; day := 28 |} in
  (fixedOffset (hostFixed (3 * msPerHour)) (3 * msPerHour) /\ validDate c
   /\ (1 <= 2.5)%Q)
  /\ buildTripDates (hostFixed (3 * msPerHour)) (isoOfCalendar c) (Num 2.5)
     = Normal (map (fun i => isoOfCalendar (addDays i c))
                   (seq 0 (Z.to_nat (Qfloor 2.5)))).
Proof.
  intros c.
  assert (Hv : validDate c) by (unfold validDate; simpl; lia).
  assert (Hq : (1 <= 2.5)%Q) by (unfold Qle; simpl; lia).
  split; [split; [apply hostFixed_fixedOffset | by split] |].
  apply (buildTripDates_fixed_host (hostFixed (3 * msPerHour)) (3 * msPerHour) c 2.5
           (hostFixed_fixedOffset _) Hv).
  - simpl. lia.
  - exact Hq.
  - vm_compute. discriminate.
Defined.

Lemma mapM_Normal_inv {A B : Type} (f : A -> completion B) (l : list A) (r : list B) :
  mapM f l = Normal r -> Forall2 (fun x y => f x = Normal y) l r.
Proof.
  revert r. induction l as [|x l IH]; intros r; simpl.
  - intros [= <-]. constructor.
  - destruct (f x) as [y|e] eqn:Hx; simpl; [|discriminate].
    destruct (mapM f l) as [ys|e] eqn:Hl; simpl; [|discriminate].
    intros [= <-]. constructor; [done | by apply IH].
Qed.

(** X15: on every host, what [buildTripDates] returns is empty or has as
    many entries as [days] says once [ToLength] has cut and clamped it, and
    every entry is the date part of an ISO timestamp, without a time. *)
Theorem buildTripDates_shape (h : Host) (startDate : string) (days : number)
    (dates : list string) :
  buildTripDates h startDate days = Normal dates ->
  (dates = [] \/ Z.of_nat (length dates) = ToLength days)
  /\ Forall (fun date => exists t, date = isoDatePart t) dates.
Proof.
  unfold buildTripDates.
  destruct (String.eqb startDate "" || num_lt days (num_of_Z 1)).
  { intros [= <-]. split; [by left | constructor]. }
  destruct (newDate h startDate) as [t0|] eqn:Hd; simpl.
  2: { intros [= <-]. split; [by left | constructor]. }
  unfold Array_from.
  destruct (2 ^ 32 - 1 <? ToLength days); [discriminate |].
  intros Hm. apply mapM_Normal_inv in Hm. split.
  - right. apply Forall2_length in Hm. rewrite <- Hm.
    rewrite length_map, length_seq.
    assert (0 <= ToLength days).
    { unfold ToLength; destruct days; lia. }
    lia.
  - clear Hd. induction Hm as [|index date l r Hx _ IH]; constructor; [|done].
    match type of Hx with
    | bind (toISOString ?d) _ = _ => destruct d as [t|]
    end; simpl in Hx; [|discriminate].
    injection Hx as <-. exists t.
    apply (beforeT_app (isoDatePart t)), noT_isoDatePart.
Qed.

Lemma buildTripDates_shape_witness :
  let dates := ["2024-03-09"; "2024-03-10"; "2024-03-10"] in
  buildTripDates hostNewYork2024 "2024-03-09" (num_of_Z 3) = Normal dates
  /\ (dates = [] \/ Z.of_nat (length dates) = ToLength (num_of_Z 3)).
Proof.
  intros dates.
  assert (Hrun : buildTripDates hostNewYork2024 "2024-03-09" (num_of_Z 3)
                 = Normal dates) by (vm_compute; reflexivity).
  split; [exact Hrun |].
  exact (proj1 (buildTripDates_shape hostNewYork2024 "2024-03-09" (num_of_Z 3)
                  dates Hrun)).
Defined.

(** X16: on every host, for a start date that is not empty and parses,
    [days] of 2^32 or more makes [buildTripDates] throw a [RangeError]: the
    array cannot be created. *)
Theorem buildTripDates_too_many_days (h : Host) (startDate : string) (q : Q) :
  startDate <> "" -> newDate h startDate <> None ->
  (inject_Z (2 ^ 32) <= q)%Q ->
  buildTripDates h startDate (Num q) = Throw RangeError.
Proof.
  intros Hs Hd Hq. unfold buildTripDates.
  apply String.eqb_neq in Hs. rewrite Hs.
  rewrite num_lt_one_false_Q.
  2: { apply Qle_trans with (inject_Z (2 ^ 32)); [|done].
       change 1%Q with (inject_Z 1). rewrite <- Zle_Qle. lia. }
  simpl. destruct (newDate h startDate) as [t0|]; [|done]. simpl.
  unfold Array_from, ToLength.
  rewrite Qtrunc_nonneg.
  2: { apply Qle_trans with (inject_Z (2 ^ 32)); [|done].
       change 0%Q with (inject_Z 0). rewrite <- Zle_Qle. lia. }
  pose proof (Qfloor_ge _ _ Hq) as Hfl.
  destruct (Z.ltb_spec (2 ^ 32 - 1) (Z.min (Z.max (Qfloor q) 0) (2 ^ 53 - 1)));
    [done | lia].
Qed.

Lemma buildTripDates_too_many_days_witness :
  ("2024-03-01" <> "" /\ newDate hostUTC "2024-03-01" <> None
   /\ (inject_Z (2 ^ 32) <= 99999999999)%Q)
  /\ buildTripDates hostUTC "2024-03-01" (Num 99999999999) = Throw RangeError.
Proof.
  assert (Hs : "2024-03-01" <> "") by discriminate.
  assert (Hd : newDate hostUTC "2024-03-01" <> None) by (vm_compute; discriminate).
  assert (Hq : (inject_Z (2 ^ 32) <= 99999999999)%Q) by (vm_compute; discriminate).
  split; [by repeat split |].
  exact (buildTripDates_too_many_days hostUTC "2024-03-01" 99999999999 Hs Hd Hq).
Defined.

Lemma dayNumber_upper c : validDate c -> dayNumber c < DayFromYear (year c + 1).
Proof.
  destruct c as [y m d]. unfold validDate, dayNumber. simpl. intros [Hm Hd].
  rewrite MakeDay_in_range, DayFromYear_succ by done. unfold DaysInYear.
  destruct (month_cases m Hm) as [->|[->|[->|[->|[->|[->|[->|[->|[->|[->|[->| ->]]]]]]]]]]];
    simpl in *; destruct (isLeapYear y); simpl in *; lia.
Qed.

Lemma dayNumber_year_lower c : validDate c -> DayFromYear (year c) <= dayNumber c.
Proof.
  destruct c as [y m d]. unfold validDate, dayNumber. simpl. intros [Hm Hd].
  rewrite MakeDay_in_range by done.
  destruct (month_cases m Hm) as [->|[->|[->|[->|[->|[->|[->|[->|[->|[->|[->| ->]]]]]]]]]]];
    simpl in *; destruct (isLeapYear y); simpl in *; lia.
Qed.

(** The year of a valid date, from bounds on its day number. *)
Lemma year_bounds c lo hi :
  validDate c -> DayFromYear lo <= dayNumber c < DayFromYear (hi + 1) ->
  lo <= year c <= hi.
Proof.
  intros Hv [Hlo Hhi].
  pose proof (dayNumber_upper c Hv) as Hu.
  pose proof (dayNumber_year_lower c Hv) as Hl.
  split.
  - destruct (Z.le_gt_cases lo (year c)) as [|Hgt]; [done |].
    pose proof (DayFromYear_mono (year c + 1) lo ltac:(lia)). lia.
  - destruct (Z.le_gt_cases (year c) hi) as [|Hgt]; [done |].
    pose proof (DayFromYear_mono (hi + 1) (year c) ltac:(lia)). lia.
Qed.

Lemma mapM_Throw {A B : Type} (f : A -> completion B) (l1 l2 : list A) (x : A) e :
  Forall (fun y => exists v, f y = Normal v) l1 -> f x = Throw e ->
  mapM f (l1 ++ x :: l2) = Throw e.
Proof.
  intros Hl Hx. induction Hl as [|y l [v Hy] _ IH]; simpl.
  - by rewrite Hx.
  - by rewrite Hy, IH.
Qed.

Lemma ToLength_num_of_Z (z : Z) :
  ToLength (num_of_Z z) = Z.min (Z.max z 0) (2 ^ 53 - 1).
Proof.
  unfold ToLength, num_of_Z, Qtrunc.
  destruct (Qle_bool 0 (inject_Z z)); by rewrite ?Qfloor_Z, ?Qceiling_Z.
Qed.

(** X17: on a host whose offset from UTC never changes, for a valid start
    date in ISO form, a trip that runs past the last day a [Date] can hold
    (100 000 000 days after 1 January 1970) makes [buildTripDates] throw a
    [RangeError] instead of returning. *)
Theorem buildTripDates_past_last_day (h : Host) (offset : Z) (c : CalendarDate)
    (n : Z) :
  fixedOffset h offset ->
  validDate c -> 0 <= year c <= 9999 ->
  100000001 < dayNumber c + n ->
  buildTripDates h (isoOfCalendar c) (num_of_Z n) = Throw RangeError.
Proof.
  intros Hoff Hv Hy Hlast.
  pose proof (dayNumber_lower c Hv ltac:(lia)) as Hlow.
  pose proof (dayNumber_upper c Hv) as Hup.
  pose proof (DayFromYear_mono (year c + 1) 10000 ltac:(lia)) as Hmono.
  change (DayFromYear 10000) with 2932897 in Hmono.
  unfold buildTripDates.
  assert (Hparse : newDate h (isoOfCalendar c) = Some (dayNumber c * msPerDay)).
  { unfold newDate, Date_parse. rewrite parseDateOnly_isoOfCalendar by done.
    apply TimeClip_in_range. unfold msPerDay. lia. }
  rewrite Hparse, isoOfCalendar_nonempty, num_lt_one_false by lia.
  simpl orb. cbv iota. simpl Number_isNaN. cbv iota.
  unfold Array_from. rewrite ToLength_num_of_Z.
  destruct (Z.ltb_spec (2 ^ 32 - 1) (Z.min (Z.max n 0) (2 ^ 53 - 1)));
    [done |].
  replace (Z.min (Z.max n 0) (2 ^ 53 - 1)) with n by lia.
  set (k := Z.to_nat (100000001 - dayNumber c)).
  replace (Z.to_nat n) with (k + S (Z.to_nat n - k - 1))%nat by lia.
  rewrite seq_app, map_app. simpl seq. simpl map.
  apply mapM_Throw.
  - apply Forall_map, Forall_forall. intros i Hi. apply elem_of_seq in Hi.
    rewrite (setDate_fixedOffset h offset) by done.
    rewrite TimeClip_in_range by (unfold msPerDay; lia).
    rewrite isoDateOf_toISOString. eauto.
  - rewrite (setDate_fixedOffset h offset) by done.
    unfold TimeClip.
    match goal with
    | |- context [?a <=? ?b] => destruct (Z.leb_spec a b) as [Hle|Hgt]
    end; [|reflexivity].
    unfold msPerDay in Hle. lia.
Qed.

Lemma buildTripDates_past_last_day_witness :
  let c := {| year := 2024; month := 3; day := 1 |} in
  (fixedOffset hostUTC 0 /\ validDate c /\ 100000001 < dayNumber c + 100000000)
  /\ buildTripDates hostUTC (isoOfCalendar c) (num_of_Z 100000000)
     = Throw RangeError.
Proof.
  intros c.
  assert (Hv : validDate c) by (unfold validDate; simpl; lia).
  assert (Hlast : 100000001 < dayNumber c + 100000000) by (vm_compute; reflexivity).
  split; [split; [apply hostUTC_fixedOffset | by split] |].
  apply (buildTripDates_past_last_day hostUTC 0 c 100000000 hostUTC_fixedOffset Hv);
    [simpl; lia | exact Hlast].
Defined.

Lemma addDays_add (i j : nat) c : addDays j (addDays i c) = addDays (j + i) c.
Proof. induction j as [|j IH]; simpl; [done | by rewrite IH]. Qed.

Lemma map_seq_shift {A : Type} (F : nat -> A) (i start len : nat) :
  map (fun j => F (j + i)%nat) (seq start len) = map F (seq (start + i) len).
Proof.
  revert start. induction len as [|len IH]; intros start; simpl; [done |].
  f_equal. apply (IH (S start)).
Qed.

(** X18: on a host whose offset from UTC never changes, a trip can be
    taken up again at any of its dates: [buildTripDates] started at the
    [i]-th date it returned, for the [n - i] days that remain, returns the
    rest of the sequence. Every date it returns therefore parses. *)
Theorem buildTripDates_from_any_date (h : Host) (offset : Z) (c : CalendarDate)
    (n i : nat) (dates : list string) (start : string) :
  fixedOffset h offset ->
  validDate c -> 0 <= year c ->
  dayNumber c + Z.of_nat n <= DayFromYear 10000 ->
  buildTripDates h (isoOfCalendar c) (num_of_Z (Z.of_nat n)) = Normal dates ->
  dates !! i = Some start ->
  buildTripDates h start (num_of_Z (Z.of_nat (n - i))) = Normal (drop i dates).
Proof.
  intros Hoff Hv Hy Hrange Hrun Hi.
  change (DayFromYear 10000) with 2932897 in Hrange.
  assert (Hn : (1 <= n)%nat).
  { destruct n; [|lia]. exfalso.
    unfold buildTripDates in Hrun.
    change (num_lt (num_of_Z (Z.of_nat 0)) (num_of_Z 1)) with true in Hrun.
    rewrite orb_true_r in Hrun. injection Hrun as <-. done. }
  assert (Hy' : 0 <= year c <= 9999).
  { apply year_bounds; [done |]. split.
    - change (DayFromYear 0) with (-719528). by apply dayNumber_lower.
    - change (DayFromYear (9999 + 1)) with 2932897. lia. }
  rewrite (buildTripDates_fixedOffset h offset c n) in Hrun by (done || lia).
  injection Hrun as <-.
  rewrite list_lookup_fmap in Hi.
  destruct (seq 0 n !! i) as [i'|] eqn:Hseq; [|done].
  apply lookup_seq in Hseq as [-> Hlt]. simpl in Hi. injection Hi as <-.
  destruct (addDays_dayNumber c i Hv) as [Hvi Hni].
  assert (Hyi : 0 <= year (addDays i c) <= 9999).
  { apply year_bounds; [done |]. split.
    - change (DayFromYear 0) with (-719528).
      pose proof (dayNumber_lower c Hv ltac:(lia)). lia.
    - change (DayFromYear (9999 + 1)) with 2932897. lia. }
  rewrite (buildTripDates_fixedOffset h offset (addDays i c) (n - i))
    by (done || lia).
  f_equal. rewrite <- (fmap_drop _ i), drop_seq. simpl.
  rewrite <- (map_seq_shift (fun k => isoOfCalendar (addDays k c)) i 0).
  apply map_ext. intros j. by rewrite addDays_add.
Qed.

(** ** Display of a trip date *)

Lemma newDate_isoOfCalendar h c :
  validDate c -> 0 <= year c <= 9999 ->
  newDate h (isoOfCalendar c) = Some (dayNumber c * msPerDay).
Proof.
  intros Hv Hy. pose proof (dayNumber_lower c Hv ltac:(lia)) as Hlow.
  assert (Hup : dayNumber c < 2932897).
  { destruct c as [y m d]. unfold validDate, dayNumber in *. simpl in *.
    destruct Hv as [Hm Hd]. rewrite MakeDay_in_range by done.
    pose proof (DayFromYear_succ y) as Hs. unfold DaysInYear in Hs.
    pose proof (DayFromYear_mono (y + 1) 10000 ltac:(lia)) as Hmono.
    change (DayFromYear 10000) with 2932897 in Hmono.
    destruct (month_cases m Hm) as [->|[->|[->|[->|[->|[->|[->|[->|[->|[->|[->| ->]]]]]]]]]]];
      simpl in *; destruct (isLeapYear y); simpl in *; lia. }
  unfold newDate, Date_parse. rewrite parseDateOnly_isoOfCalendar by done.
  apply TimeClip_in_range. unfold msPerDay. lia.
Qed.

(** X19: on a host whose offset from UTC never changes, [formatDisplayDate]
    writes a trip date with the weekday, month and day of that very date
    when the host is on UTC or east of it, and with those of the day before
    when the host is west of UTC: the date string is parsed as midnight UTC
    and written on the local clock. *)
Theorem formatDisplayDate_fixed_host (renderDate : Z -> Z -> Z -> string)
    (h : Host) (offset : Z) (c : CalendarDate) :
  fixedOffset h offset ->
  validDate c -> 0 <= year c <= 9999 ->
  (0 <= offset < msPerDay ->
   formatDisplayDate renderDate h (isoOfCalendar c)
   = renderDate ((dayNumber c + 4) mod 7) (month c - 1) (day c))
  /\ (- msPerDay <= offset < 0 ->
      forall before, validDate before -> c = nextDay before ->
      formatDisplayDate renderDate h (isoOfCalendar c)
      = renderDate ((dayNumber before + 4) mod 7) (month before - 1) (day before)).
Proof.
  intros Hoff Hv Hy.
  set (n := dayNumber c + offset / msPerDay).
  assert (Hrun : formatDisplayDate renderDate h (isoOfCalendar c) =
    renderDate ((n + 4) mod 7) (month (calendarOfDay n) - 1) (day (calendarOfDay n))).
  { unfold formatDisplayDate.
    rewrite isoOfCalendar_nonempty, newDate_isoOfCalendar by done.
    cbn [Number_isNaN getTime num_of_Z toLocaleDateString].
    unfold LocalTime. rewrite Hoff.
    set (l := dayNumber c * msPerDay + offset).
    assert (Hday : Day l = n).
    { unfold n, l, Day, msPerDay. zdiv. }
    rewrite <- Hday, calendarOfDay_Day. cbn [month day]. unfold WeekDay.
    by replace (MonthFromTime l + 1 - 1) with (MonthFromTime l) by lia. }
  subst n.
  rewrite Hrun. split.
  - intros Hpos. replace (offset / msPerDay) with 0 by (unfold msPerDay in *; zdiv).
    by rewrite Z.add_0_r, calendarOfDay_dayNumber.
  - intros Hneg before Hvb ->.
    destruct (nextDay_dayNumber before Hvb) as [_ Hn].
    replace (offset / msPerDay) with (-1) by (unfold msPerDay in *; zdiv).
    replace (dayNumber (nextDay before) + -1) with (dayNumber before) by lia.
    by rewrite calendarOfDay_dayNumber.
Qed.

Lemma formatDisplayDate_fixed_host_witness :
  let render := fun _ m d : Z => pad 2 (m + 1) +:+ "/" +:+ pad 2 d in
  let before := {| year := 2024; month := 2; day := 29 |} in
  let c := {| year := 2024; month := 3; day := 1 |} in
  let h := hostFixed (-5 * msPerHour) in
  (fixedOffset h (-5 * msPerHour) /\ validDate c /\ validDate before
   /\ c = nextDay before)
  /\ formatDisplayDate render h (isoOfCalendar c)
     = render ((dayNumber before + 4) mod 7) (month before - 1) (day before).
Proof.
  intros render before c h.
  assert (Hv : validDate c) by (unfold validDate; simpl; lia).
  assert (Hb : validDate before) by (unfold validDate; simpl; lia).
  assert (Hn : c = nextDay before) by reflexivity.
  split; [split; [apply hostFixed_fixedOffset | by repeat split] |].
  refine (proj2 (formatDisplayDate_fixed_host render h (-5 * msPerHour) c
                   (hostFixed_fixedOffset _) Hv _) _ before Hb Hn).
  - simpl. lia.
  - unfold msPerDay, msPerHour. lia.
Defined.

(** The fall-backs of [formatDisplayDate]. *)
Lemma formatDisplayDate_fallbacks (renderDate : Z -> Z -> Z -> string)
    (h : Host) (isoDate : string) :
  formatDisplayDate renderDate h "" = "-"
  /\ (isoDate <> "" -> newDate h isoDate = None ->
      formatDisplayDate renderDate h isoDate = isoDate).
Proof.
  split; [reflexivity |]. intros Hne Hd. unfold formatDisplayDate.
  apply String.eqb_neq in Hne. by rewrite Hne, Hd.
Qed.

(** ** The initial state *)

Lemma isoDatePart_of_Day t : isoDatePart t = isoOfCalendar (calendarOfDay (Day t)).
Proof. by rewrite calendarOfDay_Day. Qed.

Lemma todayIso_eq now :
  todayIso now = Normal (isoOfCalendar (calendarOfDay (Day now))).
Proof. unfold todayIso. by rewrite isoDateOf_toISOString, isoDatePart_of_Day. Qed.

Lemma syncWithDates_empty_state tripDates date :
  syncWithDates tripDates ∅ !! date =
  if decide (date ∈ tripDates) then Some emptySelection else None.
Proof. rewrite syncWithDates_lookup. unfold recordAt. by rewrite lookup_empty. Qed.

(** X20: on a host whose offset from UTC never changes, the component
    mounts in this state: the start date is the date the clock shows in
    UTC, the trip has exactly that date and the two after it, each with an
    empty record, the board type is full board, the destination is the
    first country of the table (or empty), and the loading overlay is on
    with its timer running. *)
Theorem mount_initial_trip (h : Host) (offset : Z) (now : Z)
    (countries : list Country) :
  fixedOffset h offset ->
  0 <= YearFromTime now <= 9999 ->
  let today := calendarOfDay (Day now) in
  let dates := map (fun i => isoOfCalendar (addDays i today)) [0; 1; 2]%nat in
  exists a,
    mount h now countries = Normal a
    /\ tripDates a = dates
    /\ tripConfig (store a) =
       {| citizenship := ""; startDate := isoOfCalendar today;
          days := num_of_Z 3;
          destination := default "" (country_name <$> head countries);
          boardType := FB |}
    /\ (forall date, dailySelections (store a) !! date =
          if decide (date ∈ dates) then Some emptySelection else None)
    /\ loading (store a) = {| isLoading := true;
                              loadingMessage := Some "Loading trip data..." |}
    /\ timerPending a = true.
Proof.
  intros Hoff Hy. simpl.
  destruct (dayNumber_calendarOfDay (Day now)) as [Hv Hn].
  assert (Hyear : year (calendarOfDay (Day now)) = YearFromTime now)
    by (by rewrite calendarOfDay_Day).
  assert (Hup : dayNumber (calendarOfDay (Day now)) + 3 <= 100000000).
  { pose proof (YearFromTime_spec now) as [_ Hs].
    pose proof (DayFromYear_mono (YearFromTime now + 1) 10000 ltac:(lia)) as Hm.
    change (DayFromYear 10000) with 2932897 in Hm. lia. }
  eexists. unfold mount, initialStore, tripConfig_initialState.
  rewrite todayIso_eq. simpl.
  rewrite (buildTripDates_fixedOffset h offset _ 3) by (done || lia).
  simpl. repeat split.
  intros date. apply syncWithDates_empty_state.
Qed.

(** ** The component as a machine *)

Lemma sameValue_refl n : sameValue n n = true.
Proof. destruct n as [|q]; [done |]. apply Qeq_bool_iff. reflexivity. Qed.

Lemma buildTripDates_sameValue h s x y :
  sameValue x y = true -> buildTripDates h s x = buildTripDates h s y.
Proof.
  destruct x as [|x], y as [|y]; simpl; try done.
  intros Heq. apply Qeq_bool_iff in Heq.
  assert (H1 : Qle_bool (inject_Z 1) x = Qle_bool (inject_Z 1) y) by (by rewrite Heq).
  assert (H0 : Qle_bool 0 x = Qle_bool 0 y) by (by rewrite Heq).
  assert (Hf : Qfloor x = Qfloor y) by (by rewrite Heq).
  assert (Hc : Qceiling x = Qceiling y) by (by rewrite Heq).
  unfold buildTripDates, Array_from, ToLength, num_lt, num_of_Z, Qtrunc.
  by rewrite H1, H0, Hf, Hc.
Qed.

Lemma noMeals_syncWithDates dates (state : DailySelectionsState) :
  noMeals state -> noMeals (syncWithDates dates state).
Proof.
  intros Hno date r. rewrite syncWithDates_lookup.
  destruct (decide (date ∈ dates)); [|done]. intros [= <-]. unfold recordAt.
  destruct (state !! date) as [r|] eqn:Hr; simpl; [by eapply Hno | done].
Qed.

Lemma dom_syncWithDates dates (state : DailySelectionsState) :
  dom (syncWithDates dates state) = list_to_set dates.
Proof.
  apply set_eq. intros d.
  rewrite elem_of_dom, elem_of_list_to_set, syncWithDates_lookup.
  destruct (decide (d ∈ dates)) as [Hin|Hnin].
  - split; [done | by eauto].
  - split; [by intros [? ?] | done].
Qed.

Lemma dom_clearMeals dates (state : DailySelectionsState) :
  dom (clearMeals dates state) = dom state.
Proof.
  apply set_eq. intros d. rewrite !elem_of_dom, clearMeals_lookup.
  destruct (decide (d ∈ dates)); [|done].
  destruct (state !! d); simpl; split; intros [r' Hr']; eauto.
Qed.

(** The state after the effects of a render with new dates. *)
Lemma runEffects_invariant h dates (s : RootState) :
  buildTripDates h (startDate (tripConfig s)) (days (tripConfig s)) = Normal dates ->
  (boardType (tripConfig s) = NB -> noMeals (dailySelections s)) ->
  appInvariant h (runEffects dates s).
Proof.
  intros Hrun Hnb. unfold appInvariant, runEffects, loadingEffect.
  destruct dates as [|d ds]; simpl.
  - split; [done |]. split; [apply (dom_syncWithDates []) |].
    split; [intros Hb; by apply noMeals_syncWithDates, Hnb |].
    split; [done | by right].
  - split; [done |]. split; [apply (dom_syncWithDates (d :: ds)) |].
    split; [intros Hb; by apply noMeals_syncWithDates, Hnb |].
    split; [done | by left].
Qed.

Lemma insert_dom_member (state : DailySelectionsState) date r :
  date ∈ dom state -> dom (<[date := r]> state) = dom state.
Proof.
  intros Hin. rewrite dom_insert_L. apply set_eq. intros x.
  rewrite elem_of_union, elem_of_singleton.
  split; [intros [->|Hx]; done | by right].
Qed.

Lemma dom_updateMeal_member date field mealId (state : DailySelectionsState) :
  date ∈ dom state -> dom (updateMeal date field mealId state) = dom state.
Proof.
  intros Hin. unfold updateMeal.
  destruct (negb (truthy mealId)); by apply insert_dom_member.
Qed.

(** Every enabled event keeps the invariant. *)
Lemma handleEvent_invariant h S e a a' :
  appInvariant h a -> enabled e a -> handleEvent h S e a = Normal a' ->
  appInvariant h a'.
Proof.
  intros (Hdates & Hdom & Hnb & Hpend & Hload) Hen Hstep.
  assert (Hkeep : forall s,
    startDate (tripConfig s) = startDate (tripConfig (store a)) ->
    days (tripConfig s) = days (tripConfig (store a)) ->
    rerender h a s = Normal {| store := s; tripDates := tripDates a;
                               timerPending := timerPending a |}).
  { intros s Hs Hd. unfold rerender. by rewrite Hs, Hd, String.eqb_refl, sameValue_refl. }
  assert (Hrender : forall s,
    boardType (tripConfig s) = boardType (tripConfig (store a)) ->
    dailySelections s = dailySelections (store a) ->
    loading s = loading (store a) ->
    rerender h a s = Normal a' -> appInvariant h a').
  { intros s Hb Hsel Hl. unfold rerender.
    destruct (String.eqb (startDate (tripConfig (store a))) (startDate (tripConfig s))
              && sameValue (days (tripConfig (store a))) (days (tripConfig s)))
      eqn:Hsame.
    - intros [= <-]. apply andb_true_iff in Hsame as [Hs Hd].
      apply String.eqb_eq in Hs. unfold appInvariant. simpl.
      rewrite <- Hs, <- (buildTripDates_sameValue _ _ _ _ Hd), Hsel, Hl, Hb.
      done.
    - destruct (buildTripDates h (startDate (tripConfig s)) (days (tripConfig s)))
        as [dates|err] eqn:Hrun; simpl; [|done].
      intros [= <-]. apply runEffects_invariant; [done |].
      rewrite Hb, Hsel. exact Hnb. }
  destruct e as [v|v|v|v|code|date hotel|date field mealId|]; simpl in Hstep.
  - refine (Hrender _ _ _ _ Hstep); reflexivity.
  - refine (Hrender _ _ _ _ Hstep); reflexivity.
  - refine (Hrender _ _ _ _ Hstep); reflexivity.
  - refine (Hrender _ _ _ _ Hstep); reflexivity.
  - (* board *)
    rewrite Hkeep in Hstep.
    2,3: unfold handleBoardChange;
         destruct (BoardCode_eqb code (boardType (tripConfig (store a))));
         [done | by destruct (BoardCode_eqb code NB)].
    injection Hstep as <-. unfold appInvariant. simpl.
    unfold handleBoardChange.
    destruct (BoardCode_eqb code (boardType (tripConfig (store a)))) eqn:Hsame.
    { done. }
    destruct (BoardCode_eqb code NB) eqn:Hcode; simpl.
    + apply BoardCode_eqb_eq in Hcode. subst code.
      split; [done |]. split; [by rewrite dom_clearMeals |].
      split; [|done].
      intros _ d r Hr. rewrite clearMeals_lookup in Hr.
      assert (Hin : d ∈ tripDates a).
      { apply (elem_of_list_to_set (C := gset string)). rewrite <- Hdom.
        apply elem_of_dom.
        destruct (decide (d ∈ tripDates a)); [|by eauto].
        destruct (dailySelections (store a) !! d); [by eauto | done]. }
      rewrite decide_True in Hr by done.
      destruct (dailySelections (store a) !! d) as [r0|]; simpl in Hr; [|done].
      injection Hr as <-.
      split; [apply (hotelOnly_meals r0 F_lunchId) | apply (hotelOnly_meals r0 F_dinnerId)].
    + split; [done |]. split; [done |]. split; [|done].
      intros ->. done.
  - (* hotel *)
    rewrite Hkeep in Hstep by done. injection Hstep as <-.
    unfold appInvariant. simpl. simpl in Hen.
    assert (Hin : date ∈ dom (dailySelections (store a))).
    { rewrite Hdom. by apply elem_of_list_to_set. }
    split; [done |]. split; [unfold updateHotel; by rewrite insert_dom_member |].
    split; [|done].
    intros Hb d r. unfold updateHotel. destruct (decide (date = d)) as [->|Hne].
    + rewrite lookup_insert_eq. intros [= <-]. simpl.
      apply elem_of_dom in Hin as [r0 Hr0]. unfold recordAt. rewrite Hr0. simpl.
      by eapply Hnb.
    + rewrite lookup_insert_ne by done. by apply Hnb.
  - (* meal *)
    rewrite Hkeep in Hstep by (by rewrite handleMealChange_tripConfig).
    injection Hstep as <-. unfold appInvariant. simpl. simpl in Hen.
    rewrite handleMealChange_tripConfig.
    assert (Hin : date ∈ dom (dailySelections (store a))).
    { rewrite Hdom. by apply elem_of_list_to_set. }
    unfold handleMealChange.
    destruct (BoardCode_eqb (boardType (tripConfig (store a))) NB) eqn:Hb.
    { done. }
    assert (Hne : boardType (tripConfig (store a)) <> NB).
    { intros Heq. rewrite Heq in Hb. done. }
    destruct (truthy mealId && BoardCode_eqb (boardType (tripConfig (store a))) HB);
      simpl.
    + split; [done |]. split.
      * rewrite !dom_updateMeal_member; [done | done |].
        by rewrite dom_updateMeal_member.
      * split; [done | done].
    + split; [done |]. split; [by rewrite dom_updateMeal_member |].
      split; [done | done].
  - (* timer *)
    injection Hstep as <-. unfold appInvariant. simpl.
    split; [done |]. split; [done |]. split; [done |]. split; done.
Qed.

Lemma mount_invariant h now countries a :
  mount h now countries = Normal a -> appInvariant h a.
Proof.
  unfold mount, initialStore, tripConfig_initialState, todayIso.
  rewrite isoDateOf_toISOString. simpl.
  match goal with
  | |- context [buildTripDates ?hh ?s ?d] =>
      destruct (buildTripDates hh s d) as [dates|err] eqn:Hrun
  end; simpl; [|done].
  intros [= <-]. apply runEffects_invariant; [done | done].
Qed.

Lemma appReachable_invariant h S now countries a :
  appReachable h S now countries a -> appInvariant h a.
Proof.
  induction 1 as [a Hm | a e a' _ IH Hen Hstep].
  - by eapply mount_invariant.
  - by eapply handleEvent_invariant.
Qed.

(** X22: in every state the mounted component can reach, the dates on
    display are what [buildTripDates] returns for the stored start date and
    days, and the selections have a record for exactly those dates. *)
Theorem app_rows_follow_config (h : Host) (StringToNumber : string -> number)
    (now : Z) (countries : list Country) (a : AppState) :
  appReachable h StringToNumber now countries a ->
  buildTripDates h (startDate (tripConfig (store a))) (days (tripConfig (store a)))
    = Normal (tripDates a)
  /\ dom (dailySelections (store a)) = list_to_set (tripDates a).
Proof.
  intros Hr. destruct (appReachable_invariant _ _ _ _ _ Hr) as (H1 & H2 & _).
  by split.
Qed.

(** X23: in every state the mounted component can reach, while the board
    type is no board no record holds a lunch or a dinner, and every row of
    the breakdown is priced at its hotel alone. *)
Theorem app_noBoard_no_meals (h : Host) (StringToNumber : string -> number)
    (now : Z) (countries : list Country) (catalog : Catalog) (a : AppState) :
  appReachable h StringToNumber now countries a ->
  boardType (tripConfig (store a)) = NB ->
  noMeals (dailySelections (store a))
  /\ Forall (fun e =>
              entry_lunch e = None /\ entry_dinner e = None
              /\ (valueOf (subtotal e) == valueOf (priceOrZero (entry_hotel e)))%Q)
           (dailyBreakdown catalog (tripConfig (store a))
                           (dailySelections (store a)) (tripDates a)).
Proof.
  intros Hr Hb.
  destruct (appReachable_invariant _ _ _ _ _ Hr) as (_ & _ & Hnb & _).
  specialize (Hnb Hb). split; [done |].
  unfold dailyBreakdown. apply Forall_map, Forall_forall. intros date _.
  rewrite breakdownEntryOf_eq. simpl.
  assert (Hrec : lunchId (recordAt (dailySelections (store a)) date) = None
                 /\ dinnerId (recordAt (dailySelections (store a)) date) = None).
  { unfold recordAt.
    destruct (dailySelections (store a) !! date) as [r|] eqn:Hl; simpl;
      [by eapply Hnb | done]. }
  destruct Hrec as [-> ->].
  rewrite !(findById_unresolved _ None) by (by left). simpl.
  split; [done |]. split; [done |].
  destruct (priceOrZero _) as [|q]; simpl; [reflexivity | ring].
Qed.

(** X24: in every state the mounted component can reach, a pending timer
    means the loading overlay is on and the trip has dates, and an overlay
    that is on has a timer pending that will hide it, unless the trip has
    no dates. *)
Theorem app_loading_overlay (h : Host) (StringToNumber : string -> number)
    (now : Z) (countries : list Country) (a : AppState) :
  appReachable h StringToNumber now countries a ->
  (timerPending a = true ->
   isLoading (loading (store a)) = true /\ tripDates a <> [])
  /\ (isLoading (loading (store a)) = true ->
      timerPending a = true \/ tripDates a = []).
Proof.
  intros Hr. destruct (appReachable_invariant _ _ _ _ _ Hr) as (_ & _ & _ & H4 & H5).
  by split.
Qed.

(** Sample runs of the component, from a mount on 1 March 2024, 13:33 UTC. *)

Lemma sampleMount_reachable :
  let a := runEffects ["2024-03-01"; "2024-03-02"; "2024-03-03"]
             {| tripConfig := {| citizenship := ""; startDate := "2024-03-01";
                                 days := num_of_Z 3; destination := "";
                                 boardType := FB |};
                dailySelections := initialSelections;
                loading := initialLoading |} in
  appReachable hostUTC (fun _ => NaN) 1709300000000 [] a.
Proof.
  intros a. apply reach_mount. vm_compute. reflexivity.
Defined.

(** X21: what the days input makes of the trip, for a valid start date
    on a host with a fixed offset: a text whose number is [NaN] or 0 gives
    a trip of the start date alone; a text whose number is below 1 and not
    0 (a negative number, a fraction) gives a trip with no date. *)
Theorem daysInputChange_trip (StringToNumber : string -> number) (h : Host)
    (offset : Z) (c : CalendarDate) (text : string) (s : RootState) :
  fixedOffset h offset ->
  validDate c -> 0 <= year c <= 9999 ->
  startDate (tripConfig s) = isoOfCalendar c ->
  let config := tripConfig (daysInputChange StringToNumber text s) in
  (ToBoolean (StringToNumber text) = false ->
   buildTripDates h (startDate config) (days config) = Normal [isoOfCalendar c])
  /\ (ToBoolean (StringToNumber text) = true ->
      num_lt (StringToNumber text) (num_of_Z 1) = true ->
      buildTripDates h (startDate config) (days config) = Normal []).
Proof.
  intros Hoff Hv Hy Hstart. simpl. rewrite Hstart. unfold num_or. split.
  - intros Hfalsy. rewrite Hfalsy.
    pose proof (dayNumber_upper c Hv) as Hup.
    pose proof (DayFromYear_mono (year c + 1) 10000 ltac:(lia)) as Hmono.
    change (DayFromYear 10000) with 2932897 in Hmono.
    apply (buildTripDates_fixedOffset h offset c 1); try done; lia.
  - intros Htruthy Hlt. rewrite Htruthy. unfold buildTripDates.
    by rewrite Hlt, orb_true_r.
Qed.

Lemma daysInputChange_trip_witness :
  let parse := fun text : string =>
    if String.eqb text "-5" then num_of_Z (-5) else NaN in
  let c := {| year := 2024; month := 3; day := 1 |} in
  let s := sampleStore FB ∅ in
  (fixedOffset hostUTC 0 /\ validDate c
   /\ startDate (tripConfig s) = isoOfCalendar c)
  /\ (let config := tripConfig (daysInputChange parse "" s) in
      buildTripDates hostUTC (startDate config) (days config)
      = Normal [isoOfCalendar c])
  /\ (let config := tripConfig (daysInputChange parse "-5" s) in
      buildTripDates hostUTC (startDate config) (days config) = Normal []).
Proof.
  intros parse c s.
  assert (Hv : validDate c) by (unfold validDate; simpl; lia).
  assert (Hy : 0 <= year c <= 9999) by (simpl; lia).
  assert (Hs : startDate (tripConfig s) = isoOfCalendar c) by reflexivity.
  split; [split; [apply hostUTC_fixedOffset | by split] |].
  split.
  - exact (proj1 (daysInputChange_trip parse hostUTC 0 c "" s
                    hostUTC_fixedOffset Hv Hy Hs) eq_refl).
  - exact (proj2 (daysInputChange_trip parse hostUTC 0 c "-5" s
                    hostUTC_fixedOffset Hv Hy Hs) eq_refl eq_refl).
Defined.

Lemma buildTripDates_from_any_date_witness :
  let c := {| year := 2024; month := 1; day := 30 |} in
  let dates := ["2024-01-30"; "2024-01-31"; "2024-02-01"] in
  (fixedOffset hostUTC 0 /\ validDate c
   /\ buildTripDates hostUTC (isoOfCalendar c) (num_of_Z (Z.of_nat 3)) = Normal dates
   /\ dates !! 1%nat = Some "2024-01-31")
  /\ buildTripDates hostUTC "2024-01-31" (num_of_Z (Z.of_nat (3 - 1)))
     = Normal (drop 1 dates).
Proof.
  intros c dates.
  assert (Hv : validDate c) by (unfold validDate; simpl; lia).
  assert (Hrun : buildTripDates hostUTC (isoOfCalendar c) (num_of_Z (Z.of_nat 3))
                 = Normal dates) by (vm_compute; reflexivity).
  assert (Hi : dates !! 1%nat = Some "2024-01-31") by reflexivity.
  split; [split; [apply hostUTC_fixedOffset | by repeat split] |].
  apply (buildTripDates_from_any_date hostUTC 0 c 3 1 dates "2024-01-31"
           hostUTC_fixedOffset Hv); [simpl; lia | | exact Hrun | exact Hi].
  vm_compute. discriminate.
Defined.

Lemma mount_initial_trip_witness :
  let now := 1709300000000 in
  (fixedOffset hostUTC 0 /\ 0 <= YearFromTime now <= 9999)
  /\ exists a, mount hostUTC now [] = Normal a
               /\ tripDates a = ["2024-03-01"; "2024-03-02"; "2024-03-03"].
Proof.
  intros now.
  assert (Hy : 0 <= YearFromTime now <= 9999) by (vm_compute; split; discriminate).
  split; [split; [apply hostUTC_fixedOffset | exact Hy] |].
  destruct (mount_initial_trip hostUTC 0 now [] hostUTC_fixedOffset Hy)
    as (a & Hm & Hd & _).
  exists a. split; [exact Hm |]. rewrite Hd. vm_compute. reflexivity.
Defined.

Lemma sampleNoBoard_reachable :
  let dates := ["2024-03-01"; "2024-03-02"; "2024-03-03"] in
  let mounted :=
    runEffects dates
      {| tripConfig := {| citizenship := ""; startDate := "2024-03-01";
                          days := num_of_Z 3; destination := "";
                          boardType := FB |};
         dailySelections := initialSelections;
         loading := initialLoading |} in
  let a := {| store := handleBoardChange dates NB (store mounted);
              tripDates := dates; timerPending := true |} in
  appReachable hostUTC (fun _ => NaN) 1709300000000 [] a.
Proof.
  intros dates mounted a.
  apply (reach_event _ _ _ _ mounted (E_board NB) a).
  - apply sampleMount_reachable.
  - exact I.
  - vm_compute. reflexivity.
Defined.

Lemma app_rows_follow_config_witness :
  let a := runEffects ["2024-03-01"; "2024-03-02"; "2024-03-03"]
             {| tripConfig := {| citizenship := ""; startDate := "2024-03-01";
                                 days := num_of_Z 3; destination := "";
                                 boardType := FB |};
                dailySelections := initialSelections;
                loading := initialLoading |} in
  appReachable hostUTC (fun _ => NaN) 1709300000000 [] a
  /\ dom (dailySelections (store a)) = list_to_set (tripDates a).
Proof.
  intros a. split; [exact sampleMount_reachable |].
  exact (proj2 (app_rows_follow_config hostUTC (fun _ => NaN) 1709300000000 [] a
                  sampleMount_reachable)).
Defined.

Lemma app_noBoard_no_meals_witness :
  let dates := ["2024-03-01"; "2024-03-02"; "2024-03-03"] in
  let mounted :=
    runEffects dates
      {| tripConfig := {| citizenship := ""; startDate := "2024-03-01";
                          days := num_of_Z 3; destination := "";
                          boardType := FB |};
         dailySelections := initialSelections;
         loading := initialLoading |} in
  let a := {| store := handleBoardChange dates NB (store mounted);
              tripDates := dates; timerPending := true |} in
  (appReachable hostUTC (fun _ => NaN) 1709300000000 [] a
   /\ boardType (tripConfig (store a)) = NB)
  /\ noMeals (dailySelections (store a)).
Proof.
  intros dates mounted a.
  assert (Hb : boardType (tripConfig (store a)) = NB) by reflexivity.
  split; [split; [exact sampleNoBoard_reachable | exact Hb] |].
  exact (proj1 (app_noBoard_no_meals hostUTC (fun _ => NaN) 1709300000000 []
                  sampleCatalog a sampleNoBoard_reachable Hb)).
Defined.

Lemma app_loading_overlay_witness :
  let a := runEffects ["2024-03-01"; "2024-03-02"; "2024-03-03"]
             {| tripConfig := {| citizenship := ""; startDate := "2024-03-01";
                                 days := num_of_Z 3; destination := "";
                                 boardType := FB |};
                dailySelections := initialSelections;
                loading := initialLoading |} in
  (appReachable hostUTC (fun _ => NaN) 1709300000000 [] a
   /\ timerPending a = true)
  /\ isLoading (loading (store a)) = true /\ tripDates a <> [].
Proof.
  intros a.
  assert (Hp : timerPending a = true) by reflexivity.
  split; [split; [exact sampleMount_reachable | exact Hp] |].
  exact (proj1 (app_loading_overlay hostUTC (fun _ => NaN) 1709300000000 [] a
                  sampleMount_reachable) Hp).
Defined.

(** ** Half board across the whole state *)

Lemma atMostOne_setField_None field (r : DailySelection) :
  lunchId (setField field None r) = None \/ dinnerId (setField field None r) = None.
Proof. destruct field; simpl; [by left | by right]. Qed.

Lemma atMostOneMeal_updateMeal_clear date field (state : DailySelectionsState) :
  atMostOneMeal state -> atMostOneMeal (updateMeal date field None state).
Proof.
  intros Hone d r. rewrite updateMeal_lookup.
  destruct (decide (date = d)) as [->|Hne]; [|apply Hone].
  intros [= <-]. apply atMostOne_setField_None.
Qed.

(** X25: on half board, if every date has at most one of lunch and dinner,
    it stays so after any meal edit, any hotel edit and any resync. (The
    switch to half board itself does not make it so, see X8.) *)
Theorem halfBoard_exclusivity_preserved (date : string) (field : MealField)
    (mealId hotel : option number) (dates : list string) (s : RootState) :
  boardType (tripConfig s) = HB ->
  atMostOneMeal (dailySelections s) ->
  atMostOneMeal (dailySelections (handleMealChange date field mealId s))
  /\ atMostOneMeal (dailySelections (handleHotelChange date hotel s))
  /\ atMostOneMeal (dailySelections (syncEffect dates s)).
Proof.
  intros Hb Hone. split; [| split].
  - unfold handleMealChange. rewrite Hb. simpl.
    destruct (truthy mealId) eqn:Ht; simpl.
    + intros d r. rewrite updateMeal_lookup.
      destruct (decide (date = d)) as [->|Hne].
      * intros [= <-]. apply atMostOne_setField_None.
      * rewrite updateMeal_lookup, decide_False by done. apply Hone.
    + intros d r. rewrite updateMeal_lookup, Ht.
      destruct (decide (date = d)) as [->|Hne]; [|apply Hone].
      intros [= <-]. apply atMostOne_setField_None.
  - simpl. intros d r. rewrite updateHotel_lookup.
    destruct (decide (date = d)) as [->|Hne]; [|apply Hone].
    intros [= <-]. simpl. unfold recordAt.
    destruct (dailySelections s !! d) as [r0|] eqn:Hr; simpl;
      [by eapply Hone | by left].
  - simpl. intros d r. rewrite syncWithDates_lookup.
    destruct (decide (d ∈ dates)); [|done]. intros [= <-]. unfold recordAt.
    destruct (dailySelections s !! d) as [r0|] eqn:Hr; simpl;
      [by eapply Hone | by left].
Qed.

Lemma halfBoard_exclusivity_preserved_witness :
  let s := sampleStore HB {[ "2024-03-01" := sel (Some 101) None (Some 3);
                             "2024-03-02" := sel None (Some 1) None ]} in
  (boardType (tripConfig s) = HB /\ atMostOneMeal (dailySelections s))
  /\ atMostOneMeal
       (dailySelections (handleMealChange "2024-03-01" F_lunchId
                           (Some (num_of_Z 1)) s)).
Proof.
  intros s.
  assert (Hb : boardType (tripConfig s) = HB) by reflexivity.
  assert (Hone : atMostOneMeal (dailySelections s)).
  { intros d r Hl. simpl in Hl.
    apply lookup_insert_Some in Hl as [[_ <-]|[_ Hl]]; [by left |].
    apply lookup_singleton_Some in Hl as [_ <-]. by right. }
  split; [by split |].
  exact (proj1 (halfBoard_exclusivity_preserved "2024-03-01" F_lunchId
                  (Some (num_of_Z 1)) None [] s Hb Hone)).
Defined.

(** ** Instances of the properties of the selections slice *)

Lemma edits_commute_witness :
  let state : DailySelectionsState := {[ "2024-03-01" := sel (Some 101) None None ]} in
  ("2024-03-01" <> "2024-03-02" \/ F_lunchId <> F_lunchId)
  /\ updateMeal "2024-03-01" F_lunchId (Some (num_of_Z 1))
       (updateMeal "2024-03-02" F_lunchId (Some (num_of_Z 1)) state)
     = updateMeal "2024-03-02" F_lunchId (Some (num_of_Z 1))
         (updateMeal "2024-03-01" F_lunchId (Some (num_of_Z 1)) state).
Proof.
  intros state.
  assert (Hne : "2024-03-01" <> "2024-03-02" \/ F_lunchId <> F_lunchId)
    by (left; discriminate).
  split; [exact Hne |].
  exact (proj1 (proj2 (edits_commute state "2024-03-01" "2024-03-02" None None
                         F_lunchId F_lunchId (Some (num_of_Z 1))
                         (Some (num_of_Z 1)))) Hne).
Defined.

Lemma clearMeals_whole_state_witness :
  let state : DailySelectionsState :=
    {[ "2024-03-01" := sel (Some 101) (Some 1) (Some 3) ]} in
  let dates := ["2024-03-01"; "2024-03-02"] in
  let dates' := ["2024-03-02"; "2024-03-01"; "2024-03-01"] in
  (forall d, d ∈ dates <-> d ∈ dates')
  /\ clearMeals dates state = clearMeals dates' state.
Proof.
  intros state dates dates'.
  assert (Hsame : forall d, d ∈ dates <-> d ∈ dates').
  { intros d. unfold dates, dates'. rewrite !elem_of_cons. tauto. }
  split; [exact Hsame |].
  exact (proj1 (proj2 (proj2 (clearMeals_whole_state dates dates' state))) Hsame).
Defined.

Lemma syncWithDates_by_date_set_witness :
  let state : DailySelectionsState :=
    {[ "2024-03-01" := sel (Some 101) (Some 1) None;
       "2024-03-02" := sel None None None ]} in
  let dates := ["2024-03-01"; "2024-03-02"] in
  dom state = list_to_set dates /\ syncWithDates dates state = state.
Proof.
  intros state dates.
  assert (Hdom : dom state = list_to_set dates).
  { unfold state, dates. rewrite dom_insert_L, dom_singleton_L. simpl.
    by rewrite (right_id_L ∅ (∪)). }
  split; [exact Hdom |].
  exact (proj2 (proj2 (proj2 (syncWithDates_by_date_set dates dates state))) Hdom).
Defined.

Lemma syncWithDates_twice_witness :
  let state : DailySelectionsState :=
    {[ "2024-03-03" := sel (Some 101) (Some 1) None ]} in
  let shorter := ["2024-03-01"; "2024-03-02"] in
  let longer := ["2024-03-01"; "2024-03-02"; "2024-03-03"] in
  (forall d, d ∈ shorter -> d ∈ longer)
  /\ syncWithDates shorter (syncWithDates longer state) = syncWithDates shorter state.
Proof.
  intros state shorter longer.
  assert (Hsub : forall d, d ∈ shorter -> d ∈ longer).
  { intros d. unfold shorter, longer. rewrite !elem_of_cons. tauto. }
  split; [exact Hsub |].
  exact (proj2 (syncWithDates_twice longer shorter state "2024-03-03") Hsub).
Defined.
